(** * Scenario service: the generation-and-validation pipeline

    A shallow embedding of the scenario service's core
    ([scenario_service/utils/compliance.py], [models/scenario.py],
    [services/scenario_validator.py], [services/scenario_generator.py],
    and the temperature formula of [services/llm_service.py])
    and the properties of it that the specification states, followed by
    further properties that the code itself shows.

    Conventions of the embedding.
    - Python [int] is [Z]; Python [float] scores are exact rationals [Q]
      (the properties below are about which formula is evaluated, never
      about rounding); [str] is [string].
    - A [Dict[str, Any]] that is only looked up is a [gmap string _]; a dict
      that the code iterates is an insertion-ordered association list
      (with [dict_get] and [dict_set]), as Python dicts are.
    - Instants ([datetime.utcnow()]) are microseconds in [Z].
    - A raised exception is the [Raise] case of [Result]; the stateful
      services run in the state-and-exception monad [M] over [World]. *)

From Stdlib Require Import ZArith QArith List String Ascii Bool Lia.
From Stdlib Require Import Sorted Permutation DecimalString Lqa.
From stdpp Require Import base option list gmap strings.
Import ListNotations.
Local Open Scope Z_scope.
#[local] Set Warnings "-register-all".

(** ** Python values, truthiness and exceptions *)

Module Py.

(** The values that occur under [Any] in the service's dictionaries.
    [PyIsoTime t] is the string [datetime.isoformat()] prints for the
    instant [t]. *)
Inductive PyVal : Type :=
| PyNone
| PyBool (b : bool)
| PyInt (z : Z)
| PyFloat (q : Q)
| PyStr (s : string)
| PyIsoTime (t : Z)
| PyList (l : list PyVal)
| PyDict (d : list (string * PyVal)).

(** [bool(v)]: what an [if v:] tests. *)
Definition truthy (v : PyVal) : bool :=
  match v with
  | PyNone => false
  | PyBool b => b
  | PyInt z => negb (z =? 0)
  | PyFloat q => negb (Qeq_bool q 0)
  | PyStr s => negb (String.eqb s "")
  | PyIsoTime _ => true
  | PyList l => match l with [] => false | _ => true end
  | PyDict d => match d with [] => false | _ => true end
  end.

(** [bool(d.get(k))]: an absent key yields [None], which is falsy. *)
Definition truthy_get (d : gmap string PyVal) (k : string) : bool :=
  match d !! k with
  | Some v => truthy v
  | None => false
  end.

Inductive Exc : Type :=
| ValueError (msg : string)
| KeyError (key : string)
| TypeError (msg : string)
| ZeroDivisionError
| RuntimeError (msg : string)
| ContentSourceError (msg : string).

Inductive Result (A : Type) : Type :=
| Ok (a : A)
| Raise (e : Exc).
Arguments Ok {A} a.
Arguments Raise {A} e.

Definition rbind {A B} (r : Result A) (k : A -> Result B) : Result B :=
  match r with
  | Ok a => k a
  | Raise e => Raise e
  end.

Definition is_Ok {A} (r : Result A) : bool :=
  match r with Ok _ => true | Raise _ => false end.

(** [str(n)] of an [int]. *)
Definition str_of_int (z : Z) : string := NilZero.string_of_int (Z.to_int z).

(** [s.lower()], on the ASCII letters. *)
Definition lower_ascii (c : ascii) : ascii :=
  let n := nat_of_ascii c in
  if (Nat.leb 65 n && Nat.leb n 90)%bool then ascii_of_nat (n + 32) else c.

Fixpoint lower (s : string) : string :=
  match s with
  | EmptyString => EmptyString
  | String c r => String (lower_ascii c) (lower r)
  end.

(** An insertion-ordered dictionary: [d[k] = v] overwrites in place or
    appends, [d.get(k)] finds the binding of [k]. *)
Fixpoint dict_get {V} (d : list (string * V)) (k : string) : option V :=
  match d with
  | [] => None
  | (k', v) :: r => if String.eqb k' k then Some v else dict_get r k
  end.

Fixpoint dict_set {V} (d : list (string * V)) (k : string) (v : V)
  : list (string * V) :=
  match d with
  | [] => [(k, v)]
  | (k', v') :: r =>
      if String.eqb k' k then (k, v) :: r else (k', v') :: dict_set r k v
  end.

(** [sum(q for ...)] over floats, left to right from [0]. *)
Definition qsum (l : list Q) : Q := fold_left Qplus l 0%Q.

(** [sum(z for ...)] over ints. *)
Definition zsum (l : list Z) : Z := fold_left Z.add l 0.

End Py.
Import Py.

Notation "x <-? r ; k" := (rbind r (fun x => k))
  (at level 100, r at next level, right associativity).

(** ** Compliance frameworks and scoring ([utils/compliance.py]) *)

Module Compliance.

(** A control of a framework: [COMPLIANCE_FRAMEWORKS[f]['controls'][c]]. *)
Record Control : Type := {
  control_name : string;
  control_description : string;
  requirements : list string;
  severity : string;
  category : option string
}.

(** An entry of [COMPLIANCE_FRAMEWORKS]. *)
Record FrameworkDef : Type := {
  fw_name : string;
  fw_version : string;
  fw_controls : gmap string Control
}.

(** [COMPLIANCE_FRAMEWORKS] as shipped: one critical control per framework. *)
Definition COMPLIANCE_FRAMEWORKS : gmap string FrameworkDef :=
  <["soc2" := {|
      fw_name := "SOC 2"; fw_version := "2017";
      fw_controls :=
        <["cc1" := {|
            control_name := "CC1.0";
            control_description :=
              "Common Criteria Related to Organization and Management";
            requirements :=
              ["cc1.1: Demonstrate commitment to integrity and ethical values";
               "cc1.2: Exercise oversight responsibility";
               "cc1.3: Establish structure, authority, and responsibility";
               "cc1.4: Demonstrate commitment to competence"];
            severity := "critical";
            category := None |}]> ∅ |}]>
  (<["gdpr" := {|
      fw_name := "GDPR"; fw_version := "2018";
      fw_controls :=
        <["art5" := {|
            control_name := "Article 5";
            control_description :=
              "Principles relating to processing of personal data";
            requirements :=
              ["art5.1.a: Lawfulness, fairness and transparency";
               "art5.1.b: Purpose limitation";
               "art5.1.c: Data minimisation"];
            severity := "critical";
            category := None |}]> ∅ |}]> ∅).

Definition COMPLIANCE_THRESHOLD : Q := 95 # 100.

Definition CONTROL_WEIGHTS : list (string * Q) :=
  [("critical", 1%Q); ("high", 8 # 10); ("medium", 6 # 10); ("low", 4 # 10)].

Record LevelConfig : Type := {
  threshold : Q;
  require_evidence : bool
}.

Definition VALIDATION_LEVELS : list (string * LevelConfig) :=
  [("strict", {| threshold := 95 # 100; require_evidence := true |});
   ("standard", {| threshold := 85 # 100; require_evidence := false |})].

(** [d[k]] on a table: [KeyError] when [k] is absent. *)
Definition table_get {V} (d : list (string * V)) (k : string) : Result V :=
  match dict_get d k with
  | Some v => Ok v
  | None => Raise (KeyError k)
  end.

(** The evidence a scenario supplies for one control: the dict
    [scenario_mapping['controls'][control_id]].  The code reads its keys
    ['controls'] (requirement -> implementation data) and ['evidence']. *)
Record Implementation : Type := {
  impl_controls : option (gmap string (gmap string PyVal));
  impl_evidence : option (gmap string PyVal)
}.

(** A scenario's [compliance_mappings]: its key ['controls'], in insertion
    order. *)
Record ComplianceMapping : Type := {
  mapping_controls : option (list (string * Implementation))
}.

(** The framework object [ComplianceFramework(id=..., **COMPLIANCE_FRAMEWORKS[id])]. *)
Record ComplianceFramework : Type := {
  id : string;
  name : string;
  version : string;
  controls : gmap string Control;
  control_weights : list (string * Q);
  minimum_score : Q
}.

Record Finding : Type := {
  finding_requirement : string;
  finding_score : Q;
  finding_evidence : option PyVal
}.

Record ControlValidation : Type := {
  cv_timestamp : Z;
  cv_framework : string;
  cv_control : string;
  cv_level : string;
  cv_score : Q;
  cv_findings : list Finding;
  cv_requirements_met : Z;
  cv_total_requirements : Z;
  cv_is_compliant : bool
}.

(** [ComplianceFramework._validate_requirement] *)
Definition _validate_requirement (requirement : string)
    (implementation : Implementation) (level_config : LevelConfig) : Q :=
  match default ∅ (impl_controls implementation) !! requirement with
  | None => 0%Q
  | Some implementation_data =>
      if bool_decide (implementation_data = ∅) then 0%Q
      else
        let score := 0%Q in
        let score :=
          if truthy_get implementation_data "description"
          then (score + (4 # 10))%Q else score in
        if require_evidence level_config then
          let score :=
            if truthy_get implementation_data "evidence"
            then (score + (3 # 10))%Q else score in
          if truthy_get implementation_data "artifacts"
          then (score + (3 # 10))%Q else score
        else (score + (6 # 10))%Q
  end.

(** The loop of [validate_control] over the control's requirements:
    running total, requirements met, findings. *)
Fixpoint requirements_loop (reqs : list string) (implementation : Implementation)
    (level_config : LevelConfig) (acc : Q * Z * list Finding)
  : Q * Z * list Finding :=
  match reqs with
  | [] => acc
  | requirement :: rest =>
      let '(total_score, requirements_met, findings) := acc in
      let requirement_score :=
        _validate_requirement requirement implementation level_config in
      let total_score := (total_score + requirement_score)%Q in
      let requirements_met :=
        if Qle_bool (threshold level_config) requirement_score
        then requirements_met + 1 else requirements_met in
      let findings := findings ++
        [{| finding_requirement := requirement;
            finding_score := requirement_score;
            finding_evidence :=
              default ∅ (impl_evidence implementation) !! requirement |}] in
      requirements_loop rest implementation level_config
        (total_score, requirements_met, findings)
  end.

(** [ComplianceFramework.validate_control] *)
Definition validate_control (now : Z) (self : ComplianceFramework)
    (control_id : string) (implementation : Implementation)
    (validation_level : string) : Result (bool * Q * ControlValidation) :=
  match controls self !! control_id with
  | None => Raise (ValueError ("Invalid control ID: " +:+ control_id))
  | Some control =>
      level_config <-? table_get VALIDATION_LEVELS validation_level;
      let '(total_score, requirements_met, findings) :=
        requirements_loop (requirements control) implementation level_config
          (0%Q, 0, []) in
      let n := Z.of_nat (length (requirements control)) in
      if n =? 0 then Raise ZeroDivisionError
      else
        let control_score := (total_score / inject_Z n)%Q in
        let is_compliant := Qle_bool (threshold level_config) control_score in
        Ok (is_compliant, control_score,
            {| cv_timestamp := now;
               cv_framework := id self;
               cv_control := control_id;
               cv_level := validation_level;
               cv_score := control_score;
               cv_findings := findings;
               cv_requirements_met := requirements_met;
               cv_total_requirements := n;
               cv_is_compliant := is_compliant |})
  end.

(** One entry of [validation_results['controls']]. *)
Record ControlResult : Type := {
  compliant : bool;
  score : Q;
  details : option ControlValidation
}.

Record Summary : Type := {
  total_controls : Z;
  compliant_controls : Z;
  overall_score : Q
}.

Record ControlScore : Type := {
  cs_score : Q;
  cs_weight : Q;
  cs_weighted_score : Q
}.

Record CategoryScore : Type := {
  cat_total_score : Q;
  cat_count : Z;
  cat_average : option Q
}.

(** What [calculate_compliance_score] returns. *)
Record ScoreBreakdown : Type := {
  sb_timestamp : Z;
  sb_framework : string;
  sb_overall_score : Q;
  sb_control_scores : list (string * ControlScore);
  sb_category_scores : list (string * CategoryScore);
  sb_evidence_score : option Q
}.

(** The report [validate_compliance_mapping] returns; the last three keys
    are the ones the validator adds to it afterwards. *)
Record ValidationResults : Type := {
  vr_timestamp : Z;
  vr_framework : string;
  vr_validation_level : string;
  vr_controls : list (string * ControlResult);
  vr_summary : Summary;
  vr_score_details : option ScoreBreakdown;
  vr_threshold : option Q;
  vr_is_compliant : option bool
}.

Section Registry.

(** The module-level table [COMPLIANCE_FRAMEWORKS] the functions read. *)
Variable registry : gmap string FrameworkDef.

(** [ComplianceFramework(id=framework_id, **COMPLIANCE_FRAMEWORKS[framework_id])],
    with the [validate_framework_id] validator. *)
Definition ComplianceFramework_init (framework_id : string) (d : FrameworkDef)
  : Result ComplianceFramework :=
  match registry !! lower framework_id with
  | None => Raise (ValueError ("Unsupported compliance framework: " +:+ framework_id))
  | Some _ =>
      Ok {| id := lower framework_id;
            name := fw_name d;
            version := fw_version d;
            controls := fw_controls d;
            control_weights := CONTROL_WEIGHTS;
            minimum_score := COMPLIANCE_THRESHOLD |}
  end.

(** The loop of [validate_compliance_mapping] over the mapping's controls:
    the report's [controls], the running [total_score], and the two
    counters of the summary. *)
Fixpoint mapping_loop (now : Z) (framework : ComplianceFramework)
    (items : list (string * Implementation)) (validation_level : string)
    (detailed_report : bool) (acc : list (string * ControlResult) * Q * Z * Z)
  : Result (list (string * ControlResult) * Q * Z * Z) :=
  match items with
  | [] => Ok acc
  | (control_id, control_data) :: rest =>
      let '(results, total_score, total, n_compliant) := acc in
      r <-? validate_control now framework control_id control_data validation_level;
      let '(is_compliant, score, details) := r in
      let results := dict_set results control_id
        {| compliant := is_compliant;
           score := score;
           details := if detailed_report then Some details else None |} in
      let total_score := (total_score + score)%Q in
      let total := total + 1 in
      let n_compliant := if is_compliant then n_compliant + 1 else n_compliant in
      mapping_loop now framework rest validation_level detailed_report
        (results, total_score, total, n_compliant)
  end.

(** [validate_compliance_mapping] *)
Definition validate_compliance_mapping (now : Z)
    (scenario_mapping : ComplianceMapping) (framework_id : string)
    (validation_level : string) (detailed_report : bool)
  : Result (bool * ValidationResults) :=
  match registry !! framework_id with
  | None => Raise (ValueError ("Unsupported compliance framework: " +:+ framework_id))
  | Some d =>
      framework <-? ComplianceFramework_init framework_id d;
      acc <-? mapping_loop now framework
                (default [] (mapping_controls scenario_mapping))
                validation_level detailed_report ([], 0%Q, 0, 0);
      let '(results, total_score, total, n_compliant) := acc in
      let overall :=
        if 0 <? total then (total_score / inject_Z total)%Q else 0%Q in
      level_config <-? table_get VALIDATION_LEVELS validation_level;
      let is_compliant := Qle_bool (threshold level_config) overall in
      Ok (is_compliant,
          {| vr_timestamp := now;
             vr_framework := framework_id;
             vr_validation_level := validation_level;
             vr_controls := results;
             vr_summary := {| total_controls := total;
                              compliant_controls := n_compliant;
                              overall_score := overall |};
             vr_score_details := None;
             vr_threshold := None;
             vr_is_compliant := None |})
  end.

(** [category_scores[category]['total_score'] += s; ...['count'] += 1],
    creating the entry on first use. *)
Definition bump_category (cats : list (string * CategoryScore))
    (category : string) (s : Q) : list (string * CategoryScore) :=
  let cur := default {| cat_total_score := 0%Q; cat_count := 0;
                        cat_average := None |} (dict_get cats category) in
  dict_set cats category
    {| cat_total_score := (cat_total_score cur + s)%Q;
       cat_count := cat_count cur + 1;
       cat_average := cat_average cur |}.

(** The loop of [calculate_compliance_score] over the scored controls:
    [weighted_score], [total_weight], per-control and per-category scores. *)
Fixpoint score_loop (fw_ctrls : gmap string Control)
    (items : list (string * ControlResult))
    (acc : Q * Q * list (string * ControlScore) * list (string * CategoryScore))
  : Result (Q * Q * list (string * ControlScore) * list (string * CategoryScore)) :=
  match items with
  | [] => Ok acc
  | (control_id, result) :: rest =>
      let '(weighted_score, total_weight, cscores, cats) := acc in
      match fw_ctrls !! control_id with
      | None => Raise (KeyError control_id)
      | Some control =>
          weight <-? table_get CONTROL_WEIGHTS (severity control);
          let weighted_score := (weighted_score + score result * weight)%Q in
          let total_weight := (total_weight + weight)%Q in
          let cscores := dict_set cscores control_id
            {| cs_score := score result;
               cs_weight := weight;
               cs_weighted_score := (score result * weight)%Q |} in
          let cats := bump_category cats
            (default "uncategorized" (category control)) (score result) in
          score_loop fw_ctrls rest (weighted_score, total_weight, cscores, cats)
      end
  end.

Definition category_average (c : CategoryScore) : CategoryScore :=
  if 0 <? cat_count c
  then {| cat_total_score := cat_total_score c;
          cat_count := cat_count c;
          cat_average := Some (cat_total_score c / inject_Z (cat_count c))%Q |}
  else c.

(** [calculate_compliance_score] *)
Definition calculate_compliance_score (now : Z)
    (validation_results : ValidationResults) (framework_id : string)
    (include_evidence_score : bool) : Result ScoreBreakdown :=
  match registry !! framework_id with
  | None => Raise (KeyError framework_id)
  | Some framework =>
      acc <-? score_loop (fw_controls framework)
                (vr_controls validation_results) (0%Q, 0%Q, [], []);
      let '(weighted_score, total_weight, cscores, cats) := acc in
      let overall :=
        if negb (Qle_bool total_weight 0)
        then (weighted_score / total_weight)%Q else 0%Q in
      Ok {| sb_timestamp := now;
            sb_framework := framework_id;
            sb_overall_score := overall;
            sb_control_scores := cscores;
            sb_category_scores :=
              map (fun kv => (fst kv, category_average (snd kv))) cats;
            sb_evidence_score :=
              if include_evidence_score then Some 0%Q else None |}
  end.

End Registry.

End Compliance.

(** ** Scenario data models ([models/scenario.py]) *)

(** An [organization_context] dictionary, at the keys the service reads;
    [org_other] holds whatever further keys it has. *)
Record OrgContext : Type := {
  org_industry : option PyVal;
  org_size : option PyVal;
  org_region : option PyVal;
  org_compliance_frameworks : option (list string);
  org_primary_framework : option string;
  org_scenario_capabilities : option (list string);
  org_max_complexity : option Z;
  org_other : gmap string PyVal
}.

(** [not organization_context]: the dictionary has no key at all. *)
Definition org_is_empty (o : OrgContext) : bool :=
  match org_industry o, org_size o, org_region o,
        org_compliance_frameworks o, org_primary_framework o,
        org_scenario_capabilities o, org_max_complexity o with
  | None, None, None, None, None, None, None => bool_decide (org_other o = ∅)
  | _, _, _, _, _, _, _ => false
  end.

Definition SCENARIO_TYPES : list (string * string) :=
  [("security_incident", "Security Incident Response");
   ("business_continuity", "Business Continuity");
   ("compliance_validation", "Compliance Validation");
   ("crisis_management", "Crisis Management");
   ("technical_recovery", "Technical Recovery")].

Definition SCENARIO_COMPLEXITY_LEVELS : list (string * Z) :=
  [("low", 1); ("medium", 2); ("high", 3)].

Definition DEFAULT_DURATION_MINUTES : Z := 60.

(** [k in d] for a table. *)
Definition in_keys {V} (k : string) (d : list (string * V)) : bool :=
  existsb (String.eqb k) (map fst d).

Module Inject.

Record t : Type := {
  id : string;
  title : string;
  description : string;
  type : string;
  sequence_number : Z;
  delay_minutes : Z;
  content : gmap string PyVal;
  metadata : gmap string PyVal;
  created_at : Z;
  updated_at : Z
}.

(** An inject record as the content source delivers it: the dictionary
    [inject_data] whose entries become the keyword arguments of [Inject]. *)
Record Data : Type := {
  d_id : option string;
  d_title : string;
  d_description : string;
  d_type : string;
  d_sequence_number : Z;
  d_delay_minutes : Z;
  d_content : gmap string PyVal;
  d_metadata : option (gmap string PyVal)
}.

Definition valid_types : list string :=
  ["notification"; "action"; "decision"; "escalation"; "resolution"].

(** [Inject.validate_inject_type] *)
Definition validate_inject_type (v : string) : Result string :=
  if existsb (String.eqb v) valid_types then Ok v
  else Raise (ValueError ("Invalid inject type: " +:+ v)).

Definition required_fields : list string :=
  ["message"; "expected_response"; "success_criteria"].

(** [Inject.validate_content] *)
Definition validate_content (v : gmap string PyVal) : Result (gmap string PyVal) :=
  if forallb (fun field => bool_decide (is_Some (v !! field))) required_fields
  then Ok v
  else Raise (ValueError
    "Missing required content fields: ['message', 'expected_response', 'success_criteria']").

Definition default_metadata : gmap string PyVal :=
  <["created_by" := PyStr "system"]>
  (<["version" := PyStr "1.0.0"]>
  (<["telemetry" := PyDict [("render_time_ms", PyInt 0);
                            ("validation_score", PyFloat 0)]]> ∅)).

(** [Inject.__init__]; [fresh_id] is the [uuid.uuid4()] drawn when the
    record has no id, [now] the clock reading of the defaults. *)
Definition init (fresh_id : string) (now : Z) (d : Data) : Result t :=
  ty <-? validate_inject_type (d_type d);
  c <-? validate_content (d_content d);
  Ok {| id := default fresh_id (d_id d);
        title := d_title d;
        description := d_description d;
        type := ty;
        sequence_number := d_sequence_number d;
        delay_minutes := d_delay_minutes d;
        content := c;
        metadata := default default_metadata (d_metadata d);
        created_at := now;
        updated_at := now |}.

End Inject.

Module Scenario.

Record t : Type := {
  id : string;
  title : string;
  description : string;
  type : string;
  complexity_level : Z;
  duration_minutes : Z;
  injects : list Inject.t;
  compliance_mappings : Compliance.ComplianceMapping;
  organization_context : OrgContext;
  created_at : Z;
  updated_at : Z;
  metadata : gmap string PyVal;
  telemetry : gmap string PyVal
}.

(** The optional keyword arguments of [Scenario(...)]. *)
Record Kwargs : Type := {
  kw_id : option string;
  kw_injects : option (list Inject.t);
  kw_compliance_mappings : option Compliance.ComplianceMapping;
  kw_metadata : option (gmap string PyVal);
  kw_telemetry : option (gmap string PyVal)
}.

Definition no_kwargs : Kwargs :=
  {| kw_id := None; kw_injects := None; kw_compliance_mappings := None;
     kw_metadata := None; kw_telemetry := None |}.

(** [Scenario.validate_scenario_type] *)
Definition validate_scenario_type (v : string) : Result string :=
  if in_keys v SCENARIO_TYPES then Ok v
  else Raise (ValueError ("Invalid scenario type: " +:+ v)).

(** [Scenario.validate_complexity] *)
Definition validate_complexity (v : Z) : Result Z :=
  if existsb (Z.eqb v) (map snd SCENARIO_COMPLEXITY_LEVELS) then Ok v
  else Raise (ValueError ("Invalid complexity level: " +:+ str_of_int v)).

Definition default_telemetry : gmap string PyVal :=
  <["generation_time_ms" := PyInt 0]>
  (<["validation_time_ms" := PyInt 0]>
  (<["compliance_score" := PyFloat 0]>
  (<["performance_metrics" := PyDict []]> ∅))).

(** [Scenario.__init__] with the field validators. *)
Definition init (fresh_id : string) (now : Z) (title description type : string)
    (complexity_level : Z) (organization_context : OrgContext)
    (duration_minutes : option Z) (kwargs : Kwargs) : Result t :=
  ty <-? validate_scenario_type type;
  c <-? validate_complexity complexity_level;
  Ok {| id := default fresh_id (kw_id kwargs);
        title := title;
        description := description;
        type := ty;
        complexity_level := c;
        duration_minutes := default DEFAULT_DURATION_MINUTES duration_minutes;
        injects := default [] (kw_injects kwargs);
        compliance_mappings :=
          default {| Compliance.mapping_controls := None |}
                  (kw_compliance_mappings kwargs);
        organization_context := organization_context;
        created_at := now;
        updated_at := now;
        metadata := default ∅ (kw_metadata kwargs);
        telemetry := default default_telemetry (kw_telemetry kwargs) |}.

(** [list.sort(key=lambda x: x.sequence_number)]: a stable sort, here by
    insertion. *)
Fixpoint insert_by_sequence (x : Inject.t) (l : list Inject.t) : list Inject.t :=
  match l with
  | [] => [x]
  | y :: r =>
      if Inject.sequence_number x <=? Inject.sequence_number y
      then x :: y :: r
      else y :: insert_by_sequence x r
  end.

Fixpoint sort_by_sequence (l : list Inject.t) : list Inject.t :=
  match l with
  | [] => []
  | x :: r => insert_by_sequence x (sort_by_sequence r)
  end.

(** [sum(i.delay_minutes for i in injects)] *)
Definition total_delay (l : list Inject.t) : Z :=
  zsum (map Inject.delay_minutes l).

(** [Scenario.add_inject]: the scenario after the call, and the returned
    pair.  [now] is the clock reading of the call. *)
Definition add_inject (now : Z) (self : t) (inject : Inject.t)
  : t * (bool * option string) :=
  if existsb (fun existing =>
                Inject.sequence_number existing =? Inject.sequence_number inject)
             (injects self)
  then (self, (false, Some ("Sequence number "
                            +:+ str_of_int (Inject.sequence_number inject)
                            +:+ " already exists")))
  else
    let total_duration :=
      total_delay (injects self) + Inject.delay_minutes inject in
    if duration_minutes self <? total_duration
    then (self, (false, Some "Total inject duration exceeds scenario duration"))
    else
      let injects' := sort_by_sequence (injects self ++ [inject]) in
      ({| id := id self;
          title := title self;
          description := description self;
          type := type self;
          complexity_level := complexity_level self;
          duration_minutes := duration_minutes self;
          injects := injects';
          compliance_mappings := compliance_mappings self;
          organization_context := organization_context self;
          created_at := created_at self;
          updated_at := now;
          metadata := metadata self;
          telemetry :=
            <["last_inject_added" := PyIsoTime now]>
            (<["inject_count" := PyInt (Z.of_nat (length injects'))]>
             (telemetry self)) |},
       (true, None)).

(** An entry of the list [generate_timeline] returns; the last three
    fields are the entry's ['metadata']. *)
Record TimelineEntry : Type := {
  te_time : Z;
  te_inject_id : string;
  te_title : string;
  te_type : string;
  te_content : gmap string PyVal;
  te_sequence_number : Z;
  te_delay_minutes : Z;
  te_cumulative_time : Z
}.

(** The loop of [generate_timeline] over the sorted injects. *)
Fixpoint timeline_loop (l : list Inject.t) (current_time : Z)
    (timeline : list TimelineEntry) : list TimelineEntry :=
  match l with
  | [] => timeline
  | inject :: rest =>
      let current_time := current_time + Inject.delay_minutes inject in
      timeline_loop rest current_time
        (timeline ++
         [{| te_time := current_time;
             te_inject_id := Inject.id inject;
             te_title := Inject.title inject;
             te_type := Inject.type inject;
             te_content := Inject.content inject;
             te_sequence_number := Inject.sequence_number inject;
             te_delay_minutes := Inject.delay_minutes inject;
             te_cumulative_time := current_time |}])
  end.

(** [Scenario.generate_timeline] *)
Definition generate_timeline (self : t) : list TimelineEntry :=
  timeline_loop (sort_by_sequence (injects self)) 0 [].

End Scenario.

(** ** The scenario validator ([services/scenario_validator.py]) *)

Module Validator.

Record Rules : Type := {
  min_injects : Z;
  max_injects : Z;
  min_duration : Z;
  max_duration : Z;
  compliance_threshold : Q;
  ai_content_confidence : Q;
  max_complexity_level : Z
}.

Definition VALIDATION_RULES : Rules :=
  {| min_injects := 3;
     max_injects := 10;
     min_duration := 30;
     max_duration := 240;
     compliance_threshold := 95 # 100;
     ai_content_confidence := 85 # 100;
     max_complexity_level := 5 |}.

(** The entries of a report's [issues] list, by what their text says. *)
Inductive Issue : Type :=
| InvalidScenarioTitle
| InvalidScenarioDescription
| MissingOrganizationContext
| InvalidScenarioType (msg : string)
| InvalidComplexityLevel (msg : string)
| InvalidInjectCount (count : Z)
| InvalidInjectTitle (inject_id : string)
| InvalidInjectDescription (inject_id : string)
| MissingContentFields (inject_id : string) (missing : list string)
| DuplicateSequenceNumber (n : Z)
| DurationBelowMinimum (total : Z)
| DurationExceedsMaximum (total : Z)
| ComplianceBelowThreshold (score threshold : Q)
| AIConfidenceBelowThreshold (confidence threshold : Q)
| ValidationError (e : Exc).

Record SingleInjectValidation : Type := {
  si_is_valid : bool;
  si_issues : list Issue
}.

Record InjectsValidation : Type := {
  iv_is_valid : bool;
  iv_inject_count : Z;
  iv_inject_details : list (string * SingleInjectValidation);
  iv_timeline_valid : bool;
  iv_issues : list Issue
}.

(** What [validate_compliance_requirements] returns as its report: the
    scored report, or the dictionary of its [except] branch,
    [{'error': ..., 'is_compliant': False, 'summary': {'overall_score': 0.0}}]. *)
Inductive ComplianceReport : Type :=
| Report (r : Compliance.ValidationResults)
| ErrorReport (error : Exc).

(** [compliance_results['summary']['overall_score']] *)
Definition summary_overall_score (r : ComplianceReport) : Q :=
  match r with
  | Report r => Compliance.overall_score (Compliance.vr_summary r)
  | ErrorReport _ => 0%Q
  end.

Record Details : Type := {
  details_injects : option InjectsValidation;
  details_compliance : option ComplianceReport
}.

(** The [validation_result] dictionary of [validate_scenario]. *)
Record ValidationResult : Type := {
  timestamp : Z;
  scenario_id : string;
  is_valid : bool;
  validation_details : Details;
  compliance_score : Q;
  ai_confidence : Q;
  issues : list Issue;
  validation_duration : option Q
}.

(** The validator object: its configuration and its per-instance cache of
    compliance results. *)
Record ScenarioValidator : Type := {
  _organization_context : OrgContext;
  _validation_rules : Rules;
  _compliance_cache : gmap string (bool * ComplianceReport)
}.

(** [ScenarioValidator.__init__]; [rules] is [VALIDATION_RULES] overridden
    by the custom rules. *)
Definition init (organization_context : OrgContext) (rules : Rules)
  : Result ScenarioValidator :=
  match org_industry organization_context, org_size organization_context,
        org_region organization_context,
        org_compliance_frameworks organization_context with
  | Some _, Some _, Some _, Some _ =>
      Ok {| _organization_context := organization_context;
            _validation_rules := rules;
            _compliance_cache := ∅ |}
  | _, _, _, _ => Raise (ValueError "Missing required organization context")
  end.

(** [validate_scenario_type] (module level) *)
Definition validate_scenario_type (scenario_type : string)
    (organization_context : OrgContext) : bool * string :=
  if negb (in_keys scenario_type SCENARIO_TYPES)
  then (false, "Unsupported scenario type: " +:+ scenario_type)
  else
    let org_capabilities :=
      default [] (org_scenario_capabilities organization_context) in
    if negb (existsb (String.eqb scenario_type) org_capabilities)
    then (false, "Organization not configured for scenario type: "
                 +:+ scenario_type)
    else (true, "Valid scenario type").

(** [validate_scenario_complexity] (module level) *)
Definition validate_scenario_complexity (complexity_level : Z)
    (organization_context : OrgContext) : bool * string :=
  let max_complexity :=
    default (max_complexity_level VALIDATION_RULES)
            (org_max_complexity organization_context) in
  if negb ((1 <=? complexity_level) && (complexity_level <=? max_complexity))
  then (false, "Complexity level " +:+ str_of_int complexity_level
               +:+ " outside valid range (1-" +:+ str_of_int max_complexity
               +:+ ")")
  else (true, "Valid complexity level").

(** [len(s)] of a [str]. *)
Definition len (s : string) : Z := Z.of_nat (String.length s).

(** [ScenarioValidator._validate_basic_structure]: the verdict and the
    issue it appends, if any. *)
Definition _validate_basic_structure (scenario : Scenario.t)
  : bool * list Issue :=
  if len (Scenario.title scenario) <? 5
  then (false, [InvalidScenarioTitle])
  else if len (Scenario.description scenario) <? 20
  then (false, [InvalidScenarioDescription])
  else if org_is_empty (Scenario.organization_context scenario)
  then (false, [MissingOrganizationContext])
  else (true, []).

(** [ScenarioValidator._validate_single_inject] *)
Definition _validate_single_inject (inject : Inject.t) : SingleInjectValidation :=
  let r := {| si_is_valid := true; si_issues := [] |} in
  let r :=
    if len (Inject.title inject) <? 5
    then {| si_is_valid := false;
            si_issues := si_issues r ++ [InvalidInjectTitle (Inject.id inject)] |}
    else r in
  let r :=
    if len (Inject.description inject) <? 20
    then {| si_is_valid := false;
            si_issues := si_issues r
                         ++ [InvalidInjectDescription (Inject.id inject)] |}
    else r in
  let missing_fields :=
    List.filter (fun f => negb (bool_decide (is_Some (Inject.content inject !! f))))
                Inject.required_fields in
  match missing_fields with
  | [] => r
  | _ => {| si_is_valid := false;
            si_issues := si_issues r
                         ++ [MissingContentFields (Inject.id inject) missing_fields] |}
  end.

(** The loop of [validate_injects]: per-inject details, issues, total
    duration and the set of sequence numbers seen so far. *)
Fixpoint injects_loop (injects : list Inject.t)
    (acc : list (string * SingleInjectValidation) * list Issue * Z * list Z)
  : list (string * SingleInjectValidation) * list Issue * Z * list Z :=
  match injects with
  | [] => acc
  | inject :: rest =>
      let '(inject_details, issues, total_duration, sequence_numbers) := acc in
      let inject_validation := _validate_single_inject inject in
      let inject_details :=
        dict_set inject_details (Inject.id inject) inject_validation in
      let issues :=
        if si_is_valid inject_validation then issues
        else issues ++ si_issues inject_validation in
      let total_duration := total_duration + Inject.delay_minutes inject in
      let issues :=
        if existsb (Z.eqb (Inject.sequence_number inject)) sequence_numbers
        then issues ++ [DuplicateSequenceNumber (Inject.sequence_number inject)]
        else issues in
      let sequence_numbers := Inject.sequence_number inject :: sequence_numbers in
      injects_loop rest (inject_details, issues, total_duration, sequence_numbers)
  end.

(** [ScenarioValidator.validate_injects] *)
Definition validate_injects (self : ScenarioValidator) (injects : list Inject.t)
  : bool * InjectsValidation :=
  let rules := _validation_rules self in
  let n := Z.of_nat (length injects) in
  if negb ((min_injects rules <=? n) && (n <=? max_injects rules))
  then (false, {| iv_is_valid := false;
                  iv_inject_count := n;
                  iv_inject_details := [];
                  iv_timeline_valid := false;
                  iv_issues := [InvalidInjectCount n] |})
  else
    let '(inject_details, issues, total_duration, _) :=
      injects_loop injects ([], [], 0, []) in
    let '(issues, timeline_valid) :=
      if total_duration <? min_duration rules
      then (issues ++ [DurationBelowMinimum total_duration], false)
      else if max_duration rules <? total_duration
      then (issues ++ [DurationExceedsMaximum total_duration], false)
      else (issues, true) in
    let is_valid :=
      (match issues with [] => true | _ => false end) && timeline_valid in
    (is_valid, {| iv_is_valid := is_valid;
                  iv_inject_count := n;
                  iv_inject_details := inject_details;
                  iv_timeline_valid := timeline_valid;
                  iv_issues := issues |}).

(** [str(framework_id)] for an optional id: [None] prints as ["None"]. *)
Definition str_of_opt (o : option string) : string := default "None" o.

(** A score under [Any] as a number; a truthy value that is no number
    makes [sum] raise. *)
Definition as_number (v : PyVal) : Result Q :=
  match v with
  | PyInt z => Ok (inject_Z z)
  | PyFloat q => Ok q
  | PyBool b => Ok (if b then 1%Q else 0%Q)
  | _ => Raise (TypeError "unsupported operand type(s) for +")
  end.

(** [sum(confidence_scores)] *)
Fixpoint sum_scores (l : list PyVal) (acc : Q) : Result Q :=
  match l with
  | [] => Ok acc
  | v :: r => q <-? as_number v; sum_scores r (acc + q)%Q
  end.

(** The scores [_validate_ai_content] collects: the scenario's
    ['ai_description_score'] and each inject's ['ai_content_score'], each
    kept when [metadata.get(...)] is truthy. *)
Definition confidence_scores (scenario : Scenario.t) : list PyVal :=
  (match Scenario.metadata scenario !! "ai_description_score" with
   | Some v => if truthy v then [v] else []
   | None => []
   end)
  ++ flat_map (fun inject =>
       match Inject.metadata inject !! "ai_content_score" with
       | Some v => if truthy v then [v] else []
       | None => []
       end) (Scenario.injects scenario).

(** [ScenarioValidator._validate_ai_content] *)
Definition _validate_ai_content (scenario : Scenario.t) : Result Q :=
  if negb (truthy_get (Scenario.metadata scenario) "ai_generated")
  then Ok 1%Q
  else
    let scores := confidence_scores scenario in
    match scores with
    | [] => Ok 0%Q
    | _ =>
        total <-? sum_scores scores 0%Q;
        Ok (total / inject_Z (Z.of_nat (length scores)))%Q
    end.

Section Registry.

Variable registry : gmap string Compliance.FrameworkDef.

(** [ScenarioValidator.validate_compliance_requirements]: the returned pair
    and the validator with its cache updated. *)
Definition validate_compliance_requirements (now : Z) (self : ScenarioValidator)
    (scenario : Scenario.t) (framework_id : option string)
  : (bool * ComplianceReport) * ScenarioValidator :=
  let cache_key := Scenario.id scenario +:+ ":" +:+ str_of_opt framework_id in
  match _compliance_cache self !! cache_key with
  | Some cached => (cached, self)
  | None =>
      let fid :=
        match framework_id with
        | Some f => if String.eqb f "" then None else Some f
        | None => None
        end in
      let fid := default (default "soc2"
                   (org_primary_framework (_organization_context self))) fid in
      let attempt :=
        r <-? Compliance.validate_compliance_mapping registry now
                (Scenario.compliance_mappings scenario) fid "strict" true;
        let '(_, validation_results) := r in
        score_details <-? Compliance.calculate_compliance_score registry now
                            validation_results fid true;
        let threshold := compliance_threshold (_validation_rules self) in
        let is_compliant :=
          Qle_bool threshold (Compliance.sb_overall_score score_details) in
        Ok (is_compliant,
            {| Compliance.vr_timestamp := Compliance.vr_timestamp validation_results;
               Compliance.vr_framework := Compliance.vr_framework validation_results;
               Compliance.vr_validation_level :=
                 Compliance.vr_validation_level validation_results;
               Compliance.vr_controls := Compliance.vr_controls validation_results;
               Compliance.vr_summary := Compliance.vr_summary validation_results;
               Compliance.vr_score_details := Some score_details;
               Compliance.vr_threshold := Some threshold;
               Compliance.vr_is_compliant := Some is_compliant |}) in
      match attempt with
      | Ok (is_compliant, validation_results) =>
          let entry := (is_compliant, Report validation_results) in
          (entry,
           {| _organization_context := _organization_context self;
              _validation_rules := _validation_rules self;
              _compliance_cache := <[cache_key := entry]> (_compliance_cache self) |})
      | Raise e => ((false, ErrorReport e), self)
      end
  end.

(** [ScenarioValidator.validate_scenario]: the returned pair and the
    validator afterwards. *)
Definition validate_scenario (now : Z) (self : ScenarioValidator)
    (scenario : Scenario.t) : (bool * ValidationResult) * ScenarioValidator :=
  let rules := _validation_rules self in
  let org := _organization_context self in
  let '(structure_ok, issues) := _validate_basic_structure scenario in
  if negb structure_ok
  then ((false, {| timestamp := now;
                   scenario_id := Scenario.id scenario;
                   is_valid := false;
                   validation_details := {| details_injects := None;
                                            details_compliance := None |};
                   compliance_score := 0%Q;
                   ai_confidence := 0%Q;
                   issues := issues;
                   validation_duration := None |}), self)
  else
    let '(type_valid, type_msg) :=
      validate_scenario_type (Scenario.type scenario) org in
    let issues :=
      if type_valid then issues else issues ++ [InvalidScenarioType type_msg] in
    let '(complexity_valid, complexity_msg) :=
      validate_scenario_complexity (Scenario.complexity_level scenario) org in
    let issues :=
      if complexity_valid then issues
      else issues ++ [InvalidComplexityLevel complexity_msg] in
    let '(injects_valid, inject_results) :=
      validate_injects self (Scenario.injects scenario) in
    let issues :=
      if injects_valid then issues else issues ++ iv_issues inject_results in
    let '((compliance_valid, compliance_results), self') :=
      validate_compliance_requirements now self scenario
        (org_primary_framework org) in
    let details := {| details_injects := Some inject_results;
                      details_compliance := Some compliance_results |} in
    let compliance_score := summary_overall_score compliance_results in
    let issues :=
      if compliance_valid then issues
      else issues ++ [ComplianceBelowThreshold compliance_score
                        (compliance_threshold rules)] in
    let ai_generated := truthy_get (Scenario.metadata scenario) "ai_generated" in
    let ai :=
      if ai_generated then _validate_ai_content scenario else Ok 0%Q in
    match ai with
    | Raise e =>
        ((false, {| timestamp := now;
                    scenario_id := Scenario.id scenario;
                    is_valid := false;
                    validation_details := details;
                    compliance_score := compliance_score;
                    ai_confidence := 0%Q;
                    issues := issues ++ [ValidationError e];
                    validation_duration := Some 0%Q |}), self')
    | Ok ai_confidence =>
        let issues :=
          if ai_generated && negb (Qle_bool (ai_content_confidence rules) ai_confidence)
          then issues ++ [AIConfidenceBelowThreshold ai_confidence
                            (ai_content_confidence rules)]
          else issues in
        let is_valid :=
          (match issues with [] => true | _ => false end)
          && Qle_bool (compliance_threshold rules) compliance_score
          && (negb ai_generated
              || Qle_bool (ai_content_confidence rules) ai_confidence) in
        ((is_valid, {| timestamp := now;
                       scenario_id := Scenario.id scenario;
                       is_valid := is_valid;
                       validation_details := details;
                       compliance_score := compliance_score;
                       ai_confidence := ai_confidence;
                       issues := issues;
                       validation_duration := Some 0%Q |}), self')
    end.

End Registry.

End Validator.

(** ** The scenario generator ([services/scenario_generator.py]) *)

Module Generator.

Definition DEFAULT_COMPLEXITY : Z := 2.
Definition MAX_GENERATION_ATTEMPTS : Z := 3.
Definition COMPLIANCE_THRESHOLD : Q := 95 # 100.
Definition CACHE_TTL : Z := 3600.

(** [self._config] *)
Record Config : Type := {
  max_attempts : Z;
  compliance_threshold : Q;
  cache_ttl : Z
}.

Definition default_config : Config :=
  {| max_attempts := MAX_GENERATION_ATTEMPTS;
     compliance_threshold := COMPLIANCE_THRESHOLD;
     cache_ttl := CACHE_TTL |}.

(** What the generator reads of the content source's base scenario. *)
Record ScenarioData : Type := {
  sd_title : string;
  sd_description : string;
  sd_compliance_mappings : Compliance.ComplianceMapping
}.

(** An entry of [self._cache]. *)
Record CacheEntry : Type := {
  ce_scenario : Scenario.t;
  ce_validation : Validator.ValidationResult;
  ce_timestamp : Z
}.

(** [self._performance_metrics]; an absent key is [None]. *)
Record Metrics : Type := {
  last_generation_time : option Q;
  average_attempts : option Q;
  total_generations : option Z
}.

(** The records the generator's logger receives. *)
Inductive LogRecord : Type :=
| InfoGenerating (scenario_type : string) (complexity_level : option Z)
| InfoCacheHit
| WarningFailedToAddInject (error : option string)
| InfoGenerated (generation_time : Q) (attempts : Z)
| WarningAttemptFailedValidation (attempts : Z) (compliance_score : Q)
| ErrorAttemptFailed (attempt : Z) (e : Exc).

(** [(t2 - t1).seconds] of a [timedelta] of [d] microseconds: the seconds
    field of the normalised (days, seconds, microseconds) triple, without
    the days. *)
Definition timedelta_seconds (d : Z) : Z := (d / 1000000) mod 86400.

(** [(t2 - t1).total_seconds()] *)
Definition timedelta_total_seconds (d : Z) : Q := inject_Z d / 1000000.

(** [str(uuid.uuid4())] for the [n]-th draw: distinct draws, distinct ids. *)
Definition uuid4 (n : nat) : string := "uuid-" +:+ str_of_int (Z.of_nat n).

Section Services.

(** The injected validator: its state, and its [validate_scenario] method
    (clock reading, state, scenario to verdict, report and new state). *)
Variable VState : Type.
Variable validator_validate_scenario :
  Z -> VState -> Scenario.t -> (bool * Validator.ValidationResult) * VState.

(** The content source: what its [n]-th call of each operation answers. *)
Variable llm_generate_scenario :
  nat -> string -> OrgContext -> list string -> Result ScenarioData.
Variable llm_generate_injects :
  nat -> ScenarioData -> Z -> Result (list Inject.Data).

(** [str(organization_context)] and [str(compliance_frameworks)]. *)
Variable str_of_context : OrgContext -> string.
Variable str_of_frameworks : list string -> string.

(** Everything a call of the generator reads or changes. *)
Record World : Type := {
  now : Z;
  uuid_draws : nat;
  scenario_calls : nat;
  injects_calls : nat;
  validator : VState;
  _cache : gmap string CacheEntry;
  _performance_metrics : Metrics;
  log : list LogRecord
}.

(** Time passing between two calls. *)
Definition tick (d : Z) (w : World) : World :=
  {| now := now w + d;
     uuid_draws := uuid_draws w;
     scenario_calls := scenario_calls w;
     injects_calls := injects_calls w;
     validator := validator w;
     _cache := _cache w;
     _performance_metrics := _performance_metrics w;
     log := log w |}.

(** Computations over [World] that may raise; a raise keeps the changes
    made so far. *)
Definition M (A : Type) : Type := World -> World * Result A.

Definition ret {A} (a : A) : M A := fun w => (w, Ok a).

Definition raise {A} (e : Exc) : M A := fun w => (w, Raise e).

Definition bind {A B} (m : M A) (k : A -> M B) : M B :=
  fun w =>
    match m w with
    | (w', Ok a) => k a w'
    | (w', Raise e) => (w', Raise e)
    end.

(** [try: m  except Exception as e: h e] *)
Definition try_except {A} (m : M A) (h : Exc -> M A) : M A :=
  fun w =>
    match m w with
    | (w', Ok a) => (w', Ok a)
    | (w', Raise e) => h e w'
    end.

Definition lift {A} (r : Result A) : M A := fun w => (w, r).

Notation "x <- m ;; k" := (bind m (fun x => k))
  (at level 100, m at next level, right associativity).
Notation "m ;; k" := (bind m (fun _ => k))
  (at level 100, right associativity).

Definition utcnow : M Z := fun w => (w, Ok (now w)).

Definition logger (r : LogRecord) : M unit :=
  fun w =>
    ({| now := now w;
        uuid_draws := uuid_draws w;
        scenario_calls := scenario_calls w;
        injects_calls := injects_calls w;
        validator := validator w;
        _cache := _cache w;
        _performance_metrics := _performance_metrics w;
        log := log w ++ [r] |}, Ok tt).

Definition draw_uuid : M string :=
  fun w =>
    ({| now := now w;
        uuid_draws := S (uuid_draws w);
        scenario_calls := scenario_calls w;
        injects_calls := injects_calls w;
        validator := validator w;
        _cache := _cache w;
        _performance_metrics := _performance_metrics w;
        log := log w |}, Ok (uuid4 (uuid_draws w))).

(** [await self._llm_service.generate_scenario(...)] *)
Definition call_generate_scenario (scenario_type : string)
    (organization_context : OrgContext) (compliance_frameworks : list string)
  : M ScenarioData :=
  fun w =>
    ({| now := now w;
        uuid_draws := uuid_draws w;
        scenario_calls := S (scenario_calls w);
        injects_calls := injects_calls w;
        validator := validator w;
        _cache := _cache w;
        _performance_metrics := _performance_metrics w;
        log := log w |},
     llm_generate_scenario (scenario_calls w) scenario_type
       organization_context compliance_frameworks).

(** [await self._llm_service.generate_injects(scenario_data, complexity)] *)
Definition call_generate_injects (scenario_data : ScenarioData) (complexity : Z)
  : M (list Inject.Data) :=
  fun w =>
    ({| now := now w;
        uuid_draws := uuid_draws w;
        scenario_calls := scenario_calls w;
        injects_calls := S (injects_calls w);
        validator := validator w;
        _cache := _cache w;
        _performance_metrics := _performance_metrics w;
        log := log w |},
     llm_generate_injects (injects_calls w) scenario_data complexity).

(** [self._validator.validate_scenario(scenario)] *)
Definition call_validate_scenario (scenario : Scenario.t)
  : M (bool * Validator.ValidationResult) :=
  fun w =>
    let '(r, v') := validator_validate_scenario (now w) (validator w) scenario in
    ({| now := now w;
        uuid_draws := uuid_draws w;
        scenario_calls := scenario_calls w;
        injects_calls := injects_calls w;
        validator := v';
        _cache := _cache w;
        _performance_metrics := _performance_metrics w;
        log := log w |}, Ok r).

(** [ScenarioGenerator._generate_cache_key]: [":".join(str(arg) for arg in args)] *)
Definition _generate_cache_key (scenario_type : string)
    (organization_context : OrgContext) (compliance_frameworks : list string)
    (complexity : Z) : string :=
  scenario_type +:+ ":" +:+ str_of_context organization_context
  +:+ ":" +:+ str_of_frameworks compliance_frameworks
  +:+ ":" +:+ str_of_int complexity.

Variable config : Config.

(** [ScenarioGenerator._get_cached_scenario] *)
Definition _get_cached_scenario (cache_key : string)
  : M (option (Scenario.t * Validator.ValidationResult)) :=
  fun w =>
    match _cache w !! cache_key with
    | Some cached_data =>
        if timedelta_seconds (now w - ce_timestamp cached_data) <? cache_ttl config
        then (w, Ok (Some (ce_scenario cached_data, ce_validation cached_data)))
        else (w, Ok None)
    | None => (w, Ok None)
    end.

(** [ScenarioGenerator._cache_scenario] *)
Definition _cache_scenario (cache_key : string)
    (scenario_data : Scenario.t * Validator.ValidationResult) : M unit :=
  fun w =>
    ({| now := now w;
        uuid_draws := uuid_draws w;
        scenario_calls := scenario_calls w;
        injects_calls := injects_calls w;
        validator := validator w;
        _cache := <[cache_key := {| ce_scenario := fst scenario_data;
                                    ce_validation := snd scenario_data;
                                    ce_timestamp := now w |}]> (_cache w);
        _performance_metrics := _performance_metrics w;
        log := log w |}, Ok tt).

(** [ScenarioGenerator._update_performance_metrics] *)
Definition _update_performance_metrics (generation_time : Q) (attempts : Z)
  : M unit :=
  fun w =>
    let m := _performance_metrics w in
    ({| now := now w;
        uuid_draws := uuid_draws w;
        scenario_calls := scenario_calls w;
        injects_calls := injects_calls w;
        validator := validator w;
        _cache := _cache w;
        _performance_metrics :=
          {| last_generation_time := Some generation_time;
             average_attempts :=
               Some (default 0%Q (average_attempts m) * (9 # 10)
                     + inject_Z attempts * (1 # 10))%Q;
             total_generations := Some (default 0 (total_generations m) + 1) |};
        log := log w |}, Ok tt).

(** The loop [for inject_data in injects: ...] of [generate_scenario]. *)
Fixpoint add_injects (injects : list Inject.Data) (scenario : Scenario.t)
  : M Scenario.t :=
  match injects with
  | [] => ret scenario
  | inject_data :: rest =>
      fresh <- (match Inject.d_id inject_data with
                | Some _ => ret ""
                | None => draw_uuid
                end) ;;
      t <- utcnow ;;
      inject <- lift (Inject.init fresh t inject_data) ;;
      let '(scenario', (success, error)) := Scenario.add_inject t scenario inject in
      if negb success
      then logger (WarningFailedToAddInject error) ;; add_injects rest scenario'
      else add_injects rest scenario'
  end.

(** One pass through the body of the [try] in [generate_scenario]:
    [Some] of the pair it returns, or [None] when the candidate failed
    validation ([attempts] is the counter's value on entry). *)
Definition attempt (generation_start : Z) (cache_key scenario_type : string)
    (organization_context : OrgContext) (compliance_frameworks : list string)
    (complexity attempts : Z)
  : M (option (Scenario.t * Validator.ValidationResult)) :=
  scenario_data <- call_generate_scenario scenario_type organization_context
                     compliance_frameworks ;;
  fresh <- draw_uuid ;;
  t <- utcnow ;;
  scenario <- lift (Scenario.init fresh t (sd_title scenario_data)
                      (sd_description scenario_data) scenario_type complexity
                      organization_context None
                      {| Scenario.kw_id := None;
                         Scenario.kw_injects := None;
                         Scenario.kw_compliance_mappings :=
                           Some (sd_compliance_mappings scenario_data);
                         Scenario.kw_metadata :=
                           Some (<["ai_generated" := PyBool true]>
                                 (<["generation_timestamp" := PyIsoTime t]>
                                 (<["compliance_frameworks" :=
                                      PyList (map PyStr compliance_frameworks)]> ∅)));
                         Scenario.kw_telemetry := None |}) ;;
  injects <- call_generate_injects scenario_data complexity ;;
  scenario <- add_injects injects scenario ;;
  r <- call_validate_scenario scenario ;;
  let '(is_valid, validation_results) := r in
  if is_valid && Qle_bool (compliance_threshold config)
                          (Validator.compliance_score validation_results)
  then
    _cache_scenario cache_key (scenario, validation_results) ;;
    t' <- utcnow ;;
    let generation_time := timedelta_total_seconds (t' - generation_start) in
    _update_performance_metrics generation_time (attempts + 1) ;;
    logger (InfoGenerated generation_time (attempts + 1)) ;;
    ret (Some (scenario, validation_results))
  else
    logger (WarningAttemptFailedValidation (attempts + 1)
              (Validator.compliance_score validation_results)) ;;
    ret None.

(** The loop [while attempts < max_attempts: try: ... except Exception: ...]
    followed by the final [raise RuntimeError].  [remaining] is the number
    of iterations left, [max_attempts - attempts]: every iteration that
    does not return adds one to [attempts]. *)
Fixpoint attempts_loop (remaining : nat) (generation_start : Z)
    (cache_key scenario_type : string) (organization_context : OrgContext)
    (compliance_frameworks : list string) (complexity attempts : Z)
  : M (Scenario.t * Validator.ValidationResult) :=
  match remaining with
  | O => raise (RuntimeError ("Failed to generate valid scenario after "
                              +:+ str_of_int (max_attempts config)
                              +:+ " attempts"))
  | S remaining' =>
      r <- try_except
             (attempt generation_start cache_key scenario_type
                organization_context compliance_frameworks complexity attempts)
             (fun e => logger (ErrorAttemptFailed (attempts + 1) e) ;; ret None) ;;
      match r with
      | Some result => ret result
      | None =>
          attempts_loop remaining' generation_start cache_key scenario_type
            organization_context compliance_frameworks complexity (attempts + 1)
      end
  end.

(** [ScenarioGenerator.generate_scenario] *)
Definition generate_scenario (scenario_type : string)
    (organization_context : OrgContext) (compliance_frameworks : list string)
    (complexity_level : option Z)
  : M (Scenario.t * Validator.ValidationResult) :=
  generation_start <- utcnow ;;
  logger (InfoGenerating scenario_type complexity_level) ;;
  if negb (in_keys scenario_type SCENARIO_TYPES)
  then raise (ValueError ("Invalid scenario type: " +:+ scenario_type))
  else
    let complexity :=
      match complexity_level with
      | Some c => if c =? 0 then DEFAULT_COMPLEXITY else c
      | None => DEFAULT_COMPLEXITY
      end in
    if negb ((1 <=? complexity) && (complexity <=? 5))
    then raise (ValueError ("Invalid complexity level: " +:+ str_of_int complexity))
    else
      let cache_key := _generate_cache_key scenario_type organization_context
                         compliance_frameworks complexity in
      cached_scenario <- _get_cached_scenario cache_key ;;
      match cached_scenario with
      | Some cached => logger InfoCacheHit ;; ret cached
      | None =>
          attempts_loop (Z.to_nat (max_attempts config)) generation_start
            cache_key scenario_type organization_context compliance_frameworks
            complexity 0
      end.

(** *** Regenerating injects and customizing a scenario

    The log lines of these two methods are not recorded: [LogRecord] is the
    log of [generate_scenario].  Both only re-raise what they catch. *)

(** The dictionary [regenerate_injects] hands to the content source. *)
Record ScenarioSummary : Type := {
  ss_id : string;
  ss_title : string;
  ss_description : string;
  ss_type : string;
  ss_compliance_mappings : Compliance.ComplianceMapping
}.

(** [customization_params], at the keys [customize_scenario] reads; an
    absent key is [None], and [cp_regenerate_injects] is the truth value of
    [customization_params.get('regenerate_injects', False)]. *)
Record CustomizationParams : Type := {
  cp_title : option string;
  cp_description : option string;
  cp_complexity_level : option Z;
  cp_regenerate_injects : bool
}.

(** The injected validator's [validate_injects] method. *)
Variable validator_validate_injects :
  VState -> list Inject.t -> (bool * Validator.InjectsValidation) * VState.

(** The content source's [generate_injects] as [regenerate_injects] calls
    it: on a summary of the scenario, with a [compliance_focus] (a keyword
    that the shipped [LLMService.generate_injects] does not have, so that
    the content source here is one that accepts it). *)
Variable llm_generate_injects_focused :
  nat -> ScenarioSummary -> Z -> option (list string) -> Result (list Inject.Data).

Definition call_generate_injects_focused (summary : ScenarioSummary)
    (complexity : Z) (compliance_focus : option (list string))
  : M (list Inject.Data) :=
  fun w =>
    ({| now := now w;
        uuid_draws := uuid_draws w;
        scenario_calls := scenario_calls w;
        injects_calls := S (injects_calls w);
        validator := validator w;
        _cache := _cache w;
        _performance_metrics := _performance_metrics w;
        log := log w |},
     llm_generate_injects_focused (injects_calls w) summary complexity
       compliance_focus).

(** [self._validator.validate_injects(injects)] *)
Definition call_validate_injects (injects : list Inject.t)
  : M (bool * Validator.InjectsValidation) :=
  fun w =>
    let '(r, v') := validator_validate_injects (validator w) injects in
    ({| now := now w;
        uuid_draws := uuid_draws w;
        scenario_calls := scenario_calls w;
        injects_calls := injects_calls w;
        validator := v';
        _cache := _cache w;
        _performance_metrics := _performance_metrics w;
        log := log w |}, Ok r).

(** The list comprehension that constructs an [Inject] from each record of
    [new_injects], in order. *)
Fixpoint build_injects (records : list Inject.Data) : M (list Inject.t) :=
  match records with
  | [] => ret []
  | inject_data :: rest =>
      fresh <- (match Inject.d_id inject_data with
                | Some _ => ret ""
                | None => draw_uuid
                end) ;;
      t <- utcnow ;;
      inject <- lift (Inject.init fresh t inject_data) ;;
      injects <- build_injects rest ;;
      ret (inject :: injects)
  end.

(** [ScenarioGenerator.regenerate_injects]: the injects are constructed
    once to be validated and, when valid, once more to be returned. *)
Definition regenerate_injects (scenario : Scenario.t)
    (complexity_level : option Z) (compliance_focus : option (list string))
  : M (bool * list Inject.t * Validator.InjectsValidation) :=
  new_injects <- call_generate_injects_focused
                   {| ss_id := Scenario.id scenario;
                      ss_title := Scenario.title scenario;
                      ss_description := Scenario.description scenario;
                      ss_type := Scenario.type scenario;
                      ss_compliance_mappings :=
                        Scenario.compliance_mappings scenario |}
                   (match complexity_level with
                    | Some c =>
                        if c =? 0 then Scenario.complexity_level scenario else c
                    | None => Scenario.complexity_level scenario
                    end)
                   compliance_focus ;;
  candidates <- build_injects new_injects ;;
  r <- call_validate_injects candidates ;;
  let '(is_valid, validation_results) := r in
  if negb is_valid
  then ret (false, [], validation_results)
  else
    injects <- build_injects new_injects ;;
    ret (true, injects, validation_results).

(** The loop [for inject in new_injects: customized_scenario.add_inject(inject)],
    which drops what [add_inject] returns. *)
Fixpoint add_each (injects : list Inject.t) (scenario : Scenario.t)
  : M Scenario.t :=
  match injects with
  | [] => ret scenario
  | inject :: rest =>
      t <- utcnow ;;
      add_each rest (fst (Scenario.add_inject t scenario inject))
  end.

(** [ScenarioGenerator.customize_scenario]; the report it returns is the
    one of [validate_injects] when the regenerated injects are invalid and
    the one of [validate_scenario] otherwise. *)
Definition customize_scenario (base_scenario : Scenario.t)
    (customization_params : CustomizationParams)
    (compliance_requirements : option (list string))
  : M (bool * Scenario.t
       * (Validator.InjectsValidation + Validator.ValidationResult)) :=
  fresh <- draw_uuid ;;
  t <- utcnow ;;
  customized_scenario <-
    lift (Scenario.init fresh t
            (default (Scenario.title base_scenario)
                     (cp_title customization_params))
            (default (Scenario.description base_scenario)
                     (cp_description customization_params))
            (Scenario.type base_scenario)
            (default (Scenario.complexity_level base_scenario)
                     (cp_complexity_level customization_params))
            (Scenario.organization_context base_scenario) None
            {| Scenario.kw_id := None;
               Scenario.kw_injects := None;
               Scenario.kw_compliance_mappings :=
                 Some (Scenario.compliance_mappings base_scenario);
               Scenario.kw_metadata := None;
               Scenario.kw_telemetry := None |}) ;;
  if cp_regenerate_injects customization_params
  then
    r <- regenerate_injects customized_scenario
           (cp_complexity_level customization_params) compliance_requirements ;;
    let '(success, new_injects, validation_results) := r in
    if negb success
    then ret (false, customized_scenario, inl validation_results)
    else
      customized_scenario <- add_each new_injects customized_scenario ;;
      r <- call_validate_scenario customized_scenario ;;
      ret (fst r, customized_scenario, inr (snd r))
  else
    r <- call_validate_scenario customized_scenario ;;
    ret (fst r, customized_scenario, inr (snd r)).

End Services.

Arguments now {VState} w.
Arguments uuid_draws {VState} w.
Arguments scenario_calls {VState} w.
Arguments injects_calls {VState} w.
Arguments validator {VState} w.
Arguments _cache {VState} w.
Arguments _performance_metrics {VState} w.
Arguments log {VState} w.
Arguments tick {VState} d w.

End Generator.

(** ** The content source's sampling temperature ([services/llm_service.py]) *)

Module LLM.

Definition DEFAULT_TEMPERATURE : Q := 7 # 10.

Definition type_factors : list (string * Q) :=
  [("security_incident", 9 # 10);
   ("business_continuity", 8 # 10);
   ("compliance_validation", 6 # 10)].

(** [LLMService._calculate_temperature] *)
Definition _calculate_temperature (scenario_type : string) (complexity_level : Z)
  : Q :=
  let base_temperature := DEFAULT_TEMPERATURE in
  let complexity_factor := (1 - inject_Z complexity_level * (1 # 10))%Q in
  let type_factor := default 1%Q (dict_get type_factors scenario_type) in
  (base_temperature * complexity_factor * type_factor)%Q.

End LLM.

(** * Properties *)

(** ** Notions the properties are stated with, and sample inputs *)

(** Ascending order of the stored list, by sequence number. *)
Definition ascending (l : list Inject.t) : Prop :=
  StronglySorted Z.le (map Inject.sequence_number l).

(** The invariant of a scenario's stored inject list. *)
Definition timeline_invariant (s : Scenario.t) : Prop :=
  List.NoDup (map Inject.sequence_number (Scenario.injects s))
  /\ ascending (Scenario.injects s)
  /\ Scenario.total_delay (Scenario.injects s) <= Scenario.duration_minutes s.

(** A scenario after a series of [add_inject] calls, whatever each returns. *)
Definition add_all (s0 : Scenario.t) (calls : list (Z * Inject.t)) : Scenario.t :=
  fold_left (fun s c => fst (Scenario.add_inject (fst c) s (snd c))) calls s0.

Definition sample_org : OrgContext :=
  {| org_industry := Some (PyStr "technology");
     org_size := Some (PyStr "enterprise");
     org_region := Some (PyStr "us-west");
     org_compliance_frameworks := Some ["soc2"];
     org_primary_framework := None;
     org_scenario_capabilities := Some ["security_incident"];
     org_max_complexity := None;
     org_other := ∅ |}.

Definition sample_content : gmap string PyVal :=
  <["message" := PyStr "Ransomware detected"]>
  (<["expected_response" := PyStr "Initiate IR plan"]>
  (<["success_criteria" := PyStr "Plan initiated within 5 minutes"]> ∅)).

Definition sample_inject (n delay : Z) : Inject.t :=
  {| Inject.id := "inject-" +:+ str_of_int n;
     Inject.title := "Initial Detection";
     Inject.description := "Detection of ransomware indicators";
     Inject.type := "notification";
     Inject.sequence_number := n;
     Inject.delay_minutes := delay;
     Inject.content := sample_content;
     Inject.metadata := Inject.default_metadata;
     Inject.created_at := 0;
     Inject.updated_at := 0 |}.

Definition sample_scenario (duration : Z) (injects : list Inject.t) : Scenario.t :=
  {| Scenario.id := "test-scenario-001";
     Scenario.title := "Ransomware Incident Response";
     Scenario.description := "Enterprise-wide ransomware incident response exercise";
     Scenario.type := "security_incident";
     Scenario.complexity_level := 2;
     Scenario.duration_minutes := duration;
     Scenario.injects := injects;
     Scenario.compliance_mappings := {| Compliance.mapping_controls := None |};
     Scenario.organization_context := sample_org;
     Scenario.created_at := 0;
     Scenario.updated_at := 0;
     Scenario.metadata := ∅;
     Scenario.telemetry := Scenario.default_telemetry |}.

(** Implementation data that earns a requirement its full strict score. *)
Definition full_data : gmap string PyVal :=
  <["description" := PyStr "Implemented in the exercise"]>
  (<["evidence" := PyBool true]>
  (<["artifacts" := PyList [PyStr "runbook"]]> ∅)).

(** Full evidence for each of the requirements [reqs] of a control. *)
Definition evidenced (reqs : list string) : Compliance.Implementation :=
  {| Compliance.impl_controls :=
       Some (list_to_map (map (fun r => (r, full_data)) reqs));
     Compliance.impl_evidence := None |}.

(** No evidence at all. *)
Definition unevidenced : Compliance.Implementation :=
  {| Compliance.impl_controls := None; Compliance.impl_evidence := None |}.

Definition cc1_requirements : list string :=
  ["cc1.1: Demonstrate commitment to integrity and ethical values";
   "cc1.2: Exercise oversight responsibility";
   "cc1.3: Establish structure, authority, and responsibility";
   "cc1.4: Demonstrate commitment to competence"].

(** [COMPLIANCE_FRAMEWORKS] with a second, low-severity control added to
    SOC 2 where the table leaves room for further controls. *)
Definition extended_frameworks : gmap string Compliance.FrameworkDef :=
  <["soc2" := {|
      Compliance.fw_name := "SOC 2"; Compliance.fw_version := "2017";
      Compliance.fw_controls :=
        <["cc1" := {|
            Compliance.control_name := "CC1.0";
            Compliance.control_description :=
              "Common Criteria Related to Organization and Management";
            Compliance.requirements := cc1_requirements;
            Compliance.severity := "critical";
            Compliance.category := None |}]>
        (<["cc9" := {|
            Compliance.control_name := "CC9.0";
            Compliance.control_description := "Risk Mitigation";
            Compliance.requirements :=
              ["cc9.1: Identify and develop risk mitigation activities"];
            Compliance.severity := "low";
            Compliance.category := None |}]> ∅) |}]>
  Compliance.COMPLIANCE_FRAMEWORKS.

(** A mapping that evidences [cc1] fully and [cc9] not at all. *)
Definition two_control_mapping : Compliance.ComplianceMapping :=
  {| Compliance.mapping_controls :=
       Some [("cc1", evidenced cc1_requirements); ("cc9", unevidenced)] |}.

(** A mapping of the shipped control [cc1] alone, fully evidenced. *)
Definition cc1_mapping : Compliance.ComplianceMapping :=
  {| Compliance.mapping_controls := Some [("cc1", evidenced cc1_requirements)] |}.

(** The same with a control that SOC 2 does not have. *)
Definition unknown_control_mapping : Compliance.ComplianceMapping :=
  {| Compliance.mapping_controls :=
       Some [("cc1", evidenced cc1_requirements); ("zz9", unevidenced)] |}.

Definition sample_validator : Validator.ScenarioValidator :=
  {| Validator._organization_context := sample_org;
     Validator._validation_rules := Validator.VALIDATION_RULES;
     Validator._compliance_cache := ∅ |}.

(** [sample_scenario] with a compliance mapping and metadata. *)
Definition scenario_with (mapping : Compliance.ComplianceMapping)
    (metadata : gmap string PyVal) (injects : list Inject.t) : Scenario.t :=
  {| Scenario.id := "test-scenario-001";
     Scenario.title := "Ransomware Incident Response";
     Scenario.description := "Enterprise-wide ransomware incident response exercise";
     Scenario.type := "security_incident";
     Scenario.complexity_level := 2;
     Scenario.duration_minutes := 60;
     Scenario.injects := injects;
     Scenario.compliance_mappings := mapping;
     Scenario.organization_context := sample_org;
     Scenario.created_at := 0;
     Scenario.updated_at := 0;
     Scenario.metadata := metadata;
     Scenario.telemetry := Scenario.default_telemetry |}.

(** [validation_results['controls']] as the specification describes it:
    one entry per control of the mapping, holding what [validate_control]
    finds for it; the first control that cannot be validated raises. *)
Fixpoint scored_controls (now : Z) (framework : Compliance.ComplianceFramework)
    (items : list (string * Compliance.Implementation))
    (validation_level : string) (detailed_report : bool)
  : Result (list (string * Compliance.ControlResult)) :=
  match items with
  | [] => Ok []
  | (control_id, control_data) :: rest =>
      r <-? Compliance.validate_control now framework control_id control_data
              validation_level;
      rs <-? scored_controls now framework rest validation_level detailed_report;
      Ok ((control_id,
           {| Compliance.compliant := fst (fst r);
              Compliance.score := snd (fst r);
              Compliance.details := if detailed_report then Some (snd r) else None |})
          :: rs)
  end.

(** The weighted score [calculate_compliance_score] puts under
    ['score_details']['overall_score'] of a validation result. *)
Definition weighted_score (r : Validator.ValidationResult) : option Q :=
  match Validator.details_compliance (Validator.validation_details r) with
  | Some (Validator.Report rr) =>
      option_map Compliance.sb_overall_score (Compliance.vr_score_details rr)
  | _ => None
  end.

(** The score of one control in a validation result's compliance report. *)
Definition control_score (r : Validator.ValidationResult) (control_id : string)
  : option Q :=
  match Validator.details_compliance (Validator.validation_details r) with
  | Some (Validator.Report rr) =>
      option_map Compliance.score (dict_get (Compliance.vr_controls rr) control_id)
  | _ => None
  end.

(** A value under a score key that is a score ([None] is none). *)
Definition has_score (v : PyVal) : bool :=
  match v with PyNone => false | _ => true end.

(** The content-quality scores that are present: the scenario's and each
    inject's, where the metadata has one. *)
Definition present_scores (scenario : Scenario.t) : list PyVal :=
  (match Scenario.metadata scenario !! "ai_description_score" with
   | Some v => if has_score v then [v] else []
   | None => []
   end)
  ++ flat_map (fun inject =>
       match Inject.metadata inject !! "ai_content_score" with
       | Some v => if has_score v then [v] else []
       | None => []
       end) (Scenario.injects scenario).

(** The AI-confidence as the specification words it: the arithmetic mean of
    the scores that are present, 0.0 when there is none. *)
Definition spec_ai_confidence (scenario : Scenario.t) : Result Q :=
  let scores := present_scores scenario in
  match scores with
  | [] => Ok 0%Q
  | _ =>
      total <-? Validator.sum_scores scores 0%Q;
      Ok (total / inject_Z (Z.of_nat (length scores)))%Q
  end.

(** [sample_inject] with a content-quality score in its metadata. *)
Definition scored_inject (n delay : Z) (ai_content_score : PyVal) : Inject.t :=
  {| Inject.id := "inject-" +:+ str_of_int n;
     Inject.title := "Initial Detection";
     Inject.description := "Detection of ransomware indicators";
     Inject.type := "notification";
     Inject.sequence_number := n;
     Inject.delay_minutes := delay;
     Inject.content := sample_content;
     Inject.metadata := <["ai_content_score" := ai_content_score]> ∅;
     Inject.created_at := 0;
     Inject.updated_at := 0 |}.

(** An AI-generated scenario whose description scores 0.9 and whose three
    injects score 0.9, 0.0 and 0.9. *)
Definition zero_scored_scenario : Scenario.t :=
  scenario_with cc1_mapping
    (<["ai_generated" := PyBool true]>
     (<["ai_description_score" := PyFloat (9 # 10)]> ∅))
    [scored_inject 1 10 (PyFloat (9 # 10));
     scored_inject 2 10 (PyFloat 0);
     scored_inject 3 10 (PyFloat (9 # 10))].

(** A stub validator that answers its [n]-th call by [script n]: its state
    is the number of calls made so far. *)
Definition scripted_validator
    (script : nat -> Scenario.t -> bool * Validator.ValidationResult)
  : Z -> nat -> Scenario.t -> (bool * Validator.ValidationResult) * nat :=
  fun _ n scenario => (script n scenario, S n).

(** The verdict a stub validator gives: a report with the given verdict and
    compliance score. *)
Definition verdict (is_valid : bool) (compliance_score : Q) (scenario : Scenario.t)
  : bool * Validator.ValidationResult :=
  (is_valid,
   {| Validator.timestamp := 0;
      Validator.scenario_id := Scenario.id scenario;
      Validator.is_valid := is_valid;
      Validator.validation_details :=
        {| Validator.details_injects := None;
           Validator.details_compliance := None |};
      Validator.compliance_score := compliance_score;
      Validator.ai_confidence := 0%Q;
      Validator.issues := [];
      Validator.validation_duration := Some 0%Q |}).

(** The generator's own acceptance test of a validator's answer:
    [is_valid and validation_results['compliance_score'] >= threshold]. *)
Definition accepts (config : Generator.Config)
    (r : bool * Validator.ValidationResult) : bool :=
  fst r && Qle_bool (Generator.compliance_threshold config)
                    (Validator.compliance_score (snd r)).

(** An inject record that [Inject] accepts: its type and content pass the
    two validators. *)
Definition well_formed (d : Inject.Data) : bool :=
  is_Ok (Inject.validate_inject_type (Inject.d_type d))
  && is_Ok (Inject.validate_content (Inject.d_content d)).

(** The generator as [ScenarioGenerator.__init__] leaves it, at instant
    [t], with the validator in state [v]. *)
Definition init_world {VState} (t : Z) (v : VState) : Generator.World VState :=
  {| Generator.now := t;
     Generator.uuid_draws := 0;
     Generator.scenario_calls := 0;
     Generator.injects_calls := 0;
     Generator.validator := v;
     Generator._cache := ∅;
     Generator._performance_metrics :=
       {| Generator.last_generation_time := None;
          Generator.average_attempts := None;
          Generator.total_generations := None |};
     Generator.log := [] |}.

Definition sample_data : Generator.ScenarioData :=
  {| Generator.sd_title := "Ransomware Incident Response";
     Generator.sd_description :=
       "Enterprise-wide ransomware incident response exercise";
     Generator.sd_compliance_mappings := cc1_mapping |}.

Definition sample_record (n delay : Z) (content : gmap string PyVal) : Inject.Data :=
  {| Inject.d_id := None;
     Inject.d_title := "Initial Detection";
     Inject.d_description := "Detection of ransomware indicators";
     Inject.d_type := "notification";
     Inject.d_sequence_number := n;
     Inject.d_delay_minutes := delay;
     Inject.d_content := content;
     Inject.d_metadata := None |}.

(** Content that lacks the required field ['success_criteria']. *)
Definition incomplete_content : gmap string PyVal :=
  <["message" := PyStr "Ransomware detected"]>
  (<["expected_response" := PyStr "Initiate IR plan"]> ∅).

(** A content source that always answers with the same base scenario and
    the same inject records. *)
Definition fixed_scenario_source (data : Generator.ScenarioData)
  : nat -> string -> OrgContext -> list string -> Result Generator.ScenarioData :=
  fun _ _ _ _ => Ok data.

Definition fixed_injects_source (records : list Inject.Data)
  : nat -> Generator.ScenarioData -> Z -> Result (list Inject.Data) :=
  fun _ _ _ => Ok records.

(** Stand-ins for [str] of a dictionary and of a list. *)
Definition sample_str_of_context (o : OrgContext) : string :=
  "{'industry': 'technology', 'size': 'enterprise', 'region': 'us-west'}".

Definition sample_str_of_frameworks (l : list string) : string :=
  "[" +:+ String.concat ", " (map (fun s => "'" +:+ s +:+ "'") l) +:+ "]".

Definition three_records : list Inject.Data :=
  [sample_record 1 10 sample_content; sample_record 2 10 sample_content;
   sample_record 3 10 sample_content].

(** The sample generator with the stub validator [script], a fixed content
    source and configuration [config]. *)
Definition sample_generate (config : Generator.Config)
    (script : nat -> Scenario.t -> bool * Validator.ValidationResult)
    (records : list Inject.Data) (complexity_level : option Z)
  : Generator.M nat (Scenario.t * Validator.ValidationResult) :=
  Generator.generate_scenario nat (scripted_validator script)
    (fixed_scenario_source sample_data) (fixed_injects_source records)
    sample_str_of_context sample_str_of_frameworks config
    "security_incident" sample_org ["soc2"] complexity_level.

(** What a step of the generator leaves alone. *)
Definition same_services {VState} (w w' : Generator.World VState) : Prop :=
  Generator.now w' = Generator.now w
  /\ Generator.scenario_calls w' = Generator.scenario_calls w
  /\ Generator.injects_calls w' = Generator.injects_calls w
  /\ Generator.validator w' = Generator.validator w
  /\ Generator._cache w' = Generator._cache w.


(** [complexity_level or DEFAULT_COMPLEXITY] *)
Definition effective_complexity (complexity_level : option Z) : Z :=
  match complexity_level with
  | Some c => if c =? 0 then Generator.DEFAULT_COMPLEXITY else c
  | None => Generator.DEFAULT_COMPLEXITY
  end.

(** The handler of the generation loop's [except Exception] clause. *)
Definition on_exception {VState} (attempts : Z) (e : Exc)
  : Generator.M VState (option (Scenario.t * Validator.ValidationResult)) :=
  Generator.bind VState (Generator.logger VState
                           (Generator.ErrorAttemptFailed (attempts + 1) e))
    (fun _ => Generator.ret VState None).

Definition exhausted (config : Generator.Config) : Exc :=
  RuntimeError ("Failed to generate valid scenario after "
                +:+ str_of_int (Generator.max_attempts config) +:+ " attempts").

Definition accept_all : nat -> Scenario.t -> bool * Validator.ValidationResult :=
  fun _ => verdict true (96 # 100).


Definition sample_key : string :=
  Generator._generate_cache_key sample_str_of_context sample_str_of_frameworks
    "security_incident" sample_org ["soc2"] 3.

(** A first call of the sample generator on a fresh generator at instant 0,
    and a second call with the same arguments [d] microseconds after the
    first has returned. *)
Definition first_call (script : nat -> Scenario.t -> bool * Validator.ValidationResult)
  : Generator.World nat * Result (Scenario.t * Validator.ValidationResult) :=
  sample_generate Generator.default_config script three_records (Some 3)
    (init_world 0 0%nat).

Definition second_call
    (script : nat -> Scenario.t -> bool * Validator.ValidationResult) (d : Z)
  : Generator.World nat * Result (Scenario.t * Validator.ValidationResult) :=
  sample_generate Generator.default_config script three_records (Some 3)
    (Generator.tick d (fst (first_call script))).

(** The pair a call returned ([default_pair] if it raised). *)
Definition default_pair : Scenario.t * Validator.ValidationResult :=
  (sample_scenario 60 [], snd (verdict false 0 (sample_scenario 60 []))).

Definition returned (run : Generator.World nat
                           * Result (Scenario.t * Validator.ValidationResult))
  : Scenario.t * Validator.ValidationResult :=
  match snd run with
  | Ok p => p
  | Raise _ => default_pair
  end.

(** Rejects the first two candidates, accepts the third. *)
Definition accept_third : nat -> Scenario.t -> bool * Validator.ValidationResult :=
  fun n => if Nat.eqb n 2 then verdict true (96 # 100) else verdict false (85 # 100).

Definition reject_all : nat -> Scenario.t -> bool * Validator.ValidationResult :=
  fun _ => verdict false (85 # 100).

(** In the pass that makes the [scenario_call]-th base-generation call and
    the [injects_call]-th inject-generation call, the content source
    answers both, and its inject records are well formed: a candidate
    scenario gets built. *)
Definition candidate_built
    (llm_scenario : nat -> string -> OrgContext -> list string
                    -> Result Generator.ScenarioData)
    (llm_injects : nat -> Generator.ScenarioData -> Z -> Result (list Inject.Data))
    (ty : string) (org : OrgContext) (fws : list string)
    (c : Z) (scenario_call injects_call : nat) : Prop :=
  exists data records,
    llm_scenario scenario_call ty org fws = Ok data
    /\ llm_injects injects_call data c = Ok records
    /\ Forall (fun d => well_formed d = true) records.

(** Three well-formed records followed by one whose content lacks a
    required field. *)
Definition records_with_malformed : list Inject.Data :=
  three_records ++ [sample_record 4 5 incomplete_content].

(** Well-formed records of which the second repeats sequence number 1 and
    the third overflows the default duration of 60 minutes. *)
Definition mixed_records : list Inject.Data :=
  [sample_record 1 10 sample_content; sample_record 1 5 sample_content;
   sample_record 2 60 sample_content; sample_record 3 10 sample_content].

(** The sequence numbers stored in the scenario a run of the inject loop
    returned. *)
Definition stored_sequence {VState}
    (run : Generator.World VState * Result Scenario.t) : option (list Z) :=
  match snd run with
  | Ok s => Some (map Inject.sequence_number (Scenario.injects s))
  | Raise _ => None
  end.

(** The running totals of a list of delays: the [k]-th is the sum of the
    first [k] delays added to [start]. *)
Fixpoint running_totals (start : Z) (delays : list Z) : list Z :=
  match delays with
  | [] => []
  | d :: rest => (start + d) :: running_totals (start + d) rest
  end.

(** The implementation data a mapping entry gives for one requirement:
    [implementation.get('controls', {}).get(requirement, {})]. *)
Definition requirement_data (implementation : Compliance.Implementation)
    (requirement : string) : gmap string PyVal :=
  default ∅ (default ∅ (Compliance.impl_controls implementation) !! requirement).

(** Whether a requirement reaches the level's threshold. *)
Definition requirement_met (level_config : Compliance.LevelConfig)
    (implementation : Compliance.Implementation) (requirement : string) : bool :=
  Qle_bool (Compliance.threshold level_config)
    (Compliance._validate_requirement requirement implementation level_config).

(** A framework object with the single low-severity control [cc9]. *)
Definition cc9_framework : Compliance.ComplianceFramework :=
  {| Compliance.id := "soc2"; Compliance.name := "SOC 2";
     Compliance.version := "2017";
     Compliance.controls :=
       <["cc9" := {| Compliance.control_name := "CC9.0";
                     Compliance.control_description := "Risk Mitigation";
                     Compliance.requirements :=
                       ["cc9.1: Identify and develop risk mitigation activities"];
                     Compliance.severity := "low";
                     Compliance.category := None |}]> ∅;
     Compliance.control_weights := Compliance.CONTROL_WEIGHTS;
     Compliance.minimum_score := Compliance.COMPLIANCE_THRESHOLD |}.

Definition cc9_evidence : Compliance.Implementation :=
  evidenced ["cc9.1: Identify and develop risk mitigation activities"].

(** An entry of a report's [controls]: a control of the framework with a
    score between 0 and 1. *)
Definition scored_entry (fw : Compliance.ComplianceFramework)
    (kv : string * Compliance.ControlResult) : Prop :=
  (0 <= Compliance.score (snd kv) <= 1)%Q
  /\ is_Some (Compliance.controls fw !! fst kv).

(** The entry of [COMPLIANCE_FRAMEWORKS] for SOC 2. *)
Definition soc2_definition : Compliance.FrameworkDef :=
  {| Compliance.fw_name := "SOC 2"; Compliance.fw_version := "2017";
     Compliance.fw_controls :=
       <["cc1" := {|
           Compliance.control_name := "CC1.0";
           Compliance.control_description :=
             "Common Criteria Related to Organization and Management";
           Compliance.requirements := cc1_requirements;
           Compliance.severity := "critical";
           Compliance.category := None |}]> ∅ |}.

(** What the validator asks of one inject: a title of at least 5
    characters, a description of at least 20, and the three content
    fields. *)
Definition inject_acceptable (inject : Inject.t) : Prop :=
  5 <= Validator.len (Inject.title inject)
  /\ 20 <= Validator.len (Inject.description inject)
  /\ Forall (fun f => is_Some (Inject.content inject !! f)) Inject.required_fields.

(** The scenario [s] with another compliance mapping. *)
Definition with_mapping (s : Scenario.t) (mapping : Compliance.ComplianceMapping)
  : Scenario.t :=
  {| Scenario.id := Scenario.id s;
     Scenario.title := Scenario.title s;
     Scenario.description := Scenario.description s;
     Scenario.type := Scenario.type s;
     Scenario.complexity_level := Scenario.complexity_level s;
     Scenario.duration_minutes := Scenario.duration_minutes s;
     Scenario.injects := Scenario.injects s;
     Scenario.compliance_mappings := mapping;
     Scenario.organization_context := Scenario.organization_context s;
     Scenario.created_at := Scenario.created_at s;
     Scenario.updated_at := Scenario.updated_at s;
     Scenario.metadata := Scenario.metadata s;
     Scenario.telemetry := Scenario.telemetry s |}.

(** No inject of the list has a sequence number that is in [seen] or that
    an earlier inject of the list has. *)
Fixpoint fresh_sequence (injects : list Inject.t) (seen : list Z) : Prop :=
  match injects with
  | [] => True
  | inject :: rest =>
      ~ In (Inject.sequence_number inject) seen
      /\ fresh_sequence rest (Inject.sequence_number inject :: seen)
  end.

(** Whether a compliance report is a scored one (not the error report). *)
Definition is_report (r : Validator.ComplianceReport) : bool :=
  match r with
  | Validator.Report _ => true
  | Validator.ErrorReport _ => false
  end.

(** A scenario that passes every gate of the validator: three well-formed
    injects of ten minutes each and the control [cc1] fully evidenced. *)
Definition valid_sample_scenario : Scenario.t :=
  scenario_with cc1_mapping ∅
    [sample_inject 1 10; sample_inject 2 10; sample_inject 3 10].

(** What every candidate scenario that [generate_scenario] builds for a
    request is like, whatever the content source answered. *)
Definition generated_for (ty : string) (org : OrgContext) (c : Z)
    (s : Scenario.t) : Prop :=
  Scenario.type s = ty
  /\ in_keys ty SCENARIO_TYPES = true
  /\ Scenario.complexity_level s = c
  /\ 1 <= c <= 3
  /\ Scenario.duration_minutes s = DEFAULT_DURATION_MINUTES
  /\ Scenario.organization_context s = org
  /\ truthy_get (Scenario.metadata s) "ai_generated" = true
  /\ Scenario.metadata s !! "ai_description_score" = None
  /\ timeline_invariant s.

(** The metrics after one more generation has been recorded. *)
Definition counted_once (before after : Generator.Metrics) : Prop :=
  Generator.total_generations after
  = Some (default 0 (Generator.total_generations before) + 1).

(** An inject record that carries a content-quality score of 0.9. *)
Definition scored_record (n delay : Z) : Inject.Data :=
  {| Inject.d_id := None;
     Inject.d_title := "Initial Detection";
     Inject.d_description := "Detection of ransomware indicators";
     Inject.d_type := "notification";
     Inject.d_sequence_number := n;
     Inject.d_delay_minutes := delay;
     Inject.d_content := sample_content;
     Inject.d_metadata := Some (<["ai_content_score" := PyFloat (9 # 10)]> ∅) |}.

(** The generator with the shipped validator and compliance table, and a
    content source that always answers [sample_data] and [records]. *)
Definition shipped_generate (records : list Inject.Data)
    (complexity_level : option Z)
  : Generator.M Validator.ScenarioValidator
      (Scenario.t * Validator.ValidationResult) :=
  Generator.generate_scenario Validator.ScenarioValidator
    (Validator.validate_scenario Compliance.COMPLIANCE_FRAMEWORKS)
    (fixed_scenario_source sample_data) (fixed_injects_source records)
    sample_str_of_context sample_str_of_frameworks Generator.default_config
    "security_incident" sample_org ["soc2"] complexity_level.

(** A first call of it on a fresh generator. *)
Definition shipped_first_call (records : list Inject.Data)
  : Generator.World Validator.ScenarioValidator
    * Result (Scenario.t * Validator.ValidationResult) :=
  shipped_generate records (Some 3) (init_world 0 sample_validator).

(** The pair a call of it returned ([default_pair] if it raised). *)
Definition shipped_returned
    (run : Generator.World Validator.ScenarioValidator
           * Result (Scenario.t * Validator.ValidationResult))
  : Scenario.t * Validator.ValidationResult :=
  match snd run with
  | Ok p => p
  | Raise _ => default_pair
  end.

Definition scored_records : list Inject.Data :=
  [scored_record 1 10; scored_record 2 10; scored_record 3 10].

(** An inject constructed from the record [d]: it has the record's title,
    description, type, sequence number, delay and content. *)
Definition built_from (d : Inject.Data) (inject : Inject.t) : Prop :=
  Inject.title inject = Inject.d_title d
  /\ Inject.description inject = Inject.d_description d
  /\ Inject.type inject = Inject.d_type d
  /\ Inject.sequence_number inject = Inject.d_sequence_number d
  /\ Inject.delay_minutes inject = Inject.d_delay_minutes d
  /\ Inject.content inject = Inject.d_content d.

(** The shipped validator's [validate_injects], which leaves the validator
    as it is. *)
Definition shipped_validate_injects (self : Validator.ScenarioValidator)
    (injects : list Inject.t)
  : (bool * Validator.InjectsValidation) * Validator.ScenarioValidator :=
  (Validator.validate_injects self injects, self).

(** The complexity level of a customized scenario. *)
Definition customized_complexity (base : Scenario.t)
    (params : Generator.CustomizationParams) : Z :=
  default (Scenario.complexity_level base) (Generator.cp_complexity_level params).

(** What [customize_scenario] carries over from the base scenario into the
    scenario it constructs, whose id is [fresh]: the type, the organization
    context and the compliance mapping, and the title, description and
    complexity unless the parameters replace them.  The duration is the
    default one and the metadata is empty. *)
Definition bare_copy (base : Scenario.t) (params : Generator.CustomizationParams)
    (fresh : string) (s : Scenario.t) : Prop :=
  Scenario.id s = fresh
  /\ Scenario.type s = Scenario.type base
  /\ in_keys (Scenario.type base) SCENARIO_TYPES = true
  /\ Scenario.title s = default (Scenario.title base) (Generator.cp_title params)
  /\ Scenario.description s
     = default (Scenario.description base) (Generator.cp_description params)
  /\ Scenario.complexity_level s = customized_complexity base params
  /\ 1 <= customized_complexity base params <= 3
  /\ Scenario.organization_context s = Scenario.organization_context base
  /\ Scenario.compliance_mappings s = Scenario.compliance_mappings base
  /\ Scenario.duration_minutes s = DEFAULT_DURATION_MINUTES
  /\ Scenario.metadata s = ∅.

(** A content source for [regenerate_injects] that always answers with the
    same records. *)
Definition fixed_focused_source (records : list Inject.Data)
  : nat -> Generator.ScenarioSummary -> Z -> option (list string)
    -> Result (list Inject.Data) :=
  fun _ _ _ _ => Ok records.

(** Customization parameters that only set the complexity level. *)
Definition only_complexity (c : Z) : Generator.CustomizationParams :=
  {| Generator.cp_title := None;
     Generator.cp_description := None;
     Generator.cp_complexity_level := Some c;
     Generator.cp_regenerate_injects := false |}.

(** [customize_scenario] and [regenerate_injects] with the shipped validator
    and compliance table. *)
Definition shipped_customize (records : list Inject.Data)
    (base : Scenario.t) (params : Generator.CustomizationParams)
  : Generator.M Validator.ScenarioValidator
      (bool * Scenario.t
       * (Validator.InjectsValidation + Validator.ValidationResult)) :=
  Generator.customize_scenario Validator.ScenarioValidator
    (Validator.validate_scenario Compliance.COMPLIANCE_FRAMEWORKS)
    shipped_validate_injects (fixed_focused_source records) base params None.

Definition shipped_regenerate (records : list Inject.Data) (scenario : Scenario.t)
  : Generator.M Validator.ScenarioValidator
      (bool * list Inject.t * Validator.InjectsValidation) :=
  Generator.regenerate_injects Validator.ScenarioValidator
    shipped_validate_injects (fixed_focused_source records) scenario None None.

(** The scenario a call of [customize_scenario] returned (the base scenario
    if it raised), and its verdict. *)
Definition customized
    (run : Generator.World Validator.ScenarioValidator
           * Result (bool * Scenario.t
                     * (Validator.InjectsValidation + Validator.ValidationResult)))
  : Scenario.t :=
  match snd run with
  | Ok (_, s, _) => s
  | Raise _ => valid_sample_scenario
  end.

Definition customized_verdict
    (run : Generator.World Validator.ScenarioValidator
           * Result (bool * Scenario.t
                     * (Validator.InjectsValidation + Validator.ValidationResult)))
  : bool :=
  match snd run with
  | Ok (is_valid, _, _) => is_valid
  | Raise _ => false
  end.

Definition customized_report
    (run : Generator.World Validator.ScenarioValidator
           * Result (bool * Scenario.t
                     * (Validator.InjectsValidation + Validator.ValidationResult)))
  : Validator.InjectsValidation + Validator.ValidationResult :=
  match snd run with
  | Ok (_, _, report) => report
  | Raise _ => inr (snd default_pair)
  end.

(** The injects a call of [regenerate_injects] returned. *)
Definition regenerated
    (run : Generator.World Validator.ScenarioValidator
           * Result (bool * list Inject.t * Validator.InjectsValidation))
  : list Inject.t :=
  match snd run with
  | Ok (_, injects, _) => injects
  | Raise _ => []
  end.

Definition regenerated_report
    (run : Generator.World Validator.ScenarioValidator
           * Result (bool * list Inject.t * Validator.InjectsValidation))
  : Validator.InjectsValidation :=
  match snd run with
  | Ok (_, _, report) => report
  | Raise _ => {| Validator.iv_is_valid := false;
                  Validator.iv_inject_count := 0;
                  Validator.iv_inject_details := [];
                  Validator.iv_timeline_valid := false;
                  Validator.iv_issues := [] |}
  end.

(** The framework the validator scores against:
    [framework_id or organization_context.get('primary_framework', 'soc2')]
    with [framework_id] the organization's primary framework. *)
Definition effective_framework (org : OrgContext) : string :=
  default (default "soc2" (org_primary_framework org))
    (match org_primary_framework org with
     | Some f => if String.eqb f "" then None else Some f
     | None => None
     end).

(** [sample_validator] for an organization that names its primary framework
    in upper case. *)
Definition upper_case_validator : Validator.ScenarioValidator :=
  {| Validator._organization_context :=
       {| org_industry := Some (PyStr "technology");
          org_size := Some (PyStr "enterprise");
          org_region := Some (PyStr "us-west");
          org_compliance_frameworks := Some ["SOC2"];
          org_primary_framework := Some "SOC2";
          org_scenario_capabilities := Some ["security_incident"];
          org_max_complexity := None;
          org_other := ∅ |};
     Validator._validation_rules := Validator.VALIDATION_RULES;
     Validator._compliance_cache := ∅ |}.


(** ** Sums and the stable sort *)

Section ListFacts.

Lemma fold_left_Zadd_acc (l : list Z) (a : Z) :
  fold_left Z.add l a = a + zsum l.
Proof.
  unfold zsum. revert a.
  induction l as [|x l IH]; intros a; simpl.
  - lia.
  - rewrite (IH (a + x)), (IH (0 + x)). lia.
Qed.

Lemma zsum_cons (x : Z) (l : list Z) : zsum (x :: l) = x + zsum l.
Proof. unfold zsum at 1. simpl. apply fold_left_Zadd_acc. Qed.

Lemma zsum_app (l1 l2 : list Z) : zsum (l1 ++ l2) = zsum l1 + zsum l2.
Proof.
  induction l1 as [|x l1 IH]; simpl.
  - reflexivity.
  - rewrite !zsum_cons, IH. lia.
Qed.

Lemma zsum_Permutation (l1 l2 : list Z) :
  Permutation l1 l2 -> zsum l1 = zsum l2.
Proof.
  induction 1; rewrite ?zsum_cons in *; lia.
Qed.

Lemma insert_by_sequence_Permutation (x : Inject.t) (l : list Inject.t) :
  Permutation (Scenario.insert_by_sequence x l) (x :: l).
Proof.
  induction l as [|y l IH]; simpl.
  - reflexivity.
  - destruct (Inject.sequence_number x <=? Inject.sequence_number y).
    + reflexivity.
    + rewrite IH. apply perm_swap.
Qed.

Lemma sort_by_sequence_Permutation (l : list Inject.t) :
  Permutation (Scenario.sort_by_sequence l) l.
Proof.
  induction l as [|x l IH]; simpl.
  - reflexivity.
  - rewrite insert_by_sequence_Permutation. now constructor.
Qed.


Lemma insert_by_sequence_ascending (x : Inject.t) (l : list Inject.t) :
  ascending l -> ascending (Scenario.insert_by_sequence x l).
Proof.
  unfold ascending.
  induction l as [|y l IH]; simpl; intros Hs.
  - repeat constructor.
  - destruct (Z.leb_spec (Inject.sequence_number x) (Inject.sequence_number y)) as [Hle|Hgt].
    + simpl. constructor; [exact Hs|].
      apply StronglySorted_inv in Hs as [_ Hall].
      constructor; [exact Hle|].
      eapply Forall_impl; [exact Hall|]. simpl. intros; lia.
    + simpl. apply StronglySorted_inv in Hs as [Hs Hall].
      constructor; [now apply IH|].
      assert (Hp : Permutation (map Inject.sequence_number (Scenario.insert_by_sequence x l))
                     (Inject.sequence_number x :: map Inject.sequence_number l)).
      { change (Inject.sequence_number x :: map Inject.sequence_number l)
          with (map Inject.sequence_number (x :: l)).
        apply Permutation_map, insert_by_sequence_Permutation. }
      rewrite Hp. constructor; [lia | exact Hall].
Qed.

Lemma sort_by_sequence_ascending (l : list Inject.t) :
  ascending (Scenario.sort_by_sequence l).
Proof.
  induction l as [|x l IH]; simpl.
  - constructor.
  - now apply insert_by_sequence_ascending.
Qed.

End ListFacts.

(** ** [Scenario.add_inject] *)

Section AddInject.


Lemma existsb_sequence_false (l : list Inject.t) (x : Inject.t) :
  existsb (fun e => Inject.sequence_number e =? Inject.sequence_number x) l = false ->
  ~ In (Inject.sequence_number x) (map Inject.sequence_number l).
Proof.
  intros Hex Hin. apply in_map_iff in Hin as (e & Heq & Hin).
  assert (Ht : existsb (fun e => Inject.sequence_number e =? Inject.sequence_number x) l = true).
  { apply existsb_exists. exists e. split; [exact Hin|]. now apply Z.eqb_eq. }
  congruence.
Qed.

Lemma existsb_sequence_true (l : list Inject.t) (x : Inject.t) :
  In (Inject.sequence_number x) (map Inject.sequence_number l) ->
  existsb (fun e => Inject.sequence_number e =? Inject.sequence_number x) l = true.
Proof.
  intros Hin. apply in_map_iff in Hin as (e & Heq & Hin).
  apply existsb_exists. exists e. split; [exact Hin|]. now apply Z.eqb_eq.
Qed.

(** What a successful call did. *)
Lemma add_inject_success (now : Z) (s s' : Scenario.t) (inject : Inject.t)
    (msg : option string) :
  Scenario.add_inject now s inject = (s', (true, msg)) ->
  ~ In (Inject.sequence_number inject)
       (map Inject.sequence_number (Scenario.injects s))
  /\ Scenario.total_delay (Scenario.injects s) + Inject.delay_minutes inject
     <= Scenario.duration_minutes s
  /\ Scenario.injects s' = Scenario.sort_by_sequence (Scenario.injects s ++ [inject])
  /\ Scenario.duration_minutes s' = Scenario.duration_minutes s.
Proof.
  unfold Scenario.add_inject.
  destruct (existsb _ (Scenario.injects s)) eqn:Hex; [discriminate|].
  destruct (Z.ltb_spec (Scenario.duration_minutes s)
              (Scenario.total_delay (Scenario.injects s) + Inject.delay_minutes inject))
    as [Hlt|Hle]; [discriminate|].
  intros Heq. inversion Heq; subst; clear Heq. simpl.
  split; [now apply existsb_sequence_false|]. split; [exact Hle|]. split; reflexivity.
Qed.

(** A call that does not succeed leaves the scenario as it was. *)
Lemma add_inject_failure (now : Z) (s : Scenario.t) (inject : Inject.t) :
  fst (snd (Scenario.add_inject now s inject)) = false ->
  fst (Scenario.add_inject now s inject) = s.
Proof.
  unfold Scenario.add_inject.
  destruct (existsb _ (Scenario.injects s)); [reflexivity|].
  destruct (_ <? _); [reflexivity|]. simpl. discriminate.
Qed.

Lemma total_delay_sorted_snoc (l : list Inject.t) (x : Inject.t) :
  Scenario.total_delay (Scenario.sort_by_sequence (l ++ [x]))
  = Scenario.total_delay l + Inject.delay_minutes x.
Proof.
  unfold Scenario.total_delay.
  rewrite (zsum_Permutation _ (map Inject.delay_minutes (l ++ [x]))).
  - rewrite map_app, zsum_app. simpl. rewrite zsum_cons. unfold zsum at 2. simpl. lia.
  - apply Permutation_map, sort_by_sequence_Permutation.
Qed.

Lemma add_inject_establishes (now : Z) (s s' : Scenario.t) (inject : Inject.t)
    (msg : option string) :
  List.NoDup (map Inject.sequence_number (Scenario.injects s)) ->
  Scenario.add_inject now s inject = (s', (true, msg)) ->
  timeline_invariant s'.
Proof.
  intros Hnd Hadd.
  apply add_inject_success in Hadd as (Hfresh & Hsum & Hinj & Hdur).
  unfold timeline_invariant. rewrite Hinj, Hdur.
  split; [|split].
  - eapply Permutation_NoDup.
    + symmetry. apply Permutation_map, sort_by_sequence_Permutation.
    + rewrite map_app. simpl.
      eapply Permutation_NoDup; [apply Permutation_cons_append|].
      constructor; assumption.
  - apply sort_by_sequence_ascending.
  - rewrite total_delay_sorted_snoc. exact Hsum.
Qed.

Lemma add_inject_step (now : Z) (s : Scenario.t) (inject : Inject.t) :
  timeline_invariant s ->
  timeline_invariant (fst (Scenario.add_inject now s inject)).
Proof.
  intros Hinv.
  destruct (Scenario.add_inject now s inject) as [s' [[|] msg]] eqn:Hadd.
  - simpl. eapply add_inject_establishes; [apply Hinv | exact Hadd].
  - simpl. pose proof (add_inject_failure now s inject) as Hf.
    rewrite Hadd in Hf. simpl in Hf. rewrite Hf by reflexivity. exact Hinv.
Qed.

Lemma add_all_invariant (calls : list (Z * Inject.t)) (s : Scenario.t) :
  timeline_invariant s -> timeline_invariant (add_all s calls).
Proof.
  revert s. induction calls as [|c calls IH]; intros s Hinv; simpl.
  - exact Hinv.
  - apply IH. now apply add_inject_step.
Qed.

End AddInject.


(** C3 (as amended): for a scenario of non-negative duration that starts
    without injects, after any series of [add_inject] calls the stored
    injects have pairwise distinct sequence numbers, are in ascending order
    of sequence number, and their delays sum to at most the scenario's
    duration; and every successful [add_inject] call preserves this
    invariant. *)
Theorem add_inject_timeline_invariant :
  (forall (s0 : Scenario.t) (calls : list (Z * Inject.t)),
      Scenario.injects s0 = [] ->
      0 <= Scenario.duration_minutes s0 ->
      timeline_invariant (add_all s0 calls))
  /\ (forall (now : Z) (s s' : Scenario.t) (inject : Inject.t) (msg : option string),
      timeline_invariant s ->
      Scenario.add_inject now s inject = (s', (true, msg)) ->
      timeline_invariant s').
Proof.
  split.
  - intros s0 calls Hempty Hdur. apply add_all_invariant.
    unfold timeline_invariant, ascending, Scenario.total_delay.
    rewrite Hempty. simpl. split; [constructor|]. split; [constructor|exact Hdur].
  - intros now s s' inject msg Hinv Hadd.
    eapply add_inject_establishes; [apply Hinv | exact Hadd].
Qed.

Lemma add_inject_timeline_invariant_witness :
  timeline_invariant
    (add_all (sample_scenario 60 [])
       [(0, sample_inject 2 20); (1, sample_inject 1 30);
        (2, sample_inject 2 5); (3, sample_inject 3 15)])
  /\ map Inject.sequence_number
       (Scenario.injects
          (add_all (sample_scenario 60 [])
             [(0, sample_inject 2 20); (1, sample_inject 1 30);
              (2, sample_inject 2 5); (3, sample_inject 3 15)])) = [1; 2].
Proof.
  split.
  - apply (proj1 add_inject_timeline_invariant); [reflexivity | vm_compute; discriminate].
  - vm_compute. reflexivity.
Defined.

(** C3 as stated fails at a scenario of negative duration: it is built
    without injects, an [add_inject] call on it is rejected and leaves the
    inject list empty, and the sum of its (no) delays, 0, exceeds its
    duration. *)
Lemma timeline_invariant_fails_negative_duration :
  exists s : Scenario.t,
    Scenario.init "scenario-1" 0 "Ransomware Incident Response"
      "Enterprise-wide ransomware incident response exercise"
      "security_incident" 2 sample_org (Some (-1)) Scenario.no_kwargs = Ok s
    /\ Scenario.injects (add_all s [(1, sample_inject 1 5)]) = []
    /\ ~ timeline_invariant (add_all s [(1, sample_inject 1 5)]).
Proof.
  eexists. split; [vm_compute; reflexivity|]. split; [reflexivity|].
  unfold timeline_invariant. intros (_ & _ & H).
  change (0 <= -1) in H. lia.
Qed.

(** C7: adding an inject whose sequence number is already taken returns
    [(False, "Sequence number <n> already exists")] and leaves the scenario
    (its inject list, duration, telemetry and every other field) as it was;
    for the number 1 the message is "Sequence number 1 already exists". *)
Theorem add_inject_duplicate_sequence_number :
  (forall (now : Z) (s : Scenario.t) (inject : Inject.t),
      In (Inject.sequence_number inject)
         (map Inject.sequence_number (Scenario.injects s)) ->
      Scenario.add_inject now s inject
      = (s, (false, Some ("Sequence number "
                          +:+ str_of_int (Inject.sequence_number inject)
                          +:+ " already exists"))))
  /\ (forall (now : Z) (s : Scenario.t) (inject : Inject.t),
      Inject.sequence_number inject = 1 ->
      In 1 (map Inject.sequence_number (Scenario.injects s)) ->
      Scenario.add_inject now s inject
      = (s, (false, Some "Sequence number 1 already exists"))).
Proof.
  assert (Hgen : forall now s inject,
      In (Inject.sequence_number inject)
         (map Inject.sequence_number (Scenario.injects s)) ->
      Scenario.add_inject now s inject
      = (s, (false, Some ("Sequence number "
                          +:+ str_of_int (Inject.sequence_number inject)
                          +:+ " already exists")))).
  { intros now s inject Hin. unfold Scenario.add_inject.
    now rewrite (existsb_sequence_true _ _ Hin). }
  split; [exact Hgen|].
  intros now s inject H1 Hin. rewrite Hgen by (now rewrite H1).
  rewrite H1. reflexivity.
Qed.

Lemma add_inject_duplicate_sequence_number_witness :
  Scenario.add_inject 7 (sample_scenario 60 [sample_inject 1 10]) (sample_inject 1 5)
  = (sample_scenario 60 [sample_inject 1 10],
     (false, Some "Sequence number 1 already exists")).
Proof.
  apply (proj2 add_inject_duplicate_sequence_number).
  - reflexivity.
  - simpl. left. reflexivity.
Defined.

(** ** Complexity levels *)

(** [Scenario.validate_complexity] admits exactly the levels of
    [SCENARIO_COMPLEXITY_LEVELS], which are 1, 2 and 3. *)
Lemma validate_complexity_Ok (v : Z) :
  Scenario.validate_complexity v = Ok v <-> 1 <= v <= 3.
Proof.
  unfold Scenario.validate_complexity. simpl.
  destruct (Z.eqb_spec v 1) as [E1|E1], (Z.eqb_spec v 2) as [E2|E2],
    (Z.eqb_spec v 3) as [E3|E3]; simpl;
    split; intros Hc; try reflexivity; try discriminate; lia.
Qed.

(** The validator's complexity gate, for an organization that sets no
    maximum of its own, admits exactly 1 to 5. *)
Lemma validate_scenario_complexity_default (c : Z) (org : OrgContext) :
  org_max_complexity org = None ->
  fst (Validator.validate_scenario_complexity c org) = true <-> 1 <= c <= 5.
Proof.
  intros Hmax. unfold Validator.validate_scenario_complexity. rewrite Hmax. simpl.
  destruct (Z.leb_spec 1 c) as [H1|H1], (Z.leb_spec c 5) as [H5|H5]; simpl;
    split; intros Hc; try reflexivity; try discriminate; lia.
Qed.

(** C4 (the code at the failing input): a [Scenario] of complexity level 4
    or 5 cannot be constructed, although the validator's complexity gate
    and the generator's argument check both admit these levels; so
    [generate_scenario] with complexity level 4 exhausts its attempts
    without the validator ever seeing a candidate. *)
Theorem scenario_rejects_complexity_four_and_five :
  Scenario.init "scenario-1" 0 "Ransomware Incident Response"
    "Enterprise-wide ransomware incident response exercise"
    "security_incident" 4 sample_org None Scenario.no_kwargs
  = Raise (ValueError "Invalid complexity level: 4")
  /\ Scenario.init "scenario-1" 0 "Ransomware Incident Response"
       "Enterprise-wide ransomware incident response exercise"
       "security_incident" 5 sample_org None Scenario.no_kwargs
     = Raise (ValueError "Invalid complexity level: 5")
  /\ Validator.validate_scenario_complexity 4 sample_org
     = (true, "Valid complexity level")
  /\ Validator.validate_scenario_complexity 5 sample_org
     = (true, "Valid complexity level")
  /\ (forall c : Z, Scenario.validate_complexity c = Ok c <-> 1 <= c <= 3)
  /\ snd (sample_generate Generator.default_config accept_all three_records
            (Some 4) (init_world 0 0%nat))
     = Raise (RuntimeError "Failed to generate valid scenario after 3 attempts")
  /\ Generator.validator
       (fst (sample_generate Generator.default_config accept_all three_records
               (Some 4) (init_world 0 0%nat))) = 0%nat.
Proof.
  do 4 (split; [vm_compute; reflexivity|]).
  split; [intros c; apply validate_complexity_Ok|].
  split; vm_compute; reflexivity.
Qed.

(** ** Compliance scoring *)

Section Scoring.

Lemma dict_set_fresh {V} (d : list (string * V)) (k : string) (v : V) :
  ~ In k (map fst d) -> dict_set d k v = d ++ [(k, v)].
Proof.
  induction d as [|[k' v'] d IH]; simpl; intros Hfresh.
  - reflexivity.
  - destruct (String.eqb_spec k' k) as [->|Hne].
    + exfalso. apply Hfresh. now left.
    + rewrite IH; [reflexivity|]. intros Hin. apply Hfresh. now right.
Qed.

(** A control that [validate_control] scores belongs to the framework. *)
Lemma validate_control_Ok_in_framework now fw k impl level r :
  Compliance.validate_control now fw k impl level = Ok r ->
  is_Some (Compliance.controls fw !! k).
Proof.
  unfold Compliance.validate_control.
  destruct (Compliance.controls fw !! k); [eauto|discriminate].
Qed.

Lemma validate_control_unknown now fw k impl level :
  Compliance.controls fw !! k = None ->
  Compliance.validate_control now fw k impl level
  = Raise (ValueError ("Invalid control ID: " +:+ k)).
Proof. unfold Compliance.validate_control. now intros ->. Qed.

(** The loop appends one entry per control, adds its score to the running
    total and counts it. *)
Lemma mapping_loop_Ok now fw level detailed items :
  forall res0 t0 n0 c0 res t n c,
    List.NoDup (map fst res0 ++ map fst items) ->
    Compliance.mapping_loop now fw items level detailed (res0, t0, n0, c0)
    = Ok (res, t, n, c) ->
    exists scored,
      scored_controls now fw items level detailed = Ok scored
      /\ res = res0 ++ scored
      /\ t = fold_left Qplus (map (fun kv => Compliance.score (snd kv)) scored) t0
      /\ n = n0 + Z.of_nat (length items).
Proof.
  induction items as [|[k impl] items IH]; intros res0 t0 n0 c0 res t n c Hnd Hloop.
  - simpl in Hloop. inversion Hloop; subst. exists []. simpl.
    rewrite app_nil_r. repeat split; try reflexivity. lia.
  - simpl in Hloop. simpl.
    destruct (Compliance.validate_control now fw k impl level)
      as [[[is_c sc] det]|e] eqn:Hvc; [|discriminate].
    simpl in Hloop.
    assert (Hfresh : ~ In k (map fst res0)).
    { intros Hin. apply NoDup_remove_2 in Hnd. apply Hnd.
      apply in_or_app. now left. }
    rewrite dict_set_fresh in Hloop by exact Hfresh.
    apply IH in Hloop.
    + destruct Hloop as (scored & Hsc & Hres & Ht & Hn).
      rewrite Hsc. simpl. eexists. split; [reflexivity|].
      split; [rewrite Hres, <- app_assoc; reflexivity|].
      split; [exact Ht|]. rewrite Hn. simpl length. lia.
    + rewrite map_app. simpl. rewrite <- app_assoc. exact Hnd.
Qed.

Lemma scored_controls_keys now fw level detailed items scored :
  scored_controls now fw items level detailed = Ok scored ->
  map fst scored = map fst items
  /\ Forall (fun k => is_Some (Compliance.controls fw !! k)) (map fst items).
Proof.
  revert scored. induction items as [|[k impl] items IH]; intros scored Hsc.
  - simpl in Hsc. inversion Hsc. split; [reflexivity|constructor].
  - simpl in Hsc.
    destruct (Compliance.validate_control now fw k impl level) as [r|e] eqn:Hvc;
      [|discriminate].
    simpl in Hsc.
    destruct (scored_controls now fw items level detailed) as [rs|e] eqn:Hrs;
      [|discriminate].
    simpl in Hsc. inversion Hsc; subst. simpl.
    destruct (IH rs eq_refl) as [Hk Hall].
    split; [now rewrite Hk|].
    constructor; [|exact Hall]. eapply validate_control_Ok_in_framework, Hvc.
Qed.

(** A control of the mapping that the framework lacks makes the loop raise. *)
Lemma mapping_loop_unknown now fw level detailed items k impl :
  In (k, impl) items ->
  Compliance.controls fw !! k = None ->
  forall acc, exists e,
    Compliance.mapping_loop now fw items level detailed acc = Raise e.
Proof.
  intros Hin Hnone.
  induction items as [|[k0 impl0] items IH]; intros acc; [destruct Hin|].
  destruct acc as [[[res0 t0] n0] c0]. simpl.
  destruct (Compliance.validate_control now fw k0 impl0 level)
    as [[[is_c sc] det]|e] eqn:Hvc; simpl; [|eauto].
  destruct Hin as [Heq|Hin].
  - inversion Heq; subst.
    rewrite validate_control_unknown in Hvc by exact Hnone. discriminate.
  - apply IH. exact Hin.
Qed.

End Scoring.

(** C1 (the code at the failing input): for a framework with a critical
    control scored 1.0 and a low-severity control scored 0.0, the
    validation result's [compliance_score] is the unweighted mean 0.5; the
    weighted average 5/7 (about 0.714) is computed too, but kept under
    [score_details] and only used for the compliance verdict. *)
Theorem compliance_score_is_unweighted_mean :
  let r := snd (fst (Validator.validate_scenario extended_frameworks 0
                       sample_validator
                       (scenario_with two_control_mapping ∅ []))) in
  (exists s1 s9, control_score r "cc1" = Some s1 /\ (s1 == 1)%Q
                 /\ control_score r "cc9" = Some s9 /\ (s9 == 0)%Q)
  /\ (Validator.compliance_score r == 1 # 2)%Q
  /\ (exists w, weighted_score r = Some w
                /\ (w == (1 * 1 + 0 * (4 # 10)) / (1 + (4 # 10)))%Q
                /\ (w == 5 # 7)%Q)
  /\ ~ (Validator.compliance_score r == 5 # 7)%Q.
Proof.
  cbv zeta. split; [|split; [|split]].
  - eexists _, _. repeat split; vm_compute; reflexivity.
  - vm_compute. reflexivity.
  - eexists. repeat split; vm_compute; reflexivity.
  - vm_compute. discriminate.
Qed.

(** C10 (as amended): when the mapping's controls all exist in the
    framework, scoring succeeds and scores exactly the controls of the
    mapping, each by [validate_control]: the framework's other controls
    enter neither the count nor the sum of the overall score, which is
    the sum of the scored controls' scores over their number.  A control
    of the mapping that the framework does not have makes the whole
    scoring raise, so that no control is scored. *)
Theorem scoring_covers_the_mapping :
  forall (registry : gmap string Compliance.FrameworkDef) (now : Z)
         (mapping : Compliance.ComplianceMapping)
         (framework_id validation_level : string) (detailed_report : bool),
    let items := default [] (Compliance.mapping_controls mapping) in
    List.NoDup (map fst items) ->
    (forall is_compliant r,
        Compliance.validate_compliance_mapping registry now mapping framework_id
          validation_level detailed_report = Ok (is_compliant, r) ->
        exists d fw,
          registry !! framework_id = Some d
          /\ Compliance.ComplianceFramework_init registry framework_id d = Ok fw
          /\ Compliance.controls fw = Compliance.fw_controls d
          /\ scored_controls now fw items validation_level detailed_report
             = Ok (Compliance.vr_controls r)
          /\ map fst (Compliance.vr_controls r) = map fst items
          /\ Forall (fun k => is_Some (Compliance.fw_controls d !! k)) (map fst items)
          /\ Compliance.total_controls (Compliance.vr_summary r)
             = Z.of_nat (length items)
          /\ Compliance.overall_score (Compliance.vr_summary r)
             = if 0 <? Z.of_nat (length items)
               then (qsum (map (fun kv => Compliance.score (snd kv))
                               (Compliance.vr_controls r))
                     / inject_Z (Z.of_nat (length items)))%Q
               else 0%Q)
    /\ (forall d k impl,
        registry !! framework_id = Some d ->
        In (k, impl) items ->
        Compliance.fw_controls d !! k = None ->
        exists e,
          Compliance.validate_compliance_mapping registry now mapping framework_id
            validation_level detailed_report = Raise e).
Proof.
  intros registry now mapping fid level detailed items Hnd. split.
  - intros is_c r Hv. unfold Compliance.validate_compliance_mapping in Hv.
    destruct (registry !! fid) as [d|] eqn:Hd; [|discriminate].
    destruct (Compliance.ComplianceFramework_init registry fid d) as [fw|e] eqn:Hfw;
      [|discriminate].
    simpl in Hv. fold items in Hv.
    destruct (Compliance.mapping_loop now fw items level detailed ([], 0%Q, 0, 0))
      as [[[[res t] n] c]|e] eqn:Hloop; [|discriminate].
    simpl in Hv.
    destruct (Compliance.table_get Compliance.VALIDATION_LEVELS level) as [lc|e];
      [|discriminate].
    simpl in Hv. inversion Hv; subst; clear Hv. simpl.
    apply mapping_loop_Ok in Hloop; [|exact Hnd].
    destruct Hloop as (scored & Hsc & Hres & Ht & Hn). simpl in Hres. subst res.
    assert (Hctl : Compliance.controls fw = Compliance.fw_controls d).
    { unfold Compliance.ComplianceFramework_init in Hfw.
      destruct (registry !! lower fid); [|discriminate]. now inversion Hfw. }
    destruct (scored_controls_keys _ _ _ _ _ _ Hsc) as [Hkeys Hall].
    exists d, fw. rewrite <- Hctl.
    repeat split; try assumption; try reflexivity; try lia.
    subst n t. reflexivity.
  - intros d k impl Hd Hin Hnone.
    unfold Compliance.validate_compliance_mapping. rewrite Hd.
    destruct (Compliance.ComplianceFramework_init registry fid d) as [fw|e] eqn:Hfw;
      [|eauto].
    simpl. fold items.
    assert (Hctl : Compliance.controls fw = Compliance.fw_controls d).
    { unfold Compliance.ComplianceFramework_init in Hfw.
      destruct (registry !! lower fid); [|discriminate]. now inversion Hfw. }
    destruct (mapping_loop_unknown now fw level detailed items k impl Hin
                ltac:(now rewrite Hctl) ([], 0%Q, 0, 0)) as [e He].
    rewrite He. simpl. eauto.
Qed.

Lemma scoring_covers_the_mapping_witness :
  (exists is_compliant r,
      Compliance.validate_compliance_mapping Compliance.COMPLIANCE_FRAMEWORKS 0
        cc1_mapping "soc2" "strict" true = Ok (is_compliant, r)
      /\ map fst (Compliance.vr_controls r) = ["cc1"]
      /\ Compliance.total_controls (Compliance.vr_summary r) = 1)
  /\ (exists e,
      Compliance.validate_compliance_mapping Compliance.COMPLIANCE_FRAMEWORKS 0
        unknown_control_mapping "soc2" "strict" true = Raise e).
Proof.
  split.
  - destruct (Compliance.validate_compliance_mapping
                Compliance.COMPLIANCE_FRAMEWORKS 0 cc1_mapping "soc2" "strict" true)
      as [[is_compliant r]|e] eqn:Hv; [|vm_compute in Hv; discriminate].
    exists is_compliant, r. split; [reflexivity|].
    assert (Hnd : List.NoDup ["cc1"]) by (repeat constructor; simpl; tauto).
    destruct (proj1 (scoring_covers_the_mapping Compliance.COMPLIANCE_FRAMEWORKS 0
                       cc1_mapping "soc2" "strict" true Hnd) is_compliant r Hv)
      as (d & fw & _ & _ & _ & _ & Hkeys & _ & Htotal & _).
    split; [exact Hkeys | exact Htotal].
  - assert (Hnd : List.NoDup ["cc1"; "zz9"]).
    { repeat constructor; simpl; intros H; intuition discriminate. }
    destruct (Compliance.COMPLIANCE_FRAMEWORKS !! "soc2") as [d|] eqn:Hd;
      [|vm_compute in Hd; discriminate].
    apply (proj2 (scoring_covers_the_mapping Compliance.COMPLIANCE_FRAMEWORKS 0
                    unknown_control_mapping "soc2" "strict" true Hnd)
             d "zz9" unevidenced).
    + exact Hd.
    + simpl. right. left. reflexivity.
    + vm_compute in Hd. inversion Hd. vm_compute. reflexivity.
Defined.

(** C10 as stated fails: with the shipped SOC 2 framework, a mapping of the
    fully evidenced control [cc1] and of a control [zz9] that SOC 2 does not
    have is not scored at all ([ValueError]), whereas [cc1] alone scores
    1.0; the validator then reports the score 0.0. *)
Lemma unknown_control_aborts_scoring :
  Compliance.validate_compliance_mapping Compliance.COMPLIANCE_FRAMEWORKS 0
    unknown_control_mapping "soc2" "strict" true
  = Raise (ValueError "Invalid control ID: zz9")
  /\ (exists is_compliant r,
      Compliance.validate_compliance_mapping Compliance.COMPLIANCE_FRAMEWORKS 0
        cc1_mapping "soc2" "strict" true = Ok (is_compliant, r)
      /\ (Compliance.overall_score (Compliance.vr_summary r) == 1)%Q)
  /\ (Validator.compliance_score
        (snd (fst (Validator.validate_scenario Compliance.COMPLIANCE_FRAMEWORKS 0
                     sample_validator
                     (scenario_with unknown_control_mapping ∅ [])))) == 0)%Q.
Proof.
  split; [vm_compute; reflexivity|]. split.
  - eexists _, _. split; [vm_compute; reflexivity|]. vm_compute. reflexivity.
  - vm_compute. reflexivity.
Qed.

(** ** AI-content confidence *)

(** Where every score that is present is truthy (in particular non-zero),
    the validator's confidence is the mean the specification describes. *)
Lemma ai_confidence_agrees_when_truthy (scenario : Scenario.t) :
  truthy_get (Scenario.metadata scenario) "ai_generated" = true ->
  Forall (fun v => truthy v = true) (present_scores scenario) ->
  Validator._validate_ai_content scenario = spec_ai_confidence scenario.
Proof.
  intros Hai Hall.
  assert (Heq : Validator.confidence_scores scenario = present_scores scenario).
  { unfold Validator.confidence_scores, present_scores in *.
    apply Forall_app in Hall as [Hs Hi]. f_equal.
    - destruct (Scenario.metadata scenario !! "ai_description_score") as [v|];
        [|reflexivity].
      destruct (has_score v) eqn:Hh.
      + apply Forall_inv in Hs. now rewrite Hs.
      + destruct v; try discriminate. reflexivity.
    - induction (Scenario.injects scenario) as [|i l IH]; [reflexivity|].
      simpl in *. apply Forall_app in Hi as [Hi1 Hi2]. rewrite (IH Hi2). f_equal.
      destruct (Inject.metadata i !! "ai_content_score") as [v|]; [|reflexivity].
      destruct (has_score v) eqn:Hh.
      + apply Forall_inv in Hi1. now rewrite Hi1.
      + destruct v; try discriminate. reflexivity. }
  unfold Validator._validate_ai_content, spec_ai_confidence.
  rewrite Hai, Heq. reflexivity.
Qed.

(** C8 (the code at the failing input): an inject whose content-quality
    score is 0.0 is left out of the mean as if it had no score.  For scores
    0.9 (scenario) and 0.9, 0.0, 0.9 (injects) the validator computes 0.9,
    which passes the 0.85 threshold; the mean of the four scores is 0.675. *)
Theorem ai_confidence_drops_zero_scores :
  (exists q, Validator._validate_ai_content zero_scored_scenario = Ok q
             /\ (q == 9 # 10)%Q)
  /\ (exists q, spec_ai_confidence zero_scored_scenario = Ok q
                /\ (q == ((9 # 10) + (9 # 10) + 0 + (9 # 10)) / 4)%Q
                /\ (q == 675 # 1000)%Q)
  /\ (Validator.ai_confidence
        (snd (fst (Validator.validate_scenario Compliance.COMPLIANCE_FRAMEWORKS 0
                     sample_validator zero_scored_scenario))) == 9 # 10)%Q
  /\ Validator.is_valid
       (snd (fst (Validator.validate_scenario Compliance.COMPLIANCE_FRAMEWORKS 0
                    sample_validator zero_scored_scenario))) = true.
Proof.
  split; [|split; [|split]].
  - eexists. split; vm_compute; reflexivity.
  - eexists. repeat split; vm_compute; reflexivity.
  - vm_compute. reflexivity.
  - vm_compute. reflexivity.
Qed.

(** ** The generator: cache, retries and the inject loop *)

Section GeneratorFacts.

Variable VState : Type.
Variable validate :
  Z -> VState -> Scenario.t -> (bool * Validator.ValidationResult) * VState.
Variable llm_scenario :
  nat -> string -> OrgContext -> list string -> Result Generator.ScenarioData.
Variable llm_injects :
  nat -> Generator.ScenarioData -> Z -> Result (list Inject.Data).
Variable str_of_context : OrgContext -> string.
Variable str_of_frameworks : list string -> string.
Variable config : Generator.Config.

Abbreviation World := (Generator.World VState).
Abbreviation add_injects := (Generator.add_injects VState).
Abbreviation attempt :=
  (Generator.attempt VState validate llm_scenario llm_injects config).
Abbreviation attempts_loop :=
  (Generator.attempts_loop VState validate llm_scenario llm_injects config).
Abbreviation generate_scenario :=
  (Generator.generate_scenario VState validate llm_scenario llm_injects
     str_of_context str_of_frameworks config).
Abbreviation cache_key :=
  (Generator._generate_cache_key str_of_context str_of_frameworks).

Lemma same_services_refl (w : World) : same_services w w.
Proof. repeat split. Qed.

Lemma same_services_trans (w1 w2 w3 : World) :
  same_services w1 w2 -> same_services w2 w3 -> same_services w1 w3.
Proof.
  unfold same_services. intros (?&?&?&?&?) (?&?&?&?&?).
  repeat split; congruence.
Qed.

Lemma well_formed_init (fresh : string) (t : Z) (d : Inject.Data) :
  well_formed d = true -> exists i, Inject.init fresh t d = Ok i
    /\ Inject.sequence_number i = Inject.d_sequence_number d
    /\ Inject.delay_minutes i = Inject.d_delay_minutes d.
Proof.
  unfold well_formed, Inject.init. intros H. apply andb_true_iff in H as [Ht Hc].
  destruct (Inject.validate_inject_type (Inject.d_type d)); [|discriminate].
  destruct (Inject.validate_content (Inject.d_content d)); [|discriminate].
  simpl. eexists. repeat split.
Qed.

Lemma malformed_init (fresh : string) (t : Z) (d : Inject.Data) :
  well_formed d = false -> exists e, Inject.init fresh t d = Raise e.
Proof.
  unfold well_formed, Inject.init. intros H.
  destruct (Inject.validate_inject_type (Inject.d_type d)); [|simpl; eauto].
  destruct (Inject.validate_content (Inject.d_content d)); [discriminate|].
  simpl. eauto.
Qed.

(** The inject loop touches neither the clock, the content source, the
    validator nor the cache, whether it completes or raises. *)
Lemma add_injects_same_services (records : list Inject.Data) :
  forall (s : Scenario.t) (w : World),
    same_services w (fst (add_injects records s w)).
Proof.
  induction records as [|d records IH]; intros s w; simpl.
  - apply same_services_refl.
  - unfold Generator.bind.
    destruct (Inject.d_id d); simpl.
    + destruct (Inject.init "" (Generator.now w) d) as [i|e]; simpl;
        [|apply same_services_refl].
      destruct (Scenario.add_inject (Generator.now w) s i) as [s' [[|] err]]; simpl.
      * apply IH.
      * eapply same_services_trans; [|apply IH]. repeat split.
    + destruct (Inject.init _ (Generator.now w) d) as [i|e]; simpl;
        [|repeat split].
      destruct (Scenario.add_inject (Generator.now w) s i) as [s' [[|] err]]; simpl.
      * eapply same_services_trans; [|apply IH]. repeat split.
      * eapply same_services_trans; [|apply IH]. repeat split.
Qed.

Lemma add_injects_Ok (records : list Inject.Data) :
  Forall (fun d => well_formed d = true) records ->
  forall (s : Scenario.t) (w : World),
    exists s', snd (add_injects records s w) = Ok s'.
Proof.
  induction 1 as [|d records Hd Hall IH]; intros s w; simpl.
  - eauto.
  - unfold Generator.bind.
    destruct (Inject.d_id d); simpl.
    + destruct (well_formed_init "" (Generator.now w) d Hd) as (i & -> & _). simpl.
      destruct (Scenario.add_inject (Generator.now w) s i) as [s' [[|] err]]; simpl;
        apply IH.
    + destruct (well_formed_init (Generator.uuid4 (Generator.uuid_draws w))
                  (Generator.now w) d Hd) as (i & -> & _). simpl.
      destruct (Scenario.add_inject (Generator.now w) s i) as [s' [[|] err]]; simpl;
        apply IH.
Qed.

Lemma Scenario_init_Ok fresh t title description ty c org duration kwargs :
  in_keys ty SCENARIO_TYPES = true ->
  1 <= c <= 3 ->
  exists s, Scenario.init fresh t title description ty c org duration kwargs = Ok s.
Proof.
  intros Hty Hc. unfold Scenario.init, Scenario.validate_scenario_type.
  rewrite Hty. simpl. rewrite (proj2 (validate_complexity_Ok c) Hc). simpl. eauto.
Qed.

(** Every pass through the loop body calls the base-generation operation
    exactly once, whatever happens afterwards, and leaves the clock alone. *)
Lemma attempt_scenario_calls gs key ty org fws c a (w : World) :
  Generator.scenario_calls (fst (attempt gs key ty org fws c a w))
  = S (Generator.scenario_calls w)
  /\ Generator.now (fst (attempt gs key ty org fws c a w)) = Generator.now w.
Proof.
  unfold Generator.attempt, Generator.bind, Generator.call_generate_scenario.
  simpl.
  destruct (llm_scenario _ ty org fws) as [data|e]; simpl; [|split; reflexivity].
  destruct (Scenario.init _ _ _ _ ty c org None _) as [s|e]; simpl;
    [|split; reflexivity].
  unfold Generator.call_generate_injects. simpl.
  destruct (llm_injects _ data c) as [records|e]; simpl; [|split; reflexivity].
  match goal with |- context [add_injects records s ?w0] =>
    pose proof (add_injects_same_services records s w0) as Hsame;
    destruct (add_injects records s w0) as [w1 [s'|e]] end;
    simpl in *; destruct Hsame as (Hn & Hsc & _); simpl in *;
    [|split; assumption].
  unfold Generator.call_validate_scenario.
  destruct (validate (Generator.now w1) (Generator.validator w1) s')
    as [[is_valid v] vs']. simpl.
  destruct (is_valid && Qle_bool _ _); simpl; split; assumption.
Qed.

(** A pass that returns a pair has had it accepted by the validator and has
    stored it in the cache under the key, stamped with the current instant. *)
Lemma attempt_Some gs key ty org fws c a (w w' : World) s v :
  attempt gs key ty org fws c a w = (w', Ok (Some (s, v))) ->
  Generator._cache w' !! key
  = Some {| Generator.ce_scenario := s;
            Generator.ce_validation := v;
            Generator.ce_timestamp := Generator.now w' |}
  /\ exists t vs, accepts config (fst (validate t vs s)) = true
                  /\ snd (fst (validate t vs s)) = v.
Proof.
  unfold Generator.attempt, Generator.bind, Generator.call_generate_scenario.
  simpl.
  destruct (llm_scenario _ ty org fws) as [data|e]; simpl; [|discriminate].
  destruct (Scenario.init _ _ _ _ ty c org None _) as [s0|e]; simpl;
    [|discriminate].
  unfold Generator.call_generate_injects. simpl.
  destruct (llm_injects _ data c) as [records|e]; simpl; [|discriminate].
  match goal with |- context [add_injects records s0 ?w0] =>
    destruct (add_injects records s0 w0) as [w1 [s'|e]] end;
    simpl; [|discriminate].
  unfold Generator.call_validate_scenario.
  destruct (validate (Generator.now w1) (Generator.validator w1) s')
    as [[is_valid v'] vs'] eqn:Hval. simpl.
  destruct (is_valid && Qle_bool _ _) eqn:Hacc; simpl; [|discriminate].
  intros Heq. inversion Heq; subst; clear Heq. simpl. split.
  - apply lookup_insert_eq.
  - exists (Generator.now w1), (Generator.validator w1).
    rewrite Hval. simpl. split; [exact Hacc | reflexivity].
Qed.

(** One iteration of the loop: it either returns a pair, or ends without
    one, having called the base-generation operation once. *)
Lemma iteration_cases gs key ty org fws c a (w : World) :
  (exists w' s v,
      Generator.try_except VState (attempt gs key ty org fws c a)
        (on_exception a) w = (w', Ok (Some (s, v)))
      /\ attempt gs key ty org fws c a w = (w', Ok (Some (s, v)))
      /\ Generator.scenario_calls w' = S (Generator.scenario_calls w)
      /\ Generator.now w' = Generator.now w)
  \/ (exists w',
      Generator.try_except VState (attempt gs key ty org fws c a)
        (on_exception a) w = (w', Ok None)
      /\ Generator.scenario_calls w' = S (Generator.scenario_calls w)
      /\ Generator.now w' = Generator.now w).
Proof.
  destruct (attempt_scenario_calls gs key ty org fws c a w) as [Hsc Hnow].
  unfold Generator.try_except.
  destruct (attempt gs key ty org fws c a w) as [w1 [[[s v]|]|e]] eqn:Hatt;
    simpl in *.
  - left. exists w1, s, v. repeat split; assumption.
  - right. exists w1. repeat split; assumption.
  - right. eexists. split; [reflexivity|]. simpl. split; assumption.
Qed.

Lemma attempts_loop_S n gs key ty org fws c a (w : World) :
  attempts_loop (S n) gs key ty org fws c a w
  = match Generator.try_except VState (attempt gs key ty org fws c a)
            (on_exception a) w with
    | (w', Ok (Some result)) => (w', Ok result)
    | (w', Ok None) => attempts_loop n gs key ty org fws c (a + 1) w'
    | (w', Raise e) => (w', Raise e)
    end.
Proof.
  simpl. unfold Generator.bind at 1. unfold on_exception.
  destruct (Generator.try_except VState _ _ w) as [w' [[r|]|e]]; reflexivity.
Qed.


(** With a validator that never accepts, the loop runs all its iterations
    and raises, after exactly [remaining] base-generation calls. *)
Lemma attempts_loop_rejecting n gs key ty org fws c :
  (forall t vs s, accepts config (fst (validate t vs s)) = false) ->
  forall a (w : World),
    exists w',
      attempts_loop n gs key ty org fws c a w = (w', Raise (exhausted config))
      /\ Generator.scenario_calls w' = (Generator.scenario_calls w + n)%nat.
Proof.
  intros Hrej. induction n as [|n IH]; intros a w.
  - simpl. exists w. split; [reflexivity|]. lia.
  - rewrite attempts_loop_S.
    destruct (iteration_cases gs key ty org fws c a w)
      as [(w' & s & v & Hit & Hatt & Hsc & Hnow)|(w' & Hit & Hsc & Hnow)];
      rewrite Hit.
    + destruct (attempt_Some _ _ _ _ _ _ _ _ _ _ _ Hatt) as [_ (t & vs & Hacc & _)].
      rewrite Hrej in Hacc. discriminate.
    + destruct (IH (a + 1) w') as (w'' & Hloop & Hcalls).
      exists w''. split; [exact Hloop|]. lia.
Qed.

(** A pass in which the content source answers and every record is well
    formed builds a candidate, has the validator judge it, and ends with the
    validator's answer: the pair if the generator accepts it, no pair
    otherwise. *)
Lemma attempt_candidate gs key ty org fws c a (w : World) data records :
  llm_scenario (Generator.scenario_calls w) ty org fws = Ok data ->
  in_keys ty SCENARIO_TYPES = true ->
  1 <= c <= 3 ->
  llm_injects (Generator.injects_calls w) data c = Ok records ->
  Forall (fun d => well_formed d = true) records ->
  exists s w',
    attempt gs key ty org fws c a w
    = (w', Ok (if accepts config
                    (fst (validate (Generator.now w) (Generator.validator w) s))
               then Some (s, snd (fst (validate (Generator.now w)
                                         (Generator.validator w) s)))
               else None))
    /\ Generator.scenario_calls w' = S (Generator.scenario_calls w)
    /\ Generator.injects_calls w' = S (Generator.injects_calls w)
    /\ Generator.validator w'
       = snd (validate (Generator.now w) (Generator.validator w) s)
    /\ Generator.now w' = Generator.now w
    /\ (accepts config (fst (validate (Generator.now w) (Generator.validator w) s))
        = false -> Generator._cache w' = Generator._cache w).
Proof.
  intros Hdata Hty Hc Hrec Hwf.
  unfold Generator.attempt, Generator.bind, Generator.call_generate_scenario.
  simpl. rewrite Hdata. simpl.
  match goal with |- context [Scenario.init ?f ?t ?ti ?de ty c org None ?kw] =>
    destruct (Scenario_init_Ok f t ti de ty c org None kw Hty Hc) as [s0 Hs0];
    rewrite Hs0 end.
  simpl. unfold Generator.call_generate_injects. simpl. rewrite Hrec. simpl.
  match goal with |- context [add_injects records s0 ?w0] =>
    pose proof (add_injects_same_services records s0 w0) as Hsame;
    destruct (add_injects_Ok records Hwf s0 w0) as [s' Hs'];
    destruct (add_injects records s0 w0) as [w1 r1] end.
  simpl in Hs'. subst r1. simpl in Hsame.
  destruct Hsame as (Hn & Hsc & Hic & Hv & Hca). simpl in *.
  unfold Generator.call_validate_scenario. rewrite Hn, Hv.
  exists s'. unfold accepts.
  destruct (validate (Generator.now w) (Generator.validator w) s')
    as [[is_valid v'] vs']. simpl.
  destruct (is_valid && Qle_bool _ _); simpl; eexists;
    (split; [reflexivity|]); simpl; repeat split; try assumption;
    try discriminate; intros _; assumption.
Qed.

(** The cache lookup reads the clock and the cache and changes nothing. *)
Lemma _get_cached_scenario_pure key (w : World) :
  fst (Generator._get_cached_scenario VState config key w) = w.
Proof.
  unfold Generator._get_cached_scenario.
  destruct (Generator._cache w !! key) as [entry|]; [|reflexivity].
  destruct (_ <? _); reflexivity.
Qed.

(** On a cache miss with legal arguments, [generate_scenario] is its loop. *)
Lemma generate_scenario_miss ty org fws cl (w : World) :
  in_keys ty SCENARIO_TYPES = true ->
  1 <= effective_complexity cl <= 5 ->
  snd (Generator._get_cached_scenario VState config
         (cache_key ty org fws (effective_complexity cl)) w) = Ok None ->
  generate_scenario ty org fws cl w
  = attempts_loop (Z.to_nat (Generator.max_attempts config)) (Generator.now w)
      (cache_key ty org fws (effective_complexity cl)) ty org fws
      (effective_complexity cl) 0
      (fst (Generator.logger VState (Generator.InfoGenerating ty cl) w)).
Proof.
  intros Hty [Hlo Hhi] Hmiss.
  unfold Generator.generate_scenario, Generator.bind. simpl.
  rewrite Hty. simpl. fold (effective_complexity cl).
  destruct (Z.leb_spec 1 (effective_complexity cl)); [|lia].
  destruct (Z.leb_spec (effective_complexity cl) 5); [|lia]. simpl.
  unfold Generator._get_cached_scenario in *. simpl.
  destruct (Generator._cache w !! _) as [entry|]; [|reflexivity].
  destruct (_ <? _); [discriminate|reflexivity].
Qed.

(** A call that returns had legal arguments. *)
Lemma generate_scenario_Ok_args ty org fws cl (w w1 : World) r :
  generate_scenario ty org fws cl w = (w1, Ok r) ->
  in_keys ty SCENARIO_TYPES = true /\ 1 <= effective_complexity cl <= 5.
Proof.
  unfold Generator.generate_scenario, Generator.bind. simpl.
  destruct (in_keys ty SCENARIO_TYPES); simpl; [|discriminate].
  fold (effective_complexity cl).
  destruct (Z.leb_spec 1 (effective_complexity cl)); simpl; [|discriminate].
  destruct (Z.leb_spec (effective_complexity cl) 5); simpl; [|discriminate].
  intros _. split; [reflexivity|lia].
Qed.




End GeneratorFacts.



(** ** Cache expiry *)

(** A lookup serves an entry exactly when the seconds field of its age,
    which leaves out whole days, is below the TTL. *)
Lemma _get_cached_scenario_spec (VState : Type) (config : Generator.Config)
    (key : string) (w : Generator.World VState) (entry : Generator.CacheEntry) :
  Generator._cache w !! key = Some entry ->
  snd (Generator._get_cached_scenario VState config key w)
  = Ok (if ((Generator.now w - Generator.ce_timestamp entry) / 1000000) mod 86400
           <? Generator.cache_ttl config
        then Some (Generator.ce_scenario entry, Generator.ce_validation entry)
        else None).
Proof.
  intros Hentry. unfold Generator._get_cached_scenario, Generator.timedelta_seconds.
  rewrite Hentry. destruct (_ <? _); reflexivity.
Qed.

(** C6 (the code at the failing input): an entry stored by a successful
    call is expired at a lookup exactly one TTL (3600 s) later, but a
    lookup one day and ten seconds after the insertion serves it again, and
    [generate_scenario] returns it without calling the content source. *)
Theorem stale_entry_served_after_a_day :
  is_Ok (snd (first_call accept_all)) = true
  /\ snd (Generator._get_cached_scenario nat Generator.default_config sample_key
            (Generator.tick (3600 * 1000000) (fst (first_call accept_all))))
     = Ok None
  /\ Generator.timedelta_seconds ((86400 + 10) * 1000000) = 10
  /\ snd (Generator._get_cached_scenario nat Generator.default_config sample_key
            (Generator.tick ((86400 + 10) * 1000000) (fst (first_call accept_all))))
     = Ok (Some (returned (first_call accept_all)))
  /\ snd (second_call accept_all ((86400 + 10) * 1000000))
     = snd (first_call accept_all)
  /\ Generator.scenario_calls (fst (second_call accept_all ((86400 + 10) * 1000000)))
     = Generator.scenario_calls (fst (first_call accept_all)).
Proof.
  split; [vm_compute; reflexivity|]. split; [vm_compute; reflexivity|].
  split; [vm_compute; reflexivity|]. split; [vm_compute; reflexivity|].
  split; vm_compute; reflexivity.
Qed.

(** ** Bounded retries *)

Section Retries.

Variable script : nat -> Scenario.t -> bool * Validator.ValidationResult.
Variable llm_scenario :
  nat -> string -> OrgContext -> list string -> Result Generator.ScenarioData.
Variable llm_injects :
  nat -> Generator.ScenarioData -> Z -> Result (list Inject.Data).
Variable str_of_context : OrgContext -> string.
Variable str_of_frameworks : list string -> string.
Variable config : Generator.Config.

Abbreviation generate :=
  (Generator.generate_scenario nat (scripted_validator script) llm_scenario
     llm_injects str_of_context str_of_frameworks config).
Abbreviation loop :=
  (Generator.attempts_loop nat (scripted_validator script) llm_scenario
     llm_injects config).

Abbreviation candidate_built := (candidate_built llm_scenario llm_injects).

(** One iteration with a candidate that the stub validator rejects. *)
Lemma iteration_rejected gs key ty org fws c a (w : Generator.World nat) :
  in_keys ty SCENARIO_TYPES = true ->
  1 <= c <= 3 ->
  candidate_built ty org fws c (Generator.scenario_calls w) (Generator.injects_calls w) ->
  (forall s, accepts config (script (Generator.validator w) s) = false) ->
  exists w',
    Generator.try_except nat
      (Generator.attempt nat (scripted_validator script) llm_scenario llm_injects
         config gs key ty org fws c a)
      (on_exception a) w = (w', Ok None)
    /\ Generator.scenario_calls w' = S (Generator.scenario_calls w)
    /\ Generator.injects_calls w' = S (Generator.injects_calls w)
    /\ Generator.validator w' = S (Generator.validator w).
Proof.
  intros Hty Hc (data & records & Hdata & Hrec & Hwf) Hrej.
  destruct (attempt_candidate nat (scripted_validator script) llm_scenario
              llm_injects config gs key ty org fws c a w data records
              Hdata Hty Hc Hrec Hwf)
    as (s & w' & Hatt & Hsc & Hic & Hv & _ & _).
  simpl in Hatt, Hv. rewrite Hrej in Hatt.
  exists w'. unfold Generator.try_except. rewrite Hatt.
  repeat split; assumption.
Qed.

(** One iteration with a candidate that the stub validator accepts. *)
Lemma iteration_accepted gs key ty org fws c a (w : Generator.World nat) :
  in_keys ty SCENARIO_TYPES = true ->
  1 <= c <= 3 ->
  candidate_built ty org fws c (Generator.scenario_calls w) (Generator.injects_calls w) ->
  (forall s, accepts config (script (Generator.validator w) s) = true) ->
  exists s w',
    Generator.try_except nat
      (Generator.attempt nat (scripted_validator script) llm_scenario llm_injects
         config gs key ty org fws c a)
      (on_exception a) w
    = (w', Ok (Some (s, snd (script (Generator.validator w) s))))
    /\ Generator.scenario_calls w' = S (Generator.scenario_calls w).
Proof.
  intros Hty Hc (data & records & Hdata & Hrec & Hwf) Hacc.
  destruct (attempt_candidate nat (scripted_validator script) llm_scenario
              llm_injects config gs key ty org fws c a w data records
              Hdata Hty Hc Hrec Hwf)
    as (s & w' & Hatt & Hsc & _).
  simpl in Hatt. rewrite Hacc in Hatt.
  exists s, w'. unfold Generator.try_except. rewrite Hatt.
  split; [reflexivity|assumption].
Qed.

(** C2: with [max_attempts = 3], legal arguments and no live cache entry,
    (a) if in each of three attempts a candidate is built, and the stub
    validator rejects the first two candidates and accepts the third,
    [generate_scenario] returns the third candidate with the validator's
    report after exactly 3 base-generation calls; (b) if the validator
    rejects every candidate, [generate_scenario] raises the
    attempts-exhausted [RuntimeError] after exactly 3 base-generation calls,
    whatever the content source answers. *)
Theorem generate_bounded_retries :
  forall (ty : string) (org : OrgContext) (fws : list string) (cl : option Z)
         (w : Generator.World nat),
    Generator.max_attempts config = 3 ->
    in_keys ty SCENARIO_TYPES = true ->
    1 <= effective_complexity cl <= 5 ->
    snd (Generator._get_cached_scenario nat config
           (Generator._generate_cache_key str_of_context str_of_frameworks
              ty org fws (effective_complexity cl)) w) = Ok None ->
    (effective_complexity cl <= 3 ->
     (forall k, (k < 3)%nat ->
        candidate_built ty org fws (effective_complexity cl)
          (Generator.scenario_calls w + k) (Generator.injects_calls w + k)) ->
     (forall s, accepts config (script (Generator.validator w) s) = false) ->
     (forall s, accepts config (script (S (Generator.validator w)) s) = false) ->
     (forall s, accepts config (script (S (S (Generator.validator w))) s) = true) ->
     exists s w',
       generate ty org fws cl w
       = (w', Ok (s, snd (script (S (S (Generator.validator w))) s)))
       /\ Generator.scenario_calls w' = (Generator.scenario_calls w + 3)%nat)
    /\ ((forall n s, accepts config (script n s) = false) ->
        exists w',
          generate ty org fws cl w
          = (w', Raise (RuntimeError
                          "Failed to generate valid scenario after 3 attempts"))
          /\ Generator.scenario_calls w' = (Generator.scenario_calls w + 3)%nat).
Proof.
  intros ty org fws cl w Hmax Hty Hc Hmiss.
  rewrite generate_scenario_miss by assumption.
  rewrite Hmax. change (Z.to_nat 3) with 3%nat. split.
  - intros Hc3 Hbuilt Hrej1 Hrej2 Hacc3.
    set (w0 := fst (Generator.logger nat (Generator.InfoGenerating ty cl) w)).
    assert (Hc' : 1 <= effective_complexity cl <= 3) by lia.
    rewrite attempts_loop_S.
    destruct (iteration_rejected (Generator.now w)
                (Generator._generate_cache_key str_of_context str_of_frameworks
                   ty org fws (effective_complexity cl))
                ty org fws (effective_complexity cl) 0 w0 Hty Hc')
      as (w1 & Hit1 & Hsc1 & Hic1 & Hv1).
    { specialize (Hbuilt 0%nat ltac:(lia)). rewrite !Nat.add_0_r in Hbuilt.
      exact Hbuilt. }
    { exact Hrej1. }
    rewrite Hit1. rewrite attempts_loop_S.
    destruct (iteration_rejected (Generator.now w)
                (Generator._generate_cache_key str_of_context str_of_frameworks
                   ty org fws (effective_complexity cl))
                ty org fws (effective_complexity cl) (0 + 1) w1 Hty Hc')
      as (w2 & Hit2 & Hsc2 & Hic2 & Hv2).
    { specialize (Hbuilt 1%nat ltac:(lia)). rewrite Hsc1, Hic1.
      simpl in *. rewrite !Nat.add_1_r in Hbuilt. exact Hbuilt. }
    { rewrite Hv1. exact Hrej2. }
    rewrite Hit2. rewrite attempts_loop_S.
    destruct (iteration_accepted (Generator.now w)
                (Generator._generate_cache_key str_of_context str_of_frameworks
                   ty org fws (effective_complexity cl))
                ty org fws (effective_complexity cl) (0 + 1 + 1) w2 Hty Hc')
      as (s & w3 & Hit3 & Hsc3).
    { specialize (Hbuilt 2%nat ltac:(lia)). rewrite Hsc2, Hic2, Hsc1, Hic1.
      simpl in *.
      replace (S (S (Generator.scenario_calls w)))
        with (Generator.scenario_calls w + 2)%nat by lia.
      replace (S (S (Generator.injects_calls w)))
        with (Generator.injects_calls w + 2)%nat by lia.
      exact Hbuilt. }
    { rewrite Hv2, Hv1. exact Hacc3. }
    rewrite Hit3. rewrite Hv2, Hv1. exists s, w3. split; [reflexivity|].
    rewrite Hsc3, Hsc2, Hsc1. simpl. lia.
  - intros Hrej.
    destruct (attempts_loop_rejecting nat (scripted_validator script) llm_scenario
                llm_injects config 3 (Generator.now w)
                (Generator._generate_cache_key str_of_context str_of_frameworks
                   ty org fws (effective_complexity cl))
                ty org fws (effective_complexity cl)
                ltac:(intros t vs s; apply Hrej) 0
                (fst (Generator.logger nat (Generator.InfoGenerating ty cl) w)))
      as (w' & Hloop & Hcalls).
    exists w'. rewrite Hloop. unfold exhausted. rewrite Hmax.
    split; [reflexivity|exact Hcalls].
Qed.

End Retries.

Lemma generate_bounded_retries_witness :
  (is_Ok (snd (first_call accept_third)) = true
   /\ Generator.scenario_calls (fst (first_call accept_third)) = 3%nat)
  /\ (snd (first_call reject_all)
      = Raise (RuntimeError "Failed to generate valid scenario after 3 attempts")
      /\ Generator.scenario_calls (fst (first_call reject_all)) = 3%nat).
Proof.
  assert (Hmiss :
      snd (Generator._get_cached_scenario nat Generator.default_config
             (Generator._generate_cache_key sample_str_of_context
                sample_str_of_frameworks "security_incident" sample_org ["soc2"]
                (effective_complexity (Some 3)))
             (init_world 0 0%nat)) = Ok None)
    by (vm_compute; reflexivity).
  assert (Hc : 1 <= effective_complexity (Some 3) <= 5) by (simpl; lia).
  split.
  - destruct (proj1 (generate_bounded_retries accept_third
                       (fixed_scenario_source sample_data)
                       (fixed_injects_source three_records)
                       sample_str_of_context sample_str_of_frameworks
                       Generator.default_config "security_incident" sample_org
                       ["soc2"] (Some 3) (init_world 0 0%nat)
                       eq_refl eq_refl Hc Hmiss))
      as (s & w' & Hgen & Hcalls).
    + simpl. lia.
    + intros k Hk. exists sample_data, three_records.
      split; [reflexivity|]. split; [reflexivity|].
      repeat constructor.
    + intros s. reflexivity.
    + intros s. reflexivity.
    + intros s. reflexivity.
    + split.
      * exact (f_equal (fun p => is_Ok (snd p)) Hgen).
      * exact (eq_trans (f_equal (fun p => Generator.scenario_calls (fst p)) Hgen)
                 Hcalls).
  - destruct (proj2 (generate_bounded_retries reject_all
                       (fixed_scenario_source sample_data)
                       (fixed_injects_source three_records)
                       sample_str_of_context sample_str_of_frameworks
                       Generator.default_config "security_incident" sample_org
                       ["soc2"] (Some 3) (init_world 0 0%nat)
                       eq_refl eq_refl Hc Hmiss))
      as (w' & Hgen & Hcalls).
    + intros n s. reflexivity.
    + split.
      * exact (f_equal snd Hgen).
      * exact (eq_trans (f_equal (fun p => Generator.scenario_calls (fst p)) Hgen)
                 Hcalls).
Defined.

(** ** The inject loop of a generation attempt *)

Section InjectLoop.

Variable VState : Type.

Abbreviation add_injects := (Generator.add_injects VState).

Lemma add_inject_true (t : Z) (s s1 : Scenario.t) (i : Inject.t) err :
  Scenario.add_inject t s i = (s1, (true, err)) ->
  length (Scenario.injects s1) = S (length (Scenario.injects s))
  /\ (forall i0, In i0 (Scenario.injects s) -> In i0 (Scenario.injects s1)).
Proof.
  intros Hadd. apply add_inject_success in Hadd as (_ & _ & Hinj & _).
  rewrite Hinj.
  pose proof (sort_by_sequence_Permutation (Scenario.injects s ++ [i])) as Hp.
  split.
  - pose proof (Permutation_length Hp) as Hl. rewrite length_app in Hl.
    simpl in Hl. lia.
  - intros i0 Hin. eapply Permutation_in; [symmetry; exact Hp|].
    apply in_or_app. now left.
Qed.

Lemma add_inject_false (t : Z) (s s1 : Scenario.t) (i : Inject.t) err :
  Scenario.add_inject t s i = (s1, (false, err)) -> s1 = s.
Proof.
  intros Hadd. pose proof (add_inject_failure t s i) as Hf.
  rewrite Hadd in Hf. simpl in Hf. now apply Hf.
Qed.

(** On well-formed records the loop completes: every record is either
    added or logged with a warning and dropped, and no inject already
    stored is lost. *)
Lemma add_injects_well_formed (records : list Inject.Data) :
  Forall (fun d => well_formed d = true) records ->
  forall (s : Scenario.t) (w : Generator.World VState),
    exists s' w' errors,
      add_injects records s w = (w', Ok s')
      /\ Generator.log w'
         = Generator.log w ++ map Generator.WarningFailedToAddInject errors
      /\ (length (Scenario.injects s') + length errors
          = length (Scenario.injects s) + length records)%nat
      /\ (forall i, In i (Scenario.injects s) -> In i (Scenario.injects s'))
      /\ (timeline_invariant s -> timeline_invariant s').
Proof.
  induction 1 as [|d records Hd Hall IH]; intros s w.
  - exists s, w, []. simpl. rewrite app_nil_r.
    split; [reflexivity|]. split; [reflexivity|]. split; [reflexivity|].
    split; auto.
  - simpl. unfold Generator.bind.
    set (w0 := fst (match Inject.d_id d with
                    | Some _ => Generator.ret VState ""
                    | None => Generator.draw_uuid VState
                    end w)).
    assert (Hw0 : exists fresh,
               match Inject.d_id d with
               | Some _ => Generator.ret VState ""
               | None => Generator.draw_uuid VState
               end w = (w0, Ok fresh)
               /\ Generator.log w0 = Generator.log w
               /\ Generator.now w0 = Generator.now w).
    { subst w0. destruct (Inject.d_id d); simpl; eexists; repeat split. }
    destruct Hw0 as (fresh & -> & Hlog0 & Hnow0). simpl.
    destruct (well_formed_init fresh (Generator.now w0) d Hd) as (i & -> & _).
    simpl.
    destruct (Scenario.add_inject (Generator.now w0) s i) as [s1 [[|] err]] eqn:Hadd;
      simpl.
    + destruct (add_inject_true _ _ _ _ _ Hadd) as [Hlen Hin].
      destruct (IH s1 w0) as (s' & w' & errors & Hrun & Hlog & Hcount & Hkeep & Hinv).
      exists s', w', errors. rewrite Hrun. split; [reflexivity|].
      split; [now rewrite Hlog, Hlog0|]. split; [simpl; lia|].
      split; [auto|].
      intros Hs. apply Hinv. eapply add_inject_establishes; [apply Hs|exact Hadd].
    + apply add_inject_false in Hadd. subst s1.
      match goal with |- context [add_injects records s ?w1] =>
        destruct (IH s w1) as (s' & w' & errors & Hrun & Hlog & Hcount & Hkeep & Hinv)
      end.
      exists s', w', (err :: errors). rewrite Hrun. split; [reflexivity|].
      split; [|split; [simpl; lia|split; assumption]].
      rewrite Hlog. simpl. rewrite Hlog0, <- app_assoc. reflexivity.
Qed.

(** A malformed record makes the loop raise. *)
Lemma add_injects_malformed (records : list Inject.Data) :
  Exists (fun d => well_formed d = false) records ->
  forall (s : Scenario.t) (w : Generator.World VState),
    exists e, snd (add_injects records s w) = Raise e.
Proof.
  induction records as [|d records IH]; intros Hex s w.
  - inversion Hex.
  - simpl. unfold Generator.bind.
    destruct (match Inject.d_id d with
              | Some _ => Generator.ret VState ""
              | None => Generator.draw_uuid VState
              end w) as [w0 [fresh|e]] eqn:Hfresh.
    2:{ destruct (Inject.d_id d); discriminate. }
    simpl.
    destruct (Inject.init fresh (Generator.now w0) d) as [i|e] eqn:Hinit; simpl;
      [|eauto].
    assert (Hwf : well_formed d = true).
    { destruct (well_formed d) eqn:Hwf; [reflexivity|].
      destruct (malformed_init fresh (Generator.now w0) d Hwf) as [e He].
      congruence. }
    apply Exists_cons in Hex as [Hbad|Hex]; [congruence|].
    destruct (Scenario.add_inject (Generator.now w0) s i) as [s1 [[|] err]]; simpl;
      apply IH; exact Hex.
Qed.

End InjectLoop.

(** C9 (as amended): in a generation attempt, (1) over well-formed records
    the inject loop always completes: each record is either added or, when
    [add_inject] rejects it, logged with a warning and dropped, while the
    injects already stored stay; (2) an attempt whose content source
    answers with well-formed records therefore always reaches the
    validator and ends with its verdict, never with an exception; (3) a
    malformed record, in contrast, makes the loop raise. *)
Theorem rejected_injects_are_dropped :
  forall (VState : Type)
         (validate : Z -> VState -> Scenario.t
                     -> (bool * Validator.ValidationResult) * VState)
         (llm_scenario : nat -> string -> OrgContext -> list string
                         -> Result Generator.ScenarioData)
         (llm_injects : nat -> Generator.ScenarioData -> Z
                        -> Result (list Inject.Data))
         (config : Generator.Config),
    (forall records (s : Scenario.t) (w : Generator.World VState),
        Forall (fun d => well_formed d = true) records ->
        exists s' w' errors,
          Generator.add_injects VState records s w = (w', Ok s')
          /\ Generator.log w'
             = Generator.log w ++ map Generator.WarningFailedToAddInject errors
          /\ (length (Scenario.injects s') + length errors
              = length (Scenario.injects s) + length records)%nat
          /\ (forall i, In i (Scenario.injects s) -> In i (Scenario.injects s')))
    /\ (forall gs key ty org fws c a (w : Generator.World VState),
        in_keys ty SCENARIO_TYPES = true ->
        1 <= c <= 3 ->
        candidate_built llm_scenario llm_injects ty org fws c
          (Generator.scenario_calls w) (Generator.injects_calls w) ->
        exists s w',
          Generator.attempt VState validate llm_scenario llm_injects config
            gs key ty org fws c a w
          = (w', Ok (if accepts config
                          (fst (validate (Generator.now w) (Generator.validator w) s))
                     then Some (s, snd (fst (validate (Generator.now w)
                                               (Generator.validator w) s)))
                     else None)))
    /\ (forall records (s : Scenario.t) (w : Generator.World VState),
        Exists (fun d => well_formed d = false) records ->
        exists e, snd (Generator.add_injects VState records s w) = Raise e).
Proof.
  intros VState validate llm_scenario llm_injects config. split; [|split].
  - intros records s w Hwf.
    destruct (add_injects_well_formed VState records Hwf s w)
      as (s' & w' & errors & Hrun & Hlog & Hcount & Hkeep & _).
    exists s', w', errors. repeat split; assumption.
  - intros gs key ty org fws c a w Hty Hc (data & records & Hdata & Hrec & Hwf).
    destruct (attempt_candidate VState validate llm_scenario llm_injects config
                gs key ty org fws c a w data records Hdata Hty Hc Hrec Hwf)
      as (s & w' & Hatt & _).
    exists s, w'. exact Hatt.
  - intros records s w Hex. now apply add_injects_malformed.
Qed.

Lemma rejected_injects_are_dropped_witness :
  is_Ok (snd (Generator.add_injects nat mixed_records (sample_scenario 60 [])
                (init_world 0 0%nat))) = true
  /\ stored_sequence (Generator.add_injects nat mixed_records
                        (sample_scenario 60 []) (init_world 0 0%nat))
     = Some [1; 3]
  /\ Generator.log (fst (Generator.add_injects nat mixed_records
                           (sample_scenario 60 []) (init_world 0 0%nat)))
     = [Generator.WarningFailedToAddInject (Some "Sequence number 1 already exists");
        Generator.WarningFailedToAddInject
          (Some "Total inject duration exceeds scenario duration")].
Proof.
  split; [|split; vm_compute; reflexivity].
  destruct (proj1 (rejected_injects_are_dropped nat (scripted_validator accept_all)
                     (fixed_scenario_source sample_data)
                     (fixed_injects_source mixed_records) Generator.default_config)
              mixed_records (sample_scenario 60 []) (init_world 0 0%nat))
    as (s' & w' & errors & Hrun & _).
  - repeat constructor.
  - exact (f_equal (fun p => is_Ok (snd p)) Hrun).
Defined.

(** C9 as stated fails for a malformed record: with a validator that would
    accept every candidate, three well-formed records and one record whose
    content lacks ['success_criteria'], no attempt reaches the validator;
    each is aborted and counted as failed, and the generation ends in the
    attempts-exhausted error.  Without the malformed record the first
    attempt succeeds. *)
Lemma malformed_inject_aborts_attempt :
  snd (sample_generate Generator.default_config accept_all records_with_malformed
         (Some 3) (init_world 0 0%nat))
  = Raise (RuntimeError "Failed to generate valid scenario after 3 attempts")
  /\ Generator.validator
       (fst (sample_generate Generator.default_config accept_all
               records_with_malformed (Some 3) (init_world 0 0%nat))) = 0%nat
  /\ Generator.log
       (fst (sample_generate Generator.default_config accept_all
               records_with_malformed (Some 3) (init_world 0 0%nat)))
     = [Generator.InfoGenerating "security_incident" (Some 3);
        Generator.ErrorAttemptFailed 1 (ValueError
          "Missing required content fields: ['message', 'expected_response', 'success_criteria']");
        Generator.ErrorAttemptFailed 2 (ValueError
          "Missing required content fields: ['message', 'expected_response', 'success_criteria']");
        Generator.ErrorAttemptFailed 3 (ValueError
          "Missing required content fields: ['message', 'expected_response', 'success_criteria']")]
  /\ is_Ok (snd (first_call accept_all)) = true
  /\ Generator.scenario_calls (fst (first_call accept_all)) = 1%nat.
Proof.
  split; [vm_compute; reflexivity|]. split; [vm_compute; reflexivity|].
  split; [vm_compute; reflexivity|]. split; vm_compute; reflexivity.
Qed.

(** ** More on [Scenario.add_inject] and the timeline *)

Section Timeline.

(** X1: [add_inject] accepts an inject exactly when its sequence number is new
    and the delays still fit the duration; an accepted inject is stored,
    counted in the telemetry and stamps [updated_at], and a rejected one
    changes nothing. *)
Theorem add_inject_accepts_iff (now : Z) (s : Scenario.t) (inject : Inject.t) :
  (fst (snd (Scenario.add_inject now s inject)) = true
   <-> ~ In (Inject.sequence_number inject)
            (map Inject.sequence_number (Scenario.injects s))
       /\ Scenario.total_delay (Scenario.injects s) + Inject.delay_minutes inject
          <= Scenario.duration_minutes s)
  /\ (fst (snd (Scenario.add_inject now s inject)) = true ->
      let s' := fst (Scenario.add_inject now s inject) in
      snd (snd (Scenario.add_inject now s inject)) = None
      /\ Permutation (Scenario.injects s') (inject :: Scenario.injects s)
      /\ Scenario.telemetry s' !! "inject_count"
         = Some (PyInt (Z.of_nat (S (length (Scenario.injects s)))))
      /\ Scenario.updated_at s' = now
      /\ Scenario.duration_minutes s' = Scenario.duration_minutes s
      /\ Scenario.metadata s' = Scenario.metadata s
      /\ Scenario.compliance_mappings s' = Scenario.compliance_mappings s)
  /\ (fst (snd (Scenario.add_inject now s inject)) = false ->
      fst (Scenario.add_inject now s inject) = s
      /\ (snd (snd (Scenario.add_inject now s inject))
          = Some ("Sequence number "
                  +:+ str_of_int (Inject.sequence_number inject)
                  +:+ " already exists")
          \/ snd (snd (Scenario.add_inject now s inject))
             = Some "Total inject duration exceeds scenario duration")).
Proof.
  unfold Scenario.add_inject.
  destruct (existsb _ (Scenario.injects s)) eqn:Hex.
  - simpl. split; [|split].
    + split; [discriminate|]. intros [Hfresh _]. exfalso. apply Hfresh.
      apply existsb_exists in Hex as (e & Hin & Heq). apply Z.eqb_eq in Heq.
      rewrite <- Heq. now apply in_map.
    + discriminate.
    + intros _. split; [reflexivity|]. left. reflexivity.
  - apply existsb_sequence_false in Hex.
    destruct (Z.ltb_spec (Scenario.duration_minutes s)
                (Scenario.total_delay (Scenario.injects s)
                 + Inject.delay_minutes inject)) as [Hlt|Hle]; simpl.
    + split; [|split].
      * split; [discriminate|]. intros [_ Hfit]. lia.
      * discriminate.
      * intros _. split; [reflexivity|]. right. reflexivity.
    + split; [|split].
      * split; [intros _; split; assumption | reflexivity].
      * intros _. split; [reflexivity|].
        pose proof (sort_by_sequence_Permutation (Scenario.injects s ++ [inject]))
          as Hp.
        split.
        { rewrite Hp. symmetry. apply Permutation_cons_append. }
        split.
        { rewrite lookup_insert_ne by discriminate. rewrite lookup_insert_eq.
          apply Permutation_length in Hp. rewrite Hp, length_app. simpl.
          do 3 f_equal. lia. }
        repeat split.
      * discriminate.
Qed.

Lemma add_inject_stored (now : Z) (s : Scenario.t) (inject : Inject.t) :
  let s' := fst (Scenario.add_inject now s inject) in
  (Scenario.injects s' = Scenario.injects s
   \/ Permutation (Scenario.injects s') (inject :: Scenario.injects s))
  /\ Scenario.id s' = Scenario.id s
  /\ Scenario.type s' = Scenario.type s
  /\ Scenario.complexity_level s' = Scenario.complexity_level s
  /\ Scenario.duration_minutes s' = Scenario.duration_minutes s
  /\ Scenario.metadata s' = Scenario.metadata s
  /\ Scenario.compliance_mappings s' = Scenario.compliance_mappings s
  /\ Scenario.organization_context s' = Scenario.organization_context s
  /\ Scenario.title s' = Scenario.title s
  /\ Scenario.description s' = Scenario.description s.
Proof.
  unfold Scenario.add_inject.
  destruct (existsb _ _); [simpl; repeat split; now left|].
  destruct (_ <? _); [simpl; repeat split; now left|].
  simpl. repeat split. right.
  rewrite sort_by_sequence_Permutation. symmetry. apply Permutation_cons_append.
Qed.

(** X2: whatever series of [add_inject] calls is made, no stored inject is lost
    or replaced, nothing is stored that was not passed in, and the
    scenario's identity, type, complexity, duration, metadata and
    compliance mapping stay as they were. *)
Theorem add_inject_only_adds (calls : list (Z * Inject.t)) (s : Scenario.t) :
  let s' := add_all s calls in
  (forall i, In i (Scenario.injects s) -> In i (Scenario.injects s'))
  /\ (forall i, In i (Scenario.injects s') ->
        In i (Scenario.injects s) \/ In i (map snd calls))
  /\ (length (Scenario.injects s) <= length (Scenario.injects s')
      <= length (Scenario.injects s) + length calls)%nat
  /\ Scenario.id s' = Scenario.id s
  /\ Scenario.type s' = Scenario.type s
  /\ Scenario.complexity_level s' = Scenario.complexity_level s
  /\ Scenario.duration_minutes s' = Scenario.duration_minutes s
  /\ Scenario.metadata s' = Scenario.metadata s
  /\ Scenario.compliance_mappings s' = Scenario.compliance_mappings s
  /\ Scenario.organization_context s' = Scenario.organization_context s
  /\ Scenario.title s' = Scenario.title s
  /\ Scenario.description s' = Scenario.description s.
Proof.
  revert s. induction calls as [|[now inject] calls IH]; intros s.
  - simpl. repeat split; auto; lia.
  - simpl add_all. unfold add_all in *. simpl fold_left.
    destruct (add_inject_stored now s inject)
      as (Hst & Hid & Hty & Hc & Hd & Hm & Hcm & Ho & Hti & Hde).
    destruct (IH (fst (Scenario.add_inject now s inject)))
      as (Hkeep & Hfrom & Hlen & Hid' & Hty' & Hc' & Hd' & Hm' & Hcm' & Ho' & Hti' & Hde').
    simpl in *.
    set (s1 := fst (Scenario.add_inject now s inject)) in *.
    assert (Hin1 : forall i, In i (Scenario.injects s) -> In i (Scenario.injects s1)).
    { intros i Hi. destruct Hst as [-> | Hp]; [exact Hi|].
      eapply Permutation_in; [symmetry; exact Hp | now right]. }
    assert (Hin2 : forall i, In i (Scenario.injects s1) ->
                     In i (Scenario.injects s) \/ i = inject).
    { intros i Hi. destruct Hst as [E | Hp]; [left; now rewrite <- E|].
      apply (Permutation_in _ Hp) in Hi. destruct Hi as [<-|Hi]; auto. }
    assert (Hl : (length (Scenario.injects s) <= length (Scenario.injects s1)
                  <= S (length (Scenario.injects s)))%nat).
    { destruct Hst as [-> | Hp]; [lia|].
      apply Permutation_length in Hp. simpl in Hp. lia. }
    split; [intros i Hi; apply Hkeep, Hin1, Hi|].
    split.
    { intros i Hi. destruct (Hfrom i Hi) as [H1|H1].
      - destruct (Hin2 i H1) as [H2| ->]; auto.
      - auto. }
    split; [lia|].
    repeat split; congruence.
Qed.

Lemma timeline_loop_app (l : list Inject.t) :
  forall (start : Z) (acc : list Scenario.TimelineEntry),
    Scenario.timeline_loop l start acc
    = acc ++ Scenario.timeline_loop l start [].
Proof.
  induction l as [|i l IH]; intros start acc; simpl.
  - now rewrite app_nil_r.
  - rewrite IH. rewrite (IH _ [_]). now rewrite <- app_assoc.
Qed.

Lemma timeline_loop_times (l : list Inject.t) (start : Z) :
  map Scenario.te_time (Scenario.timeline_loop l start [])
  = running_totals start (map Inject.delay_minutes l)
  /\ map Scenario.te_sequence_number (Scenario.timeline_loop l start [])
     = map Inject.sequence_number l
  /\ map Scenario.te_inject_id (Scenario.timeline_loop l start [])
     = map Inject.id l.
Proof.
  revert start. induction l as [|i l IH]; intros start; simpl.
  - repeat split.
  - rewrite timeline_loop_app. rewrite !map_app. simpl.
    destruct (IH (start + Inject.delay_minutes i)) as (-> & -> & ->).
    repeat split.
Qed.

Lemma running_totals_bounds (delays : list Z) :
  Forall (fun d => 0 <= d) delays ->
  forall start,
    Forall (fun t => start <= t <= start + zsum delays)
           (running_totals start delays)
    /\ StronglySorted Z.le (running_totals start delays).
Proof.
  induction 1 as [|d delays Hd Hall IH]; intros start; simpl.
  - split; constructor.
  - rewrite zsum_cons. destruct (IH (start + d)) as [Hb Hs].
    assert (H0 : 0 <= zsum delays).
    { clear -Hall. induction Hall as [|x l Hx _ IHl]; [reflexivity|].
      rewrite zsum_cons. lia. }
    split.
    + constructor; [lia|]. eapply Forall_impl; [exact Hb|]. simpl. intros; lia.
    + constructor; [exact Hs|]. eapply Forall_impl; [exact Hb|]. simpl. intros; lia.
Qed.

(** A list in ascending order of sequence number is left as it is by the
    sort. *)
Lemma sort_by_sequence_ascending_id (l : list Inject.t) :
  ascending l -> Scenario.sort_by_sequence l = l.
Proof.
  unfold ascending. induction l as [|x l IH]; simpl; intros Hs; [reflexivity|].
  apply StronglySorted_inv in Hs as [Hs Hall]. rewrite (IH Hs).
  destruct l as [|y l]; [reflexivity|]. simpl.
  apply Forall_inv in Hall.
  destruct (Z.leb_spec (Inject.sequence_number x) (Inject.sequence_number y));
    [reflexivity|lia].
Qed.

Lemma zsum_nonneg (l : list Z) : Forall (fun d => 0 <= d) l -> 0 <= zsum l.
Proof.
  induction 1 as [|x l Hx _ IHl]; [reflexivity|]. rewrite zsum_cons. lia.
Qed.

Lemma generate_timeline_times (s : Scenario.t) :
  map Scenario.te_time (Scenario.generate_timeline s)
  = running_totals 0 (map Inject.delay_minutes
                        (Scenario.sort_by_sequence (Scenario.injects s))).
Proof. unfold Scenario.generate_timeline. apply timeline_loop_times. Qed.

(** Two lists in strictly increasing order of sequence number that hold the
    same injects are the same list. *)
Lemma strictly_sorted_Permutation_eq (l l' : list Inject.t) :
  StronglySorted (fun x y => Inject.sequence_number x < Inject.sequence_number y) l ->
  StronglySorted (fun x y => Inject.sequence_number x < Inject.sequence_number y) l' ->
  Permutation l l' -> l = l'.
Proof.
  revert l'. induction l as [|a l IH]; intros l' Hs Hs' Hp.
  - apply Permutation_nil in Hp. now subst.
  - destruct l' as [|b l'].
    { symmetry in Hp. apply Permutation_nil in Hp. discriminate. }
    apply StronglySorted_inv in Hs as [Hs Ha].
    apply StronglySorted_inv in Hs' as [Hs' Hb].
    assert (Hab : a = b).
    { assert (Hina : In a (b :: l'))
        by (eapply Permutation_in; [exact Hp | now left]).
      assert (Hinb : In b (a :: l))
        by (eapply Permutation_in; [symmetry; exact Hp | now left]).
      destruct Hina as [->|Hina]; [reflexivity|].
      destruct Hinb as [->|Hinb]; [reflexivity|].
      rewrite List.Forall_forall in Ha, Hb.
      specialize (Ha _ Hinb). specialize (Hb _ Hina). lia. }
    subst b. f_equal. apply IH; try assumption.
    eapply Permutation_cons_inv. exact Hp.
Qed.

Lemma ascending_NoDup_strict (l : list Inject.t) :
  ascending l ->
  List.NoDup (map Inject.sequence_number l) ->
  StronglySorted (fun x y => Inject.sequence_number x < Inject.sequence_number y) l.
Proof.
  unfold ascending. induction l as [|a l IH]; simpl; intros Hs Hnd.
  - constructor.
  - apply StronglySorted_inv in Hs as [Hs Ha].
    apply List.NoDup_cons_iff in Hnd as [Hnin Hnd].
    constructor; [now apply IH|].
    rewrite List.Forall_forall. intros x Hx.
    assert (Hx' : In (Inject.sequence_number x) (map Inject.sequence_number l))
      by now apply in_map.
    rewrite List.Forall_forall in Ha. specialize (Ha _ Hx').
    assert (Inject.sequence_number a <> Inject.sequence_number x)
      by (intros E; apply Hnin; now rewrite E).
    lia.
Qed.

(** When the sequence numbers are distinct, the sorted order does not depend
    on the order in which the injects are stored. *)
Lemma sort_by_sequence_order_independent (l l' : list Inject.t) :
  List.NoDup (map Inject.sequence_number l) ->
  Permutation l l' ->
  Scenario.sort_by_sequence l = Scenario.sort_by_sequence l'.
Proof.
  intros Hnd Hp.
  pose proof (sort_by_sequence_Permutation l) as Hl.
  pose proof (sort_by_sequence_Permutation l') as Hl'.
  apply strictly_sorted_Permutation_eq.
  - apply ascending_NoDup_strict; [apply sort_by_sequence_ascending|].
    eapply Permutation_NoDup; [|exact Hnd].
    apply Permutation_map. now symmetry.
  - apply ascending_NoDup_strict; [apply sort_by_sequence_ascending|].
    eapply Permutation_NoDup; [|exact Hnd].
    apply Permutation_map. rewrite Hl'. exact Hp.
  - rewrite Hl, Hl'. exact Hp.
Qed.

Lemma running_totals_last (l : list Z) :
  forall start dflt, l <> [] ->
    List.last (running_totals start l) dflt = start + zsum l.
Proof.
  induction l as [|d l IH]; intros start dflt Hne; [congruence|].
  rewrite zsum_cons. destruct l as [|d' l].
  - simpl. unfold zsum. simpl. lia.
  - change (List.last (running_totals start (d :: d' :: l)) dflt)
      with (List.last (running_totals (start + d) (d' :: l)) dflt).
    rewrite IH by discriminate. lia.
Qed.

(** X3: the timeline of a scenario built by [add_inject] from non-negative
    delays: one entry per inject in stored order, at times that never
    decrease, stay within the scenario's duration and end at the total
    delay. *)
Theorem generate_timeline_within_duration (s : Scenario.t) :
  timeline_invariant s ->
  Forall (fun i => 0 <= Inject.delay_minutes i) (Scenario.injects s) ->
  let timeline := Scenario.generate_timeline s in
  map Scenario.te_inject_id timeline = map Inject.id (Scenario.injects s)
  /\ StronglySorted Z.le (map Scenario.te_time timeline)
  /\ Forall (fun e => 0 <= Scenario.te_time e <= Scenario.duration_minutes s)
            timeline
  /\ List.last (map Scenario.te_time timeline) 0
     = Scenario.total_delay (Scenario.injects s).
Proof.
  intros (_ & Hasc & Hfit) Hpos timeline. subst timeline.
  pose proof (generate_timeline_times s) as Ht.
  unfold Scenario.generate_timeline in *.
  rewrite (sort_by_sequence_ascending_id _ Hasc) in *.
  destruct (timeline_loop_times (Scenario.injects s) 0) as (_ & _ & Hid).
  assert (Hpos' : Forall (fun d => 0 <= d)
                    (map Inject.delay_minutes (Scenario.injects s))).
  { rewrite List.Forall_forall in *. intros d Hd.
    apply in_map_iff in Hd as (i & <- & Hi). now apply Hpos. }
  destruct (running_totals_bounds _ Hpos' 0) as [Hb Hs].
  split; [exact Hid|]. split; [now rewrite Ht|]. split.
  - rewrite <- Ht in Hb. unfold Scenario.total_delay in Hfit.
    rewrite List.Forall_forall in *. intros e He.
    specialize (Hb _ (in_map _ _ _ He)). simpl in Hb.
    change (fold_left Z.add (map Inject.delay_minutes (Scenario.injects s)) 0)
      with (zsum (map Inject.delay_minutes (Scenario.injects s))) in Hfit.
    lia.
  - rewrite Ht. unfold Scenario.total_delay.
    change (fold_left Z.add (map Inject.delay_minutes (Scenario.injects s)) 0)
      with (zsum (map Inject.delay_minutes (Scenario.injects s))).
    destruct (map Inject.delay_minutes (Scenario.injects s)) as [|d l] eqn:E;
      [reflexivity|].
    rewrite running_totals_last by discriminate. lia.
Qed.

Lemma generate_timeline_within_duration_witness :
  let s := add_all (sample_scenario 60 [])
             [(0, sample_inject 2 20); (0, sample_inject 1 30)] in
  map Scenario.te_time (Scenario.generate_timeline s) = [30; 50]
  /\ Forall (fun e => 0 <= Scenario.te_time e <= 60) (Scenario.generate_timeline s).
Proof.
  intros s.
  assert (Hinv : timeline_invariant s).
  { unfold timeline_invariant. split; [|split].
    - vm_compute. repeat constructor; simpl; intuition discriminate.
    - vm_compute. repeat constructor; discriminate.
    - vm_compute. discriminate. }
  assert (Hpos : Forall (fun i => 0 <= Inject.delay_minutes i) (Scenario.injects s)).
  { vm_compute. repeat constructor; discriminate. }
  split; [reflexivity|].
  exact (proj1 (proj2 (proj2 (generate_timeline_within_duration s Hinv Hpos)))).
Defined.

(** X4: the timeline does not depend on the order in which a scenario stores
    its injects, as long as their sequence numbers are distinct. *)
Theorem generate_timeline_order_independent (s s' : Scenario.t) :
  List.NoDup (map Inject.sequence_number (Scenario.injects s)) ->
  Permutation (Scenario.injects s) (Scenario.injects s') ->
  Scenario.generate_timeline s = Scenario.generate_timeline s'.
Proof.
  intros Hnd Hp. unfold Scenario.generate_timeline.
  now rewrite (sort_by_sequence_order_independent _ _ Hnd Hp).
Qed.

Lemma generate_timeline_order_independent_witness :
  Scenario.generate_timeline
    (sample_scenario 60 [sample_inject 2 20; sample_inject 1 30])
  = Scenario.generate_timeline
      (sample_scenario 60 [sample_inject 1 30; sample_inject 2 20]).
Proof.
  apply generate_timeline_order_independent.
  - vm_compute. repeat constructor; simpl; intuition discriminate.
  - simpl. apply perm_swap.
Defined.

End Timeline.

(** ** More on control validation and scoring *)

Section ControlValidation.

Local Open Scope Q_scope.

(** Decides a goal made of comparisons of closed rationals and booleans. *)
Ltac q_decide :=
  repeat match goal with
         | |- context [Qle_bool ?a ?b] =>
             let v := eval vm_compute in (Qle_bool a b) in
             change (Qle_bool a b) with v
         end;
  repeat split; intros;
  repeat match goal with
         | H : _ /\ _ |- _ => destruct H
         | H : true = true -> _ |- _ => specialize (H eq_refl)
         end;
  first [discriminate | reflexivity | assumption | vm_compute; reflexivity
        | vm_compute; discriminate].

Lemma table_get_VALIDATION_LEVELS level lc :
  Compliance.table_get Compliance.VALIDATION_LEVELS level = Ok lc ->
  (level = "strict"%string
   /\ lc = {| Compliance.threshold := 95 # 100;
              Compliance.require_evidence := true |})
  \/ (level = "standard"%string
      /\ lc = {| Compliance.threshold := 85 # 100;
                 Compliance.require_evidence := false |}).
Proof.
  unfold Compliance.table_get, Compliance.VALIDATION_LEVELS, dict_get.
  destruct (String.eqb_spec "strict" level) as [<-|_].
  - intros H. inversion H. now left.
  - destruct (String.eqb_spec "standard" level) as [<-|_].
    + intros H. inversion H. now right.
    + discriminate.
Qed.

Lemma _validate_requirement_bounds requirement implementation level_config :
  0 <= Compliance._validate_requirement requirement implementation level_config
  <= 1.
Proof.
  unfold Compliance._validate_requirement.
  destruct (default ∅ (Compliance.impl_controls implementation) !! requirement)
    as [data|]; [|split; vm_compute; discriminate].
  destruct (bool_decide (data = ∅)); [split; vm_compute; discriminate|].
  destruct (truthy_get data "description"),
           (Compliance.require_evidence level_config),
           (truthy_get data "evidence"),
           (truthy_get data "artifacts"); split; vm_compute; discriminate.
Qed.

(** X5: a requirement reaches its level's threshold exactly when the mapping
    describes it and, at a level that requires evidence, also gives both
    evidence and artifacts for it; it then scores 1. *)
Theorem requirement_met_iff (level : string) (level_config : Compliance.LevelConfig)
    (implementation : Compliance.Implementation) (requirement : string) :
  Compliance.table_get Compliance.VALIDATION_LEVELS level = Ok level_config ->
  let data := requirement_data implementation requirement in
  (requirement_met level_config implementation requirement = true
   <-> truthy_get data "description" = true
       /\ (Compliance.require_evidence level_config = true ->
           truthy_get data "evidence" = true
           /\ truthy_get data "artifacts" = true))
  /\ (requirement_met level_config implementation requirement = true ->
      Compliance._validate_requirement requirement implementation level_config
      == 1).
Proof.
  intros Hlevel data. subst data.
  unfold requirement_met, requirement_data, Compliance._validate_requirement.
  apply table_get_VALIDATION_LEVELS in Hlevel as [[_ ->]|[_ ->]];
    cbn [Compliance.threshold Compliance.require_evidence];
    (destruct (default ∅ (Compliance.impl_controls implementation) !! requirement)
       as [data|]; cbn [default from_option id];
     [destruct (bool_decide (data = ∅)) eqn:He;
      [apply bool_decide_eq_true in He; subst data;
       unfold truthy_get; rewrite !lookup_empty
      |destruct (truthy_get data "description"),
                (truthy_get data "evidence"),
                (truthy_get data "artifacts")]
     |unfold truthy_get; rewrite !lookup_empty]);
    q_decide.
Qed.

Lemma inject_Z_of_nat_S (n : nat) :
  inject_Z (Z.of_nat (S n)) == inject_Z (Z.of_nat n) + 1.
Proof. rewrite Nat2Z.inj_succ, <- Z.add_1_r, inject_Z_plus. reflexivity. Qed.

(** The loop over a control's requirements: the total grows by at most one
    per requirement, each requirement leaves one finding, and the count of
    requirements met can only reach their number when each of them reached
    the threshold. *)
Lemma requirements_loop_spec reqs impl lc :
  forall t0 m0 f0 t m f,
    Compliance.requirements_loop reqs impl lc (t0, m0, f0) = (t, m, f) ->
    t0 <= t
    /\ t <= t0 + inject_Z (Z.of_nat (length reqs))
    /\ (m0 <= m <= m0 + Z.of_nat (length reqs))%Z
    /\ map Compliance.finding_requirement f
       = map Compliance.finding_requirement f0 ++ reqs
    /\ (m = (m0 + Z.of_nat (length reqs))%Z ->
        t0 + Compliance.threshold lc * inject_Z (Z.of_nat (length reqs)) <= t)
    /\ (m = (m0 + Z.of_nat (length reqs))%Z ->
        forallb (requirement_met lc impl) reqs = true).
Proof.
  induction reqs as [|r reqs IH]; intros t0 m0 f0 t m f Hloop.
  - simpl in Hloop. inversion Hloop; subst. simpl.
    rewrite app_nil_r. change (inject_Z (Z.of_nat 0)) with 0.
    repeat split; intros; try lra; try lia.
  - simpl in Hloop. apply IH in Hloop.
    destruct Hloop as (H1 & H2 & H3 & H4 & H5 & H6).
    pose proof (_validate_requirement_bounds r impl lc) as [Hb0 Hb1].
    pose proof (inject_Z_of_nat_S (length reqs)) as HS.
    simpl length. rewrite HS.
    assert (Hlen : Z.of_nat (S (length reqs)) = (Z.of_nat (length reqs) + 1)%Z)
      by lia.
    rewrite Hlen. clear Hlen.
    split; [lra|]. split; [lra|].
    split.
    { destruct (Qle_bool _ _); lia. }
    split.
    { rewrite H4, map_app. simpl. now rewrite <- app_assoc. }
    fold (requirement_met lc impl r) in *.
    split.
    + intros Hm. destruct (requirement_met lc impl r) eqn:Hmet.
      * unfold requirement_met in Hmet. apply Qle_bool_iff in Hmet.
        assert (Hm' : m = (m0 + 1 + Z.of_nat (length reqs))%Z) by lia.
        specialize (H5 Hm').
        lra.
      * lia.
    + intros Hm. simpl. destruct (requirement_met lc impl r) eqn:Hmet.
      * simpl. apply H6. lia.
      * lia.
Qed.

Lemma inject_Z_pos (n : Z) : (0 < n)%Z -> 0 < inject_Z n.
Proof. intros H. unfold Qlt, inject_Z. simpl. lia. Qed.

Lemma validate_control_Ok_spec (now : Z) (fw : Compliance.ComplianceFramework)
    (control_id : string) (implementation : Compliance.Implementation)
    (level : string) (is_compliant : bool) (control_score : Q)
    (v : Compliance.ControlValidation) :
  Compliance.validate_control now fw control_id implementation level
  = Ok (is_compliant, control_score, v) ->
  exists control level_config,
    Compliance.controls fw !! control_id = Some control
    /\ Compliance.table_get Compliance.VALIDATION_LEVELS level = Ok level_config
    /\ Compliance.requirements control <> []
    /\ 0 <= control_score <= 1
    /\ Compliance.cv_score v = control_score
    /\ Compliance.cv_is_compliant v = is_compliant
    /\ is_compliant = Qle_bool (Compliance.threshold level_config) control_score
    /\ map Compliance.finding_requirement (Compliance.cv_findings v)
       = Compliance.requirements control
    /\ Compliance.cv_total_requirements v
       = Z.of_nat (length (Compliance.requirements control))
    /\ (0 <= Compliance.cv_requirements_met v
        <= Compliance.cv_total_requirements v)%Z
    /\ (Compliance.cv_requirements_met v = Compliance.cv_total_requirements v ->
        is_compliant = true
        /\ forallb (requirement_met level_config implementation)
                   (Compliance.requirements control) = true).
Proof.
  unfold Compliance.validate_control.
  destruct (Compliance.controls fw !! control_id) as [control|]; [|discriminate].
  destruct (Compliance.table_get Compliance.VALIDATION_LEVELS level)
    as [lc|e] eqn:Hlc; [|discriminate].
  simpl.
  destruct (Compliance.requirements_loop (Compliance.requirements control)
              implementation lc (0, 0%Z, [])) as [[t m] f] eqn:Hloop.
  destruct (Z.eqb_spec (Z.of_nat (length (Compliance.requirements control))) 0)
    as [|Hn]; [discriminate|].
  intros H. inversion H; subst; clear H. simpl.
  apply requirements_loop_spec in Hloop.
  destruct Hloop as (H1 & H2 & H3 & H4 & H5 & H6).
  set (n := Z.of_nat (length (Compliance.requirements control))) in *.
  assert (Hpos : 0 < inject_Z n) by (apply inject_Z_pos; lia).
  exists control, lc.
  split; [reflexivity|]. split; [reflexivity|].
  split; [intros E; apply Hn; subst n; rewrite E; reflexivity|].
  assert (Hlo : 0 <= t / inject_Z n).
  { apply Qle_shift_div_l; [exact Hpos|]. lra. }
  assert (Hhi : t / inject_Z n <= 1).
  { apply Qle_shift_div_r; [exact Hpos|]. lra. }
  split; [split; assumption|].
  do 3 (split; [reflexivity|]).
  split; [exact H4|]. split; [reflexivity|]. split; [lia|].
  intros Hm. split; [|apply H6; lia].
  apply Qle_bool_iff.
  apply Qle_shift_div_l; [exact Hpos|].
  assert (Hm' : m = (0 + n)%Z) by lia. specialize (H5 Hm'). lra.
Qed.

(** X6: what a successful [validate_control] returns: the control is one of the
    framework's, the score lies between 0 and 1, there is one finding per
    requirement, the met-count cannot exceed their number, and a control
    whose requirements are all met is compliant. *)
Theorem validate_control_sound (now : Z) (fw : Compliance.ComplianceFramework)
    (control_id : string) (implementation : Compliance.Implementation)
    (level : string) (is_compliant : bool) (control_score : Q)
    (v : Compliance.ControlValidation) :
  Compliance.validate_control now fw control_id implementation level
  = Ok (is_compliant, control_score, v) ->
  exists control level_config,
    Compliance.controls fw !! control_id = Some control
    /\ Compliance.table_get Compliance.VALIDATION_LEVELS level = Ok level_config
    /\ Compliance.requirements control <> []
    /\ 0 <= control_score <= 1
    /\ Compliance.cv_score v = control_score
    /\ Compliance.cv_is_compliant v = is_compliant
    /\ is_compliant = Qle_bool (Compliance.threshold level_config) control_score
    /\ map Compliance.finding_requirement (Compliance.cv_findings v)
       = Compliance.requirements control
    /\ Compliance.cv_total_requirements v
       = Z.of_nat (length (Compliance.requirements control))
    /\ (0 <= Compliance.cv_requirements_met v
        <= Compliance.cv_total_requirements v)%Z
    /\ (Compliance.cv_requirements_met v = Compliance.cv_total_requirements v ->
        is_compliant = true
        /\ forallb (requirement_met level_config implementation)
                   (Compliance.requirements control) = true).
Proof.
  exact (validate_control_Ok_spec now fw control_id implementation level
           is_compliant control_score v).
Qed.

Lemma validate_control_sound_witness :
  exists is_compliant control_score v,
    Compliance.validate_control 0 cc9_framework "cc9" cc9_evidence "strict"
    = Ok (is_compliant, control_score, v)
    /\ 0 <= control_score <= 1.
Proof.
  destruct (Compliance.validate_control 0 cc9_framework "cc9" cc9_evidence "strict")
    as [[[is_compliant control_score] v]|e] eqn:H; [|vm_compute in H; discriminate].
  exists is_compliant, control_score, v. split; [reflexivity|].
  destruct (validate_control_sound _ _ _ _ _ _ _ _ H)
    as (control & lc & _ & _ & _ & Hb & _).
  exact Hb.
Defined.

Lemma Forall_dict_set {V} (P : string * V -> Prop) (d : list (string * V)) k v :
  Forall P d -> P (k, v) -> Forall P (dict_set d k v).
Proof.
  intros Hd Hkv. induction Hd as [|[k' v'] d Hx Hd IH]; simpl.
  - constructor; [exact Hkv|constructor].
  - destruct (String.eqb k' k); constructor; assumption.
Qed.

(** The loop over a mapping's controls: every recorded score lies between 0
    and 1, so the total grows by at most one per control; the count of
    compliant controls can only reach their number when each of them
    reached the threshold. *)
Lemma mapping_loop_spec now fw level lc detailed items :
  Compliance.table_get Compliance.VALIDATION_LEVELS level = Ok lc ->
  forall res0 t0 n0 c0 res t n c,
    Compliance.mapping_loop now fw items level detailed (res0, t0, n0, c0)
    = Ok (res, t, n, c) ->
    Forall (scored_entry fw) res0 ->
    Forall (scored_entry fw) res
    /\ t0 <= t
    /\ t <= t0 + inject_Z (Z.of_nat (length items))
    /\ n = (n0 + Z.of_nat (length items))%Z
    /\ (c0 <= c <= c0 + Z.of_nat (length items))%Z
    /\ (c = (c0 + Z.of_nat (length items))%Z ->
        t0 + Compliance.threshold lc * inject_Z (Z.of_nat (length items)) <= t).
Proof.
  intros Hlc.
  induction items as [|[k impl] items IH];
    intros res0 t0 n0 c0 res t n c Hloop Hres0.
  - simpl in Hloop. inversion Hloop; subst. simpl.
    change (inject_Z (Z.of_nat 0)) with 0.
    repeat split; intros; try assumption; try lra; try lia.
  - simpl in Hloop.
    destruct (Compliance.validate_control now fw k impl level)
      as [[[is_c sc] det]|e] eqn:Hvc; [|discriminate].
    simpl in Hloop.
    destruct (validate_control_Ok_spec _ _ _ _ _ _ _ _ Hvc)
      as (control & lc' & Hctl & Hlc' & _ & Hb & _ & _ & Hc & _).
    rewrite Hlc in Hlc'. inversion Hlc'; subst lc'. clear Hlc'.
    apply IH in Hloop.
    2:{ apply Forall_dict_set; [exact Hres0 | split; [exact Hb|]].
        simpl. rewrite Hctl. eauto. }
    destruct Hloop as (H1 & H2 & H3 & H4 & H5 & H6).
    pose proof (inject_Z_of_nat_S (length items)) as HS.
    simpl length. rewrite HS.
    assert (Hlen : Z.of_nat (S (length items)) = (Z.of_nat (length items) + 1)%Z)
      by lia.
    rewrite Hlen. clear Hlen.
    split; [exact H1|]. split; [lra|]. split; [lra|]. split; [lia|].
    split; [destruct is_c; lia|].
    intros Hall. destruct is_c.
    + symmetry in Hc. apply Qle_bool_iff in Hc.
      assert (Hc' : c = (c0 + 1 + Z.of_nat (length items))%Z) by lia.
      specialize (H6 Hc'). lra.
    + lia.
Qed.

Lemma requirement_met_iff_witness :
  (Compliance._validate_requirement
     "cc9.1: Identify and develop risk mitigation activities" cc9_evidence
     {| Compliance.threshold := 95 # 100; Compliance.require_evidence := true |}
   == 1).
Proof.
  apply (proj2 (requirement_met_iff "strict"
                  {| Compliance.threshold := 95 # 100;
                     Compliance.require_evidence := true |}
                  cc9_evidence
                  "cc9.1: Identify and develop risk mitigation activities"
                  eq_refl)).
  vm_compute. reflexivity.
Defined.

End ControlValidation.

Section MappingValidation.

Local Open Scope Q_scope.

Variable registry : gmap string Compliance.FrameworkDef.


Lemma table_get_CONTROL_WEIGHTS sev weight :
  Compliance.table_get Compliance.CONTROL_WEIGHTS sev = Ok weight ->
  0 < weight /\ weight <= 1.
Proof.
  unfold Compliance.table_get, Compliance.CONTROL_WEIGHTS, dict_get.
  destruct (String.eqb "critical" sev);
    [intros H; inversion H; split; vm_compute; congruence|].
  destruct (String.eqb "high" sev);
    [intros H; inversion H; split; vm_compute; congruence|].
  destruct (String.eqb "medium" sev);
    [intros H; inversion H; split; vm_compute; congruence|].
  destruct (String.eqb "low" sev);
    [intros H; inversion H; split; vm_compute; congruence|].
  discriminate.
Qed.


(** The loop of [calculate_compliance_score] succeeds on controls of the
    framework whose severities have a weight; the weighted total then lies
    between 0 and the total weight. *)
Lemma score_loop_spec fw_ctrls items :
  Forall (fun kv => 0 <= Compliance.score (snd kv) <= 1
                    /\ exists control weight,
                         fw_ctrls !! fst kv = Some control
                         /\ Compliance.table_get Compliance.CONTROL_WEIGHTS
                              (Compliance.severity control) = Ok weight) items ->
  forall w0 tw0 cs0 cat0,
    0 <= w0 <= tw0 ->
    exists w tw cs cats,
      Compliance.score_loop fw_ctrls items (w0, tw0, cs0, cat0)
      = Ok (w, tw, cs, cats)
      /\ 0 <= w <= tw
      /\ (items <> [] -> 0 < tw)
      /\ (List.NoDup (map fst cs0 ++ map fst items) ->
          map fst cs = map fst cs0 ++ map fst items).
Proof.
  induction 1 as [|[k r] items ((Hs0 & Hs1) & control & weight & Hk & Hw) _ IH];
    intros w0 tw0 cs0 cat0 Hacc.
  - exists w0, tw0, cs0, cat0. simpl. rewrite app_nil_r.
    repeat split; try tauto; try congruence.
  - simpl in *. rewrite Hk, Hw. simpl.
    destruct (table_get_CONTROL_WEIGHTS _ _ Hw) as [Hwpos Hwle].
    assert (Hsw : 0 <= Compliance.score r * weight <= weight).
    { split; [apply Qmult_le_0_compat; lra|].
      assert (Compliance.score r * weight <= 1 * weight)
        by (apply Qmult_le_compat_r; lra).
      lra. }
    destruct (IH (w0 + Compliance.score r * weight) (tw0 + weight)
                (dict_set cs0 k
                   {| Compliance.cs_score := Compliance.score r;
                      Compliance.cs_weight := weight;
                      Compliance.cs_weighted_score := Compliance.score r * weight |})
                (Compliance.bump_category cat0
                   (default "uncategorized"%string (Compliance.category control))
                   (Compliance.score r)))
      as (w & tw & cs & cats & Hloop & Hb & Hpos & Hkeys); [lra|].
    exists w, tw, cs, cats. split; [exact Hloop|]. split; [exact Hb|].
    split.
    + intros _. destruct items as [|kv items'].
      * simpl in Hloop. inversion Hloop; subst. lra.
      * apply Hpos. discriminate.
    + intros Hnd.
      assert (Hfresh : ~ In k (map fst cs0)).
      { intros Hin. apply NoDup_remove_2 in Hnd. apply Hnd.
        apply in_or_app. now left. }
      rewrite dict_set_fresh in Hkeys by exact Hfresh.
      rewrite map_app in Hkeys. simpl in Hkeys. rewrite <- app_assoc in Hkeys.
      apply Hkeys. exact Hnd.
Qed.

(** X8: scoring never fails on a report that validation produced, provided the
    severities of the framework's controls are among the weighted ones; the
    weighted overall score lies between 0 and 1 and one score is reported
    per control of the report. *)
Theorem scoring_succeeds_after_validation (now now' : Z)
    (mapping : Compliance.ComplianceMapping) (framework_id level : string)
    (detailed include_evidence : bool) (is_compliant : bool)
    (r : Compliance.ValidationResults) (d : Compliance.FrameworkDef) :
  registry !! framework_id = Some d ->
  (forall k control,
      Compliance.fw_controls d !! k = Some control ->
      is_Ok (Compliance.table_get Compliance.CONTROL_WEIGHTS
               (Compliance.severity control)) = true) ->
  List.NoDup (map fst (default [] (Compliance.mapping_controls mapping))) ->
  Compliance.validate_compliance_mapping registry now mapping framework_id
    level detailed = Ok (is_compliant, r) ->
  exists breakdown,
    Compliance.calculate_compliance_score registry now' r framework_id
      include_evidence = Ok breakdown
    /\ 0 <= Compliance.sb_overall_score breakdown <= 1
    /\ map fst (Compliance.sb_control_scores breakdown)
       = map fst (default [] (Compliance.mapping_controls mapping)).
Proof.
  intros Hd Hsev Hnd Hv.
  unfold Compliance.validate_compliance_mapping in Hv. rewrite Hd in Hv.
  destruct (Compliance.ComplianceFramework_init registry framework_id d)
    as [fw|e] eqn:Hfw; [|discriminate].
  assert (Hctl : Compliance.controls fw = Compliance.fw_controls d).
  { unfold Compliance.ComplianceFramework_init in Hfw.
    destruct (registry !! lower framework_id); [|discriminate].
    now inversion Hfw. }
  simpl in Hv.
  destruct (Compliance.mapping_loop now fw
              (default [] (Compliance.mapping_controls mapping)) level detailed
              ([], 0, 0%Z, 0%Z)) as [[[[res t] n] c]|e] eqn:Hloop;
    [|discriminate].
  simpl in Hv.
  destruct (Compliance.table_get Compliance.VALIDATION_LEVELS level)
    as [lc|e] eqn:Hlc; [|discriminate].
  simpl in Hv. inversion Hv; subst; clear Hv.
  destruct (mapping_loop_spec _ _ _ _ _ _ Hlc _ _ _ _ _ _ _ _ Hloop
              ltac:(constructor)) as (H1 & _).
  destruct (mapping_loop_Ok now fw level detailed _ [] _ _ _ _ _ _ _ Hnd Hloop)
    as (scored & Hsc & Hres & _). simpl in Hres. subst res.
  destruct (scored_controls_keys _ _ _ _ _ _ Hsc) as [Hkeys _].
  unfold Compliance.calculate_compliance_score. rewrite Hd. simpl.
  assert (Hitems : Forall (fun kv => 0 <= Compliance.score (snd kv) <= 1
                    /\ exists control weight,
                         Compliance.fw_controls d !! fst kv = Some control
                         /\ Compliance.table_get Compliance.CONTROL_WEIGHTS
                              (Compliance.severity control) = Ok weight) scored).
  { eapply Forall_impl; [exact H1|]. intros kv [Hb [control Hk]].
    split; [exact Hb|]. rewrite Hctl in Hk. specialize (Hsev _ _ Hk).
    destruct (Compliance.table_get _ _) as [weight|] eqn:Hw; [|discriminate].
    exists control, weight. split; assumption. }
  destruct (score_loop_spec _ _ Hitems 0 0 [] [] ltac:(lra))
    as (w & tw & cs & cats & Hsl & Hb & Hpos & Hk).
  rewrite Hsl. simpl. eexists. split; [reflexivity|]. simpl.
  split.
  - destruct (Qle_bool tw 0) eqn:Htw; simpl; [lra|].
    assert (0 < tw).
    { destruct (Qlt_le_dec 0 tw) as [|Hle]; [assumption|].
      apply Qle_bool_iff in Hle. congruence. }
    split.
    + apply Qle_shift_div_l; [assumption|]. lra.
    + apply Qle_shift_div_r; [assumption|]. lra.
  - rewrite Hk; [simpl; exact Hkeys|]. simpl. rewrite Hkeys. exact Hnd.
Qed.



End MappingValidation.


Lemma soc2_controls_are_critical k control :
  Compliance.fw_controls soc2_definition !! k = Some control ->
  Compliance.severity control = "critical".
Proof.
  unfold soc2_definition. simpl. intros H.
  apply lookup_insert_Some in H as [[_ <-]|[_ H]]; [reflexivity|].
  rewrite lookup_empty in H. discriminate.
Qed.

Lemma scoring_succeeds_after_validation_witness :
  exists is_compliant r breakdown,
    Compliance.validate_compliance_mapping Compliance.COMPLIANCE_FRAMEWORKS 0
      cc1_mapping "soc2" "strict" true = Ok (is_compliant, r)
    /\ Compliance.calculate_compliance_score Compliance.COMPLIANCE_FRAMEWORKS 0
         r "soc2" true = Ok breakdown
    /\ map fst (Compliance.sb_control_scores breakdown) = ["cc1"].
Proof.
  destruct (Compliance.validate_compliance_mapping
              Compliance.COMPLIANCE_FRAMEWORKS 0 cc1_mapping "soc2" "strict" true)
    as [[is_compliant r]|e] eqn:Hv; [|vm_compute in Hv; discriminate].
  assert (Hd : Compliance.COMPLIANCE_FRAMEWORKS !! "soc2" = Some soc2_definition)
    by reflexivity.
  assert (Hsev : forall k control,
             Compliance.fw_controls soc2_definition !! k = Some control ->
             is_Ok (Compliance.table_get Compliance.CONTROL_WEIGHTS
                      (Compliance.severity control)) = true).
  { intros k control H. rewrite (soc2_controls_are_critical _ _ H). reflexivity. }
  assert (Hnd : List.NoDup ["cc1"]) by (repeat constructor; simpl; tauto).
  destruct (scoring_succeeds_after_validation Compliance.COMPLIANCE_FRAMEWORKS
              0 0 cc1_mapping "soc2" "strict" true true is_compliant r
              soc2_definition Hd Hsev Hnd Hv) as (breakdown & Hcalc & _ & Hkeys).
  exists is_compliant, r, breakdown. split; [reflexivity|].
  split; [exact Hcalc | exact Hkeys].
Defined.


(** ** More on the validator *)

Section InjectValidation.

Lemma _validate_single_inject_valid (inject : Inject.t) :
  (Validator.si_is_valid (Validator._validate_single_inject inject) = true
   <-> inject_acceptable inject)
  /\ (Validator.si_is_valid (Validator._validate_single_inject inject) = true
      <-> Validator.si_issues (Validator._validate_single_inject inject) = []).
Proof.
  unfold Validator._validate_single_inject, inject_acceptable.
  assert (Hf : List.filter
                 (fun f => negb (bool_decide (is_Some (Inject.content inject !! f))))
                 Inject.required_fields = []
               <-> Forall (fun f => is_Some (Inject.content inject !! f))
                          Inject.required_fields).
  { unfold Inject.required_fields. simpl.
    rewrite !List.Forall_cons_iff.
    destruct (bool_decide_reflect (is_Some (Inject.content inject !! "message")));
    destruct (bool_decide_reflect
                (is_Some (Inject.content inject !! "expected_response")));
    destruct (bool_decide_reflect
                (is_Some (Inject.content inject !! "success_criteria")));
    simpl; split; try discriminate; try tauto; intros; repeat split; auto. }
  destruct (List.filter _ Inject.required_fields) as [|m ms] eqn:Hm.
  - destruct (Z.ltb_spec (Validator.len (Inject.title inject)) 5),
             (Z.ltb_spec (Validator.len (Inject.description inject)) 20);
      simpl; (split; split; try discriminate; try tauto; try lia;
              intros; repeat split; try lia; try (apply Hf; reflexivity)).
  - simpl. split; split; try discriminate.
    + intros (_ & _ & Hall). apply Hf in Hall. discriminate.
    + intros H. apply app_eq_nil in H as [_ H]. discriminate.
Qed.

Lemma fresh_sequence_NoDup (injects : list Inject.t) (seen : list Z) :
  fresh_sequence injects seen
  <-> List.NoDup (map Inject.sequence_number injects)
      /\ (forall x, In x (map Inject.sequence_number injects) -> ~ In x seen).
Proof.
  revert seen. induction injects as [|i l IH]; intros seen; simpl.
  - split; [intros _; split; [constructor | tauto] | tauto].
  - rewrite IH, List.NoDup_cons_iff. split.
    + intros (Hi & Hnd & Hl). split; [split; [|exact Hnd]|].
      * intros Hin. apply (Hl _ Hin). now left.
      * intros x [<-|Hx]; [exact Hi|]. intros Hs. apply (Hl _ Hx). now right.
    + intros ((Hi & Hnd) & Hl). split; [apply Hl; now left|].
      split; [exact Hnd|]. intros x Hx [<-|Hs]; [tauto|].
      apply (Hl x); [now right | exact Hs].
Qed.

Lemma injects_loop_spec (injects : list Inject.t) :
  forall details0 issues0 total0 seen0 details issues total seen,
    Validator.injects_loop injects (details0, issues0, total0, seen0)
    = (details, issues, total, seen) ->
    total = total0 + Scenario.total_delay injects
    /\ (issues = [] <-> issues0 = []
                        /\ Forall inject_acceptable injects
                        /\ fresh_sequence injects seen0).
Proof.
  induction injects as [|i l IH];
    intros details0 issues0 total0 seen0 details issues total seen Hloop.
  - simpl in Hloop. inversion Hloop; subst. unfold Scenario.total_delay, zsum.
    simpl. split; [lia|]. split; [intros ->; repeat split; constructor | tauto].
  - simpl in Hloop. apply IH in Hloop. destruct Hloop as [Ht Hi].
    unfold Scenario.total_delay in *. simpl map. rewrite zsum_cons.
    split; [lia|]. rewrite Hi. clear Hi Ht IH.
    destruct (_validate_single_inject_valid i) as [Hv Hiss].
    rewrite List.Forall_cons_iff. simpl fresh_sequence.
    destruct (Validator.si_is_valid (Validator._validate_single_inject i)) eqn:Hsi.
    + assert (Hacc : inject_acceptable i) by (apply Hv; reflexivity).
      destruct (existsb (Z.eqb (Inject.sequence_number i)) seen0) eqn:Hex.
      * apply existsb_exists in Hex as (x & Hx & Heq). apply Z.eqb_eq in Heq.
        subst x. split.
        -- intros (H & _). apply app_eq_nil in H as [_ H]. discriminate.
        -- intros (_ & _ & Hn & _). tauto.
      * assert (Hnin : ~ In (Inject.sequence_number i) seen0).
        { intros Hin. apply not_true_iff_false in Hex. apply Hex.
          apply existsb_exists. exists (Inject.sequence_number i).
          split; [exact Hin | apply Z.eqb_refl]. }
        tauto.
    + assert (Hnacc : ~ inject_acceptable i).
      { intros H. apply Hv in H. discriminate. }
      assert (Hne : Validator.si_issues (Validator._validate_single_inject i) <> []).
      { intros H. apply Hiss in H. discriminate. }
      split.
      * intros (H & _). exfalso.
        destruct (existsb _ seen0).
        -- apply app_eq_nil in H as [_ H]. discriminate.
        -- apply app_eq_nil in H as [_ H]. contradiction.
      * intros (_ & [Hacc _] & _). contradiction.
Qed.

Lemma validate_injects_full (self : Validator.ScenarioValidator)
    (injects : list Inject.t) :
  let rules := Validator._validation_rules self in
  let n := Z.of_nat (length injects) in
  (fst (Validator.validate_injects self injects) = true
   <-> (Validator.min_injects rules <= n <= Validator.max_injects rules)
       /\ Forall inject_acceptable injects
       /\ List.NoDup (map Inject.sequence_number injects)
       /\ (Validator.min_duration rules <= Scenario.total_delay injects
           <= Validator.max_duration rules))
  /\ Validator.iv_is_valid (snd (Validator.validate_injects self injects))
     = fst (Validator.validate_injects self injects)
  /\ (fst (Validator.validate_injects self injects) = true <->
      Validator.iv_issues (snd (Validator.validate_injects self injects)) = []).
Proof.
  intros rules n. unfold Validator.validate_injects. fold rules. fold n.
  destruct (Z.leb_spec (Validator.min_injects rules) n) as [Hmin|Hmin];
    [destruct (Z.leb_spec n (Validator.max_injects rules)) as [Hmax|Hmax]|];
    simpl;
    try (split; [split; [discriminate | intros [? _]; lia]
                |split; [reflexivity | split; discriminate]]).
  destruct (Validator.injects_loop injects ([], [], 0, []))
    as [[[details issues] total] seen] eqn:Hloop.
  apply injects_loop_spec in Hloop. destruct Hloop as [Ht Hi].
  rewrite Z.add_0_l in Ht. subst total.
  assert (Hfresh : fresh_sequence injects []
                   <-> List.NoDup (map Inject.sequence_number injects)).
  { rewrite fresh_sequence_NoDup. simpl. tauto. }
  destruct (Z.ltb_spec (Scenario.total_delay injects)
              (Validator.min_duration rules)) as [Hlo|Hlo].
  { simpl. rewrite andb_false_r.
    split; [split; [discriminate | intros (_ & _ & _ & ?); lia]|].
    split; [reflexivity|]. split; [discriminate|].
    intros H. apply app_eq_nil in H as [_ H]. discriminate. }
  destruct (Z.ltb_spec (Validator.max_duration rules)
              (Scenario.total_delay injects)) as [Hhi|Hhi].
  { simpl. rewrite andb_false_r.
    split; [split; [discriminate | intros (_ & _ & _ & ?); lia]|].
    split; [reflexivity|]. split; [discriminate|].
    intros H. apply app_eq_nil in H as [_ H]. discriminate. }
  simpl. rewrite andb_true_r.
  split; [|split; [reflexivity|]].
  - destruct issues as [|x issues].
    + split; [intros _|reflexivity].
      destruct (proj1 Hi eq_refl) as (_ & Hall & Hf).
      split; [lia|]. split; [exact Hall|]. split; [now apply Hfresh | lia].
    + split; [discriminate|]. intros (_ & Hall & Hnd & _).
      assert (H : x :: issues = []) by (apply Hi; tauto). discriminate.
  - destruct issues; split; try discriminate; reflexivity.
Qed.

Lemma validate_injects_spec (self : Validator.ScenarioValidator)
    (injects : list Inject.t) :
  fst (Validator.validate_injects self injects) = true
  <-> (Validator.min_injects (Validator._validation_rules self)
       <= Z.of_nat (length injects)
       <= Validator.max_injects (Validator._validation_rules self))
      /\ Forall inject_acceptable injects
      /\ List.NoDup (map Inject.sequence_number injects)
      /\ (Validator.min_duration (Validator._validation_rules self)
          <= Scenario.total_delay injects
          <= Validator.max_duration (Validator._validation_rules self)).
Proof. exact (proj1 (validate_injects_full self injects)). Qed.

(** X10: [validate_injects] accepts a list of injects exactly when their number
    is within the rules, each has a title, a description and the content
    fields, no sequence number repeats, and the delays add up to a duration
    within the rules; it then reports no issue. *)
Theorem validate_injects_valid_iff (self : Validator.ScenarioValidator)
    (injects : list Inject.t) :
  let rules := Validator._validation_rules self in
  let n := Z.of_nat (length injects) in
  (fst (Validator.validate_injects self injects) = true
   <-> (Validator.min_injects rules <= n <= Validator.max_injects rules)
       /\ Forall inject_acceptable injects
       /\ List.NoDup (map Inject.sequence_number injects)
       /\ (Validator.min_duration rules <= Scenario.total_delay injects
           <= Validator.max_duration rules))
  /\ Validator.iv_is_valid (snd (Validator.validate_injects self injects))
     = fst (Validator.validate_injects self injects)
  /\ (fst (Validator.validate_injects self injects) = true <->
      Validator.iv_issues (snd (Validator.validate_injects self injects)) = []).
Proof. exact (validate_injects_full self injects). Qed.

(** X11: an inject that the [Inject] constructor accepted has a known type and
    the three content fields, so the validator's content check never fails
    on it: it is valid exactly when its title and description are long
    enough, which the constructor does not check. *)
Theorem constructed_inject_validity (fresh : string) (now : Z)
    (d : Inject.Data) (inject : Inject.t) :
  Inject.init fresh now d = Ok inject ->
  In (Inject.type inject) Inject.valid_types
  /\ Forall (fun f => is_Some (Inject.content inject !! f)) Inject.required_fields
  /\ (Validator.si_is_valid (Validator._validate_single_inject inject) = true
      <-> 5 <= Validator.len (Inject.d_title d)
          /\ 20 <= Validator.len (Inject.d_description d))
  /\ Forall (fun issue => forall id missing,
                 issue <> Validator.MissingContentFields id missing)
            (Validator.si_issues (Validator._validate_single_inject inject)).
Proof.
  unfold Inject.init, Inject.validate_inject_type, Inject.validate_content.
  destruct (existsb (String.eqb (Inject.d_type d)) Inject.valid_types) eqn:Hty;
    [|discriminate].
  cbn [rbind].
  destruct (forallb (fun field => bool_decide (is_Some (Inject.d_content d !! field)))
              Inject.required_fields) eqn:Hc; [|discriminate].
  cbn [rbind]. intros H. inversion H; subst; clear H.
  assert (Hfields : Forall (fun f => is_Some (Inject.d_content d !! f))
                           Inject.required_fields).
  { rewrite forallb_forall in Hc. apply List.Forall_forall. intros f Hf.
    specialize (Hc f Hf). now apply bool_decide_eq_true in Hc. }
  split.
  { simpl. apply existsb_exists in Hty as (x & Hx & Heq).
    apply String.eqb_eq in Heq. now subst x. }
  split; [exact Hfields|].
  split.
  { rewrite (proj1 (_validate_single_inject_valid _)).
    unfold inject_acceptable. simpl. tauto. }
  unfold Validator._validate_single_inject.
  cbn [Inject.content Inject.title Inject.description Inject.id].
  assert (Hm : List.filter
                 (fun f => negb (bool_decide (is_Some (Inject.d_content d !! f))))
                 Inject.required_fields = []).
  { clear -Hfields. induction Hfields as [|f l Hf _ IH]; [reflexivity|].
    simpl. rewrite bool_decide_eq_true_2 by exact Hf. exact IH. }
  rewrite Hm.
  destruct (_ <? 5), (_ <? 20); simpl; repeat constructor; discriminate.
Qed.

Lemma constructed_inject_validity_witness :
  exists inject,
    Inject.init "generated-id" 0 (sample_record 1 10 sample_content) = Ok inject
    /\ Forall (fun f => is_Some (Inject.content inject !! f)) Inject.required_fields.
Proof.
  destruct (Inject.init "generated-id" 0 (sample_record 1 10 sample_content))
    as [inject|e] eqn:H; [|vm_compute in H; discriminate].
  exists inject. split; [reflexivity|].
  exact (proj1 (proj2 (constructed_inject_validity _ _ _ _ H))).
Defined.

End InjectValidation.

(** Settles a verdict whose gates have all been evaluated. *)
Ltac gates :=
  split;
  [split;
   [intros Hv;
    first [discriminate Hv
          | repeat split; intros;
            first [congruence | eexists; split; [reflexivity | eassumption]]]
   | intros (H1 & H2 & H3 & H4 & H5 & H6 & Hai);
     first [congruence
           | destruct (Hai eq_refl) as (c & Hc & Hq');
             inversion Hc; subst; congruence]]
  | split; [reflexivity
           | intros Hv; first [discriminate Hv | split; reflexivity]]].

Section ScenarioValidation.

Variable registry : gmap string Compliance.FrameworkDef.

Lemma _validate_basic_structure_issues (scenario : Scenario.t) :
  fst (Validator._validate_basic_structure scenario) = true ->
  snd (Validator._validate_basic_structure scenario) = [].
Proof.
  unfold Validator._validate_basic_structure.
  destruct (_ <? 5); [discriminate|].
  destruct (_ <? 20); [discriminate|].
  destruct (org_is_empty _); [discriminate|]. reflexivity.
Qed.

Lemma validate_scenario_spec (now : Z) (self : Validator.ScenarioValidator)
    (scenario : Scenario.t) :
  let rules := Validator._validation_rules self in
  let org := Validator._organization_context self in
  let out := Validator.validate_scenario registry now self scenario in
  let compliance :=
    fst (Validator.validate_compliance_requirements registry now self scenario
           (org_primary_framework org)) in
  (fst (fst out) = true
   <-> fst (Validator._validate_basic_structure scenario) = true
       /\ fst (Validator.validate_scenario_type (Scenario.type scenario) org) = true
       /\ fst (Validator.validate_scenario_complexity
                 (Scenario.complexity_level scenario) org) = true
       /\ fst (Validator.validate_injects self (Scenario.injects scenario)) = true
       /\ fst compliance = true
       /\ Qle_bool (Validator.compliance_threshold rules)
                   (Validator.summary_overall_score (snd compliance)) = true
       /\ (truthy_get (Scenario.metadata scenario) "ai_generated" = true ->
           exists confidence,
             Validator._validate_ai_content scenario = Ok confidence
             /\ Qle_bool (Validator.ai_content_confidence rules) confidence = true))
  /\ Validator.is_valid (snd (fst out)) = fst (fst out)
  /\ (fst (fst out) = true ->
      Validator.issues (snd (fst out)) = []
      /\ Validator.compliance_score (snd (fst out))
         = Validator.summary_overall_score (snd compliance)).
Proof.
  intros rules org out compliance. subst out compliance.
  unfold Validator.validate_scenario. fold rules. fold org.
  pose proof (_validate_basic_structure_issues scenario) as Hstruct.
  destruct (Validator._validate_basic_structure scenario) as [structure_ok iss].
  simpl in Hstruct.
  destruct structure_ok; simpl;
    [|split; [split; [discriminate | intros [? _]; discriminate]
             |split; [reflexivity | discriminate]]].
  rewrite (Hstruct eq_refl). clear Hstruct iss.
  destruct (Validator.validate_scenario_type (Scenario.type scenario) org)
    as [type_valid type_msg].
  destruct (Validator.validate_scenario_complexity
              (Scenario.complexity_level scenario) org)
    as [complexity_valid complexity_msg].
  destruct (validate_injects_full self (Scenario.injects scenario))
    as (_ & _ & Hiss).
  destruct (Validator.validate_injects self (Scenario.injects scenario))
    as [injects_valid inject_results].
  simpl in Hiss.
  destruct (Validator.validate_compliance_requirements registry now self scenario
              (org_primary_framework org))
    as [[compliance_valid compliance_results] self'].
  simpl.
  destruct (truthy_get (Scenario.metadata scenario) "ai_generated");
    [destruct (Validator._validate_ai_content scenario) as [confidence|e]|];
    simpl.
  - destruct type_valid, complexity_valid, injects_valid, compliance_valid,
             (Qle_bool (Validator.compliance_threshold rules)
                (Validator.summary_overall_score compliance_results)),
             (Qle_bool (Validator.ai_content_confidence rules) confidence) eqn:Hq;
      simpl;
      try (destruct (Validator.iv_issues inject_results) eqn:Hi;
           [exfalso; destruct Hiss as [_ Hiss]; specialize (Hiss eq_refl);
            discriminate|]);
      simpl; gates.
  - split; [split; [discriminate|]|split; [reflexivity|discriminate]].
    intros (_ & _ & _ & _ & _ & _ & Hai).
    destruct (Hai eq_refl) as (c & Hc & _). discriminate.
  - destruct type_valid, complexity_valid, injects_valid, compliance_valid,
             (Qle_bool (Validator.compliance_threshold rules)
                (Validator.summary_overall_score compliance_results));
      simpl;
      try (destruct (Validator.iv_issues inject_results) eqn:Hi;
           [exfalso; destruct Hiss as [_ Hiss]; specialize (Hiss eq_refl);
            discriminate|]);
      simpl; gates.
Qed.

(** X12: the verdict of [validate_scenario] is the conjunction of its gates:
    structure, scenario type, complexity, injects, the compliance verdict
    and score, and, for AI-generated scenarios, the content confidence.  A
    scenario declared valid has no issue reported. *)
Theorem validate_scenario_valid_iff (now : Z) (self : Validator.ScenarioValidator)
    (scenario : Scenario.t) :
  let rules := Validator._validation_rules self in
  let org := Validator._organization_context self in
  let out := Validator.validate_scenario registry now self scenario in
  let compliance :=
    fst (Validator.validate_compliance_requirements registry now self scenario
           (org_primary_framework org)) in
  (fst (fst out) = true
   <-> fst (Validator._validate_basic_structure scenario) = true
       /\ fst (Validator.validate_scenario_type (Scenario.type scenario) org) = true
       /\ fst (Validator.validate_scenario_complexity
                 (Scenario.complexity_level scenario) org) = true
       /\ fst (Validator.validate_injects self (Scenario.injects scenario)) = true
       /\ fst compliance = true
       /\ Qle_bool (Validator.compliance_threshold rules)
                   (Validator.summary_overall_score (snd compliance)) = true
       /\ (truthy_get (Scenario.metadata scenario) "ai_generated" = true ->
           exists confidence,
             Validator._validate_ai_content scenario = Ok confidence
             /\ Qle_bool (Validator.ai_content_confidence rules) confidence = true))
  /\ Validator.is_valid (snd (fst out)) = fst (fst out)
  /\ (fst (fst out) = true ->
      Validator.issues (snd (fst out)) = []
      /\ Validator.compliance_score (snd (fst out))
         = Validator.summary_overall_score (snd compliance)).
Proof. exact (validate_scenario_spec now self scenario). Qed.

Lemma valid_scenario_facts (now : Z) (self : Validator.ScenarioValidator)
    (scenario : Scenario.t) :
  fst (fst (Validator.validate_scenario registry now self scenario)) = true ->
  let rules := Validator._validation_rules self in
  let org := Validator._organization_context self in
  let r := snd (fst (Validator.validate_scenario registry now self scenario)) in
  let injects := Scenario.injects scenario in
  5 <= Validator.len (Scenario.title scenario)
  /\ 20 <= Validator.len (Scenario.description scenario)
  /\ In (Scenario.type scenario) (map fst SCENARIO_TYPES)
  /\ In (Scenario.type scenario) (default [] (org_scenario_capabilities org))
  /\ 1 <= Scenario.complexity_level scenario
     <= default 5 (org_max_complexity org)
  /\ Validator.min_injects rules <= Z.of_nat (length injects)
     <= Validator.max_injects rules
  /\ Forall inject_acceptable injects
  /\ List.NoDup (map Inject.sequence_number injects)
  /\ Validator.min_duration rules <= Scenario.total_delay injects
     <= Validator.max_duration rules
  /\ (Validator.compliance_threshold rules <= Validator.compliance_score r)%Q
  /\ Validator.issues r = []
  /\ (truthy_get (Scenario.metadata scenario) "ai_generated" = true ->
      (Validator.ai_content_confidence rules <= Validator.ai_confidence r)%Q).
Proof.
  intros Hvalid rules org r injects.
  destruct (validate_scenario_spec now self scenario)
    as (Hiff & _ & Hiss).
  cbv zeta in Hiff, Hiss. fold rules in Hiff. fold org in Hiff.
  destruct (proj1 Hiff Hvalid) as (Hs & Ht & Hc & Hi & _ & Hq & Hai).
  destruct (Hiss Hvalid) as (Hnil & Hscore). clear Hiff Hiss.
  assert (H1 : 5 <= Validator.len (Scenario.title scenario)
               /\ 20 <= Validator.len (Scenario.description scenario)).
  { unfold Validator._validate_basic_structure in Hs.
    destruct (Z.ltb_spec (Validator.len (Scenario.title scenario)) 5);
      [discriminate|].
    destruct (Z.ltb_spec (Validator.len (Scenario.description scenario)) 20);
      [discriminate|]. split; assumption. }
  assert (H2 : In (Scenario.type scenario) (map fst SCENARIO_TYPES)
               /\ In (Scenario.type scenario)
                     (default [] (org_scenario_capabilities org))).
  { unfold Validator.validate_scenario_type in Ht.
    destruct (in_keys (Scenario.type scenario) SCENARIO_TYPES) eqn:Hk;
      [|discriminate]. simpl in Ht.
    destruct (existsb (String.eqb (Scenario.type scenario))
                (default [] (org_scenario_capabilities org))) eqn:He;
      [|discriminate].
    split.
    - unfold in_keys in Hk. apply existsb_exists in Hk as (x & Hx & Heq).
      apply String.eqb_eq in Heq. subst x. exact Hx.
    - apply existsb_exists in He as (x & Hx & Heq).
      apply String.eqb_eq in Heq. now subst x. }
  assert (H3 : 1 <= Scenario.complexity_level scenario
               <= default 5 (org_max_complexity org)).
  { unfold Validator.validate_scenario_complexity in Hc.
    change (Validator.max_complexity_level Validator.VALIDATION_RULES) with 5 in Hc.
    destruct (Z.leb_spec 1 (Scenario.complexity_level scenario));
      [|discriminate].
    destruct (Z.leb_spec (Scenario.complexity_level scenario)
                (default 5 (org_max_complexity org))); [|discriminate].
    lia. }
  destruct (proj1 (validate_injects_spec self injects) Hi)
    as (H4 & H5 & H6 & H7).
  destruct H1, H2.
  do 9 (split; [assumption|]).
  split; [fold r in Hscore; rewrite Hscore; apply Qle_bool_iff; exact Hq|].
  split; [exact Hnil|].
  intros Hgen. destruct (Hai Hgen) as (c & Hc' & Hqc).
  subst r. unfold Validator.validate_scenario.
  destruct (Validator._validate_basic_structure scenario) as [[] iss];
    [|discriminate].
  simpl.
  destruct (Validator.validate_scenario_type _ _) as [? ?].
  destruct (Validator.validate_scenario_complexity _ _) as [? ?].
  destruct (Validator.validate_injects _ _) as [? ?].
  destruct (Validator.validate_compliance_requirements _ _ _ _ _)
    as [[? ?] ?].
  rewrite Hgen, Hc'. simpl. apply Qle_bool_iff. exact Hqc.
Qed.

(** X13: what a scenario that [validate_scenario] declares valid is like: its
    title and description are long enough, its type is one the organization
    is configured for, its complexity is within the range, its injects are
    as many as the rules ask, well formed and distinct in sequence number,
    their delays add up to a duration within the rules, the compliance
    score reaches the threshold, no issue is reported, and the confidence
    in AI-generated content reaches its threshold. *)
Theorem valid_scenario_shape (now : Z) (self : Validator.ScenarioValidator)
    (scenario : Scenario.t) :
  fst (fst (Validator.validate_scenario registry now self scenario)) = true ->
  let rules := Validator._validation_rules self in
  let org := Validator._organization_context self in
  let r := snd (fst (Validator.validate_scenario registry now self scenario)) in
  let injects := Scenario.injects scenario in
  5 <= Validator.len (Scenario.title scenario)
  /\ 20 <= Validator.len (Scenario.description scenario)
  /\ In (Scenario.type scenario) (map fst SCENARIO_TYPES)
  /\ In (Scenario.type scenario) (default [] (org_scenario_capabilities org))
  /\ 1 <= Scenario.complexity_level scenario
     <= default 5 (org_max_complexity org)
  /\ Validator.min_injects rules <= Z.of_nat (length injects)
     <= Validator.max_injects rules
  /\ Forall inject_acceptable injects
  /\ List.NoDup (map Inject.sequence_number injects)
  /\ Validator.min_duration rules <= Scenario.total_delay injects
     <= Validator.max_duration rules
  /\ (Validator.compliance_threshold rules <= Validator.compliance_score r)%Q
  /\ Validator.issues r = []
  /\ (truthy_get (Scenario.metadata scenario) "ai_generated" = true ->
      (Validator.ai_content_confidence rules <= Validator.ai_confidence r)%Q).
Proof. exact (valid_scenario_facts now self scenario). Qed.

(** X14: the validator keeps compliance results by scenario id and framework:
    once a scenario has been scored, a scenario with the same id is given
    the same result from the cache, whatever its compliance mapping now
    is. *)
Theorem compliance_cache_ignores_later_changes (now now' : Z)
    (self : Validator.ScenarioValidator) (scenario scenario' : Scenario.t)
    (framework_id : option string) :
  Scenario.id scenario' = Scenario.id scenario ->
  is_report (snd (fst (Validator.validate_compliance_requirements registry now
                         self scenario framework_id))) = true ->
  let first := Validator.validate_compliance_requirements registry now self
                 scenario framework_id in
  Validator.validate_compliance_requirements registry now' (snd first)
    scenario' framework_id
  = (fst first, snd first).
Proof.
  intros Hid Hrep first. subst first.
  unfold Validator.validate_compliance_requirements in *. rewrite Hid.
  set (key := (Scenario.id scenario +:+ ":" +:+ Validator.str_of_opt framework_id))
    in *.
  destruct (Validator._compliance_cache self !! key) as [cached|] eqn:Hc.
  - simpl. rewrite Hc. reflexivity.
  - match type of Hrep with
    | context [match ?a with Ok _ => _ | Raise _ => _ end] =>
        destruct a as [[is_compliant results]|e]
    end.
    + simpl. rewrite lookup_insert_eq. reflexivity.
    + simpl in Hrep. discriminate.
Qed.

(** X15: a compliance validation that fails is not kept: the validator is left
    as it was, and the failure is reported with the score 0. *)
Theorem failed_compliance_validation_is_not_cached (now : Z)
    (self : Validator.ScenarioValidator) (scenario : Scenario.t)
    (framework_id : option string) :
  let out := Validator.validate_compliance_requirements registry now self
               scenario framework_id in
  Validator._compliance_cache self
    !! (Scenario.id scenario +:+ ":" +:+ Validator.str_of_opt framework_id) = None ->
  is_report (snd (fst out)) = false ->
  snd out = self
  /\ fst (fst out) = false
  /\ Validator.summary_overall_score (snd (fst out)) = 0%Q.
Proof.
  intros out Hmiss Hrep. subst out.
  unfold Validator.validate_compliance_requirements in *. rewrite Hmiss in *.
  match type of Hrep with
  | context [match ?a with Ok _ => _ | Raise _ => _ end] =>
      destruct a as [[is_compliant results]|e]
  end.
  - simpl in Hrep. discriminate.
  - simpl. repeat split.
Qed.

(** X16: a validator whose framework (the organization's primary framework, or
    SOC 2 when it names none) is not a key of the framework table, exactly
    as written, declares no scenario valid whose compliance it has to
    compute: the score is reported as 0 and nothing is cached. *)
Theorem unsupported_framework_never_validates (now : Z)
    (self : Validator.ScenarioValidator) (scenario : Scenario.t) :
  let org := Validator._organization_context self in
  let framework := effective_framework org in
  registry !! framework = None ->
  Validator._compliance_cache self
    !! (Scenario.id scenario +:+ ":"
        +:+ Validator.str_of_opt (org_primary_framework org)) = None ->
  (0 < Validator.compliance_threshold (Validator._validation_rules self))%Q ->
  let out := Validator.validate_scenario registry now self scenario in
  fst (fst out) = false
  /\ (Validator.compliance_score (snd (fst out)) == 0)%Q
  /\ snd out = self.
Proof.
  intros org framework Hreg Hmiss Hthr out. subst out.
  assert (Hc : Validator.validate_compliance_requirements registry now self scenario
                 (org_primary_framework org)
               = ((false,
                   Validator.ErrorReport
                     (ValueError ("Unsupported compliance framework: "
                                  +:+ framework))), self)).
  { unfold Validator.validate_compliance_requirements. fold org. rewrite Hmiss.
    fold (effective_framework org). fold framework.
    unfold Compliance.validate_compliance_mapping. rewrite Hreg. reflexivity. }
  unfold Validator.validate_scenario. fold org.
  destruct (Validator._validate_basic_structure scenario) as [[] iss]; simpl;
    [|repeat split; reflexivity].
  destruct (Validator.validate_scenario_type _ _) as [? ?].
  destruct (Validator.validate_scenario_complexity _ _) as [? ?].
  destruct (Validator.validate_injects _ _) as [? ?].
  rewrite Hc. simpl.
  assert (Hq : Qle_bool (Validator.compliance_threshold
                           (Validator._validation_rules self)) 0 = false).
  { destruct (Qle_bool _ 0) eqn:E; [|reflexivity].
    apply Qle_bool_iff in E. lra. }
  destruct (truthy_get _ _); [destruct (Validator._validate_ai_content _)|];
    simpl; rewrite ?Hq, ?andb_false_r; simpl; repeat split; reflexivity.
Qed.

End ScenarioValidation.

Lemma valid_scenario_shape_witness :
  Forall inject_acceptable (Scenario.injects valid_sample_scenario)
  /\ List.NoDup (map Inject.sequence_number (Scenario.injects valid_sample_scenario)).
Proof.
  assert (Hvalid : fst (fst (Validator.validate_scenario
                               Compliance.COMPLIANCE_FRAMEWORKS 0
                               sample_validator valid_sample_scenario)) = true)
    by (vm_compute; reflexivity).
  destruct (valid_scenario_shape Compliance.COMPLIANCE_FRAMEWORKS 0
              sample_validator valid_sample_scenario Hvalid)
    as (_ & _ & _ & _ & _ & _ & Hall & Hnd & _).
  split; [exact Hall | exact Hnd].
Defined.

Lemma compliance_cache_ignores_later_changes_witness :
  let first := Validator.validate_compliance_requirements
                 Compliance.COMPLIANCE_FRAMEWORKS 0 sample_validator
                 (scenario_with cc1_mapping ∅ []) None in
  Validator.validate_compliance_requirements Compliance.COMPLIANCE_FRAMEWORKS 1
    (snd first) (scenario_with unknown_control_mapping ∅ []) None
  = (fst first, snd first).
Proof.
  apply (compliance_cache_ignores_later_changes Compliance.COMPLIANCE_FRAMEWORKS
           0 1 sample_validator (scenario_with cc1_mapping ∅ [])
           (scenario_with unknown_control_mapping ∅ []) None).
  - reflexivity.
  - vm_compute. reflexivity.
Defined.

Lemma failed_compliance_validation_is_not_cached_witness :
  snd (Validator.validate_compliance_requirements Compliance.COMPLIANCE_FRAMEWORKS
         0 sample_validator (scenario_with unknown_control_mapping ∅ []) None)
  = sample_validator.
Proof.
  apply (failed_compliance_validation_is_not_cached
           Compliance.COMPLIANCE_FRAMEWORKS 0 sample_validator
           (scenario_with unknown_control_mapping ∅ []) None).
  - vm_compute. reflexivity.
  - vm_compute. reflexivity.
Defined.

Lemma unsupported_framework_never_validates_witness :
  fst (fst (Validator.validate_scenario Compliance.COMPLIANCE_FRAMEWORKS 0
              upper_case_validator valid_sample_scenario)) = false
  /\ fst (fst (Validator.validate_scenario Compliance.COMPLIANCE_FRAMEWORKS 0
                 sample_validator valid_sample_scenario)) = true.
Proof.
  split; [|vm_compute; reflexivity].
  apply (unsupported_framework_never_validates Compliance.COMPLIANCE_FRAMEWORKS 0
           upper_case_validator valid_sample_scenario).
  - vm_compute. reflexivity.
  - vm_compute. reflexivity.
  - vm_compute. reflexivity.
Defined.

(** ** More on [generate_scenario] *)

Section GeneratorEffects.

Variable VState : Type.
Variable validate :
  Z -> VState -> Scenario.t -> (bool * Validator.ValidationResult) * VState.
Variable llm_scenario :
  nat -> string -> OrgContext -> list string -> Result Generator.ScenarioData.
Variable llm_injects :
  nat -> Generator.ScenarioData -> Z -> Result (list Inject.Data).
Variable str_of_context : OrgContext -> string.
Variable str_of_frameworks : list string -> string.
Variable config : Generator.Config.

Abbreviation World := (Generator.World VState).
Abbreviation add_injects := (Generator.add_injects VState).
Abbreviation attempt :=
  (Generator.attempt VState validate llm_scenario llm_injects config).
Abbreviation attempts_loop :=
  (Generator.attempts_loop VState validate llm_scenario llm_injects config).
Abbreviation generate_scenario :=
  (Generator.generate_scenario VState validate llm_scenario llm_injects
     str_of_context str_of_frameworks config).
Abbreviation cache_key :=
  (Generator._generate_cache_key str_of_context str_of_frameworks).

(** The inject loop leaves the metrics alone and hands on a scenario that
    differs from the one it was given in its stored injects only; the
    invariant of the stored injects is kept. *)
Lemma add_injects_scenario (records : list Inject.Data) :
  forall (s : Scenario.t) (w : World),
    Generator._performance_metrics (fst (add_injects records s w))
    = Generator._performance_metrics w
    /\ forall s', snd (add_injects records s w) = Ok s' ->
         (timeline_invariant s -> timeline_invariant s')
         /\ Scenario.type s' = Scenario.type s
         /\ Scenario.complexity_level s' = Scenario.complexity_level s
         /\ Scenario.duration_minutes s' = Scenario.duration_minutes s
         /\ Scenario.metadata s' = Scenario.metadata s
         /\ Scenario.organization_context s' = Scenario.organization_context s.
Proof.
  induction records as [|d records IH]; intros s w; simpl.
  - split; [reflexivity|]. intros s' H. inversion H; subst.
    split; [tauto|]. repeat split.
  - unfold Generator.bind.
    assert (Hstep : forall (i : Inject.t) (w0 : World),
               Generator._performance_metrics w0 = Generator._performance_metrics w ->
               let r := (let '(scenario', (success, error)) :=
                           Scenario.add_inject (Generator.now w) s i in
                         if negb success
                         then Generator.bind VState
                                (Generator.logger VState
                                   (Generator.WarningFailedToAddInject error))
                                (fun _ => add_injects records scenario')
                         else add_injects records scenario') w0 in
               Generator._performance_metrics (fst r)
               = Generator._performance_metrics w
               /\ forall s', snd r = Ok s' ->
                    (timeline_invariant s -> timeline_invariant s')
                    /\ Scenario.type s' = Scenario.type s
                    /\ Scenario.complexity_level s' = Scenario.complexity_level s
                    /\ Scenario.duration_minutes s' = Scenario.duration_minutes s
                    /\ Scenario.metadata s' = Scenario.metadata s
                    /\ Scenario.organization_context s'
                       = Scenario.organization_context s).
    { intros i w0 Hm0.
      pose proof (add_inject_step (Generator.now w) s i) as Hinv.
      destruct (add_inject_stored (Generator.now w) s i)
        as (_ & _ & Hty & Hc & Hd & Hm & _ & Ho & _).
      destruct (Scenario.add_inject (Generator.now w) s i) as [s1 [[|] err]];
        simpl in *.
      - destruct (IH s1 w0) as [Hmet Hs]. split; [congruence|].
        intros s' Hs'. destruct (Hs s' Hs') as (H1 & H2 & H3 & H4 & H5 & H6).
        split; [auto|]. repeat split; congruence.
      - unfold Generator.bind. simpl.
        match goal with |- context [add_injects records s1 ?w1] =>
          destruct (IH s1 w1) as [Hmet Hs] end.
        simpl in Hmet. split; [congruence|].
        intros s' Hs'. destruct (Hs s' Hs') as (H1 & H2 & H3 & H4 & H5 & H6).
        split; [auto|]. repeat split; congruence. }
    destruct (Inject.d_id d); simpl.
    + destruct (Inject.init "" (Generator.now w) d) as [i|e]; simpl.
      * apply (Hstep i w). reflexivity.
      * split; [reflexivity|discriminate].
    + destruct (Inject.init _ (Generator.now w) d) as [i|e]; simpl.
      * match goal with |- context [Scenario.add_inject _ s i] =>
          idtac end.
        apply (Hstep i). reflexivity.
      * split; [reflexivity|discriminate].
Qed.

Lemma Scenario_init_facts fresh t title description ty c org kwargs s :
  Scenario.init fresh t title description ty c org None kwargs = Ok s ->
  Scenario.type s = ty
  /\ in_keys ty SCENARIO_TYPES = true
  /\ Scenario.complexity_level s = c
  /\ 1 <= c <= 3
  /\ Scenario.duration_minutes s = DEFAULT_DURATION_MINUTES
  /\ Scenario.organization_context s = org
  /\ Scenario.metadata s = default ∅ (Scenario.kw_metadata kwargs)
  /\ Scenario.injects s = default [] (Scenario.kw_injects kwargs)
  /\ Scenario.compliance_mappings s
     = default {| Compliance.mapping_controls := None |}
               (Scenario.kw_compliance_mappings kwargs)
  /\ Scenario.title s = title
  /\ Scenario.description s = description
  /\ Scenario.id s = default fresh (Scenario.kw_id kwargs).
Proof.
  unfold Scenario.init, Scenario.validate_scenario_type.
  destruct (in_keys ty SCENARIO_TYPES) eqn:Hty; [|discriminate].
  cbn [rbind].
  destruct (Scenario.validate_complexity c) as [c'|e] eqn:Hc; [|discriminate].
  cbn [rbind]. intros H. inversion H; subst; clear H. simpl.
  assert (Hcc : c' = c /\ 1 <= c <= 3).
  { unfold Scenario.validate_complexity in Hc.
    destruct (existsb (Z.eqb c) (map snd SCENARIO_COMPLEXITY_LEVELS)) eqn:He;
      [|discriminate].
    inversion Hc; subst. split; [reflexivity|].
    apply existsb_exists in He as (x & Hx & Heq). apply Z.eqb_eq in Heq.
    subst x. simpl in Hx. lia. }
  destruct Hcc as [-> Hr]. repeat split; try reflexivity; lia.
Qed.

(** One pass through the loop body, in full: what it does to the services,
    and, when it returns a pair, where the pair comes from and where it
    goes. *)
Lemma attempt_trace gs key ty org fws c a (w : World) :
  let w1 := fst (attempt gs key ty org fws c a w) in
  Generator.scenario_calls w1 = S (Generator.scenario_calls w)
  /\ Generator.now w1 = Generator.now w
  /\ (Generator.injects_calls w <= Generator.injects_calls w1
      <= S (Generator.injects_calls w))%nat
  /\ (Generator.validator w1 = Generator.validator w
      \/ exists s, Generator.validator w1
                   = snd (validate (Generator.now w) (Generator.validator w) s))
  /\ match snd (attempt gs key ty org fws c a w) with
     | Ok (Some (s, v)) =>
         validate (Generator.now w) (Generator.validator w) s
         = ((true, v), Generator.validator w1)
         /\ Qle_bool (Generator.compliance_threshold config)
                     (Validator.compliance_score v) = true
         /\ generated_for ty org c s
         /\ Generator._cache w1
            = <[key := {| Generator.ce_scenario := s;
                          Generator.ce_validation := v;
                          Generator.ce_timestamp := Generator.now w |}]>
              (Generator._cache w)
         /\ counted_once (Generator._performance_metrics w)
                         (Generator._performance_metrics w1)
     | _ => Generator._cache w1 = Generator._cache w
            /\ Generator._performance_metrics w1
               = Generator._performance_metrics w
     end.
Proof.
  unfold Generator.attempt, Generator.bind, Generator.call_generate_scenario.
  simpl.
  destruct (llm_scenario _ ty org fws) as [data|e]; simpl;
    [|repeat split; auto].
  destruct (Scenario.init _ _ _ _ ty c org None _) as [s0|e] eqn:Hinit; simpl;
    [|repeat split; auto].
  apply Scenario_init_facts in Hinit
    as (Hty & Hin & Hc & Hr & Hd & Ho & Hm & Hi & _).
  simpl in Hm, Hi.
  unfold Generator.call_generate_injects. simpl.
  destruct (llm_injects _ data c) as [records|e]; simpl;
    [|repeat split; auto].
  match goal with |- context [add_injects records s0 ?w0] =>
    pose proof (add_injects_same_services VState records s0 w0) as Hsame;
    destruct (add_injects_scenario records s0 w0) as [Hmet Hsc];
    destruct (add_injects records s0 w0) as [w1 [s'|e]] end;
    simpl in *; destruct Hsame as (Hn & Hcalls & Hic & Hv & Hca); simpl in *;
    [|repeat split; auto; lia].
  destruct (Hsc s' eq_refl) as (Hinv & Hty' & Hc' & Hd' & Hm' & Ho').
  unfold Generator.call_validate_scenario. rewrite Hn, Hv.
  destruct (validate (Generator.now w) (Generator.validator w) s')
    as [[is_valid v] vs'] eqn:Hval. simpl.
  assert (Hvs : vs' = snd (validate (Generator.now w) (Generator.validator w) s'))
    by now rewrite Hval.
  assert (Hright : Generator.validator w = Generator.validator w
                   \/ exists s, vs' = snd (validate (Generator.now w)
                                             (Generator.validator w) s))
    by (right; exists s'; exact Hvs).
  destruct is_valid; simpl;
    [destruct (Qle_bool _ _) eqn:Hq; simpl|].
  - split; [assumption|]. split; [reflexivity|]. split; [lia|].
    split; [right; exists s'; exact Hvs|].
    split; [exact Hval|]. split; [exact Hq|]. split.
    + unfold generated_for. rewrite Hty', Hc', Hd', Hm', Ho', Hm.
      do 6 (split; [assumption|]).
      split; [reflexivity|]. split; [reflexivity|].
      apply Hinv. unfold timeline_invariant. rewrite Hi, Hd. simpl.
      split; [constructor|]. split; [constructor|].
      unfold Scenario.total_delay, zsum. simpl. discriminate.
    + split; [rewrite Hca; reflexivity|].
      unfold counted_once. simpl. rewrite Hmet. reflexivity.
  - split; [assumption|]. split; [reflexivity|]. split; [lia|].
    split; [right; exists s'; exact Hvs|]. split; assumption.
  - split; [assumption|]. split; [reflexivity|]. split; [lia|].
    split; [right; exists s'; exact Hvs|]. split; assumption.
Qed.

(** The loop, in full.  [I] is any property of the validator's state that
    validating keeps. *)
Lemma attempts_loop_trace (I : VState -> Prop) n gs key ty org fws c :
  (forall t vs s, I vs -> I (snd (validate t vs s))) ->
  forall a (w : World),
    I (Generator.validator w) ->
    let w1 := fst (attempts_loop n gs key ty org fws c a w) in
    I (Generator.validator w1)
    /\ Generator.now w1 = Generator.now w
    /\ (Generator.scenario_calls w <= Generator.scenario_calls w1
        <= Generator.scenario_calls w + n)%nat
    /\ (Generator.injects_calls w <= Generator.injects_calls w1)%nat
    /\ (Generator.injects_calls w1 + Generator.scenario_calls w
        <= Generator.scenario_calls w1 + Generator.injects_calls w)%nat
    /\ match snd (attempts_loop n gs key ty org fws c a w) with
       | Ok (s, v) =>
           (exists vs, I vs /\ fst (validate (Generator.now w) vs s) = (true, v))
           /\ Qle_bool (Generator.compliance_threshold config)
                       (Validator.compliance_score v) = true
           /\ generated_for ty org c s
           /\ Generator._cache w1
              = <[key := {| Generator.ce_scenario := s;
                            Generator.ce_validation := v;
                            Generator.ce_timestamp := Generator.now w |}]>
                (Generator._cache w)
           /\ counted_once (Generator._performance_metrics w)
                           (Generator._performance_metrics w1)
       | Raise e =>
           e = exhausted config
           /\ Generator._cache w1 = Generator._cache w
           /\ Generator._performance_metrics w1 = Generator._performance_metrics w
           /\ Generator.scenario_calls w1 = (Generator.scenario_calls w + n)%nat
       end.
Proof.
  intros HI. induction n as [|n IH]; intros a w Hw.
  - simpl. repeat split; auto; lia.
  - rewrite attempts_loop_S. unfold Generator.try_except, on_exception.
    pose proof (attempt_trace gs key ty org fws c a w) as Htr.
    cbv zeta in Htr.
    destruct (attempt gs key ty org fws c a w) as [w1 r] eqn:Hatt.
    simpl in Htr. destruct Htr as (Hsc & Hnow & Hic & Hval & Hres).
    assert (HI1 : I (Generator.validator w1)).
    { destruct Hval as [-> | [s ->]]; [exact Hw | apply HI, Hw]. }
    assert (Hrest : forall w2 : World,
               Generator.scenario_calls w2 = Generator.scenario_calls w1 ->
               Generator.injects_calls w2 = Generator.injects_calls w1 ->
               Generator.now w2 = Generator.now w1 ->
               Generator.validator w2 = Generator.validator w1 ->
               Generator._cache w2 = Generator._cache w ->
               Generator._performance_metrics w2 = Generator._performance_metrics w ->
               let out := attempts_loop n gs key ty org fws c (a + 1) w2 in
               I (Generator.validator (fst out))
               /\ Generator.now (fst out) = Generator.now w
               /\ (Generator.scenario_calls w <= Generator.scenario_calls (fst out)
                   <= Generator.scenario_calls w + S n)%nat
               /\ (Generator.injects_calls w <= Generator.injects_calls (fst out))%nat
               /\ (Generator.injects_calls (fst out) + Generator.scenario_calls w
                   <= Generator.scenario_calls (fst out) + Generator.injects_calls w)%nat
               /\ match snd out with
                  | Ok (s, v) =>
                      (exists vs, I vs
                                  /\ fst (validate (Generator.now w) vs s) = (true, v))
                      /\ Qle_bool (Generator.compliance_threshold config)
                                  (Validator.compliance_score v) = true
                      /\ generated_for ty org c s
                      /\ Generator._cache (fst out)
                         = <[key := {| Generator.ce_scenario := s;
                                       Generator.ce_validation := v;
                                       Generator.ce_timestamp := Generator.now w |}]>
                           (Generator._cache w)
                      /\ counted_once (Generator._performance_metrics w)
                                      (Generator._performance_metrics (fst out))
                  | Raise e =>
                      e = exhausted config
                      /\ Generator._cache (fst out) = Generator._cache w
                      /\ Generator._performance_metrics (fst out)
                         = Generator._performance_metrics w
                      /\ Generator.scenario_calls (fst out)
                         = (Generator.scenario_calls w + S n)%nat
                  end).
    { intros w2 E1 E2 E3 E4 E5 E6 out. subst out.
      assert (Hw2 : I (Generator.validator w2)) by (rewrite E4; exact HI1).
      specialize (IH (a + 1) w2 Hw2). cbv zeta in IH.
      destruct (attempts_loop n gs key ty org fws c (a + 1) w2) as [w3 r3].
      simpl in *. destruct IH as (J1 & J2 & J3 & J4 & J5 & J6).
      split; [exact J1|]. split; [congruence|]. split; [lia|]. split; [lia|].
      split; [lia|].
      destruct r3 as [[s v]|e].
      - destruct J6 as (K1 & K2 & K3 & K4 & K5).
        rewrite E3, Hnow in K1, K4. rewrite E5 in K4.
        split; [exact K1|]. split; [exact K2|]. split; [exact K3|].
        split; [exact K4|]. unfold counted_once in *. now rewrite <- E6.
      - destruct J6 as (K1 & K2 & K3 & K4).
        split; [exact K1|]. split; [congruence|]. split; [congruence|]. lia. }
    destruct r as [[[s v]|]|e]; simpl.
    + destruct Hres as (K1 & K2 & K3 & K4 & K5).
      split; [exact HI1|]. split; [exact Hnow|]. split; [lia|]. split; [lia|].
      split; [lia|].
      split; [exists (Generator.validator w); split; [exact Hw | now rewrite K1]|].
      split; [exact K2|]. split; [exact K3|]. split; [exact K4 | exact K5].
    + destruct Hres as [K1 K2]. apply Hrest; auto.
    + destruct Hres as [K1 K2]. unfold Generator.bind. simpl.
      apply Hrest; auto.
Qed.

(** X17: [generate_scenario] never moves the clock, calls the base-generation
    operation at most [max_attempts] times and the inject-generation
    operation at most as often, and raises only a [ValueError] for its
    arguments, before any call, or the [RuntimeError] of its exhausted
    loop, after exactly [max_attempts] calls; a call that raises leaves
    both the cache and the metrics as they were. *)
Theorem generate_scenario_effects (ty : string) (org : OrgContext)
    (fws : list string) (cl : option Z) (w : World) :
  let w' := fst (generate_scenario ty org fws cl w) in
  Generator.now w' = Generator.now w
  /\ (Generator.scenario_calls w <= Generator.scenario_calls w'
      <= Generator.scenario_calls w + Z.to_nat (Generator.max_attempts config))%nat
  /\ (Generator.injects_calls w <= Generator.injects_calls w')%nat
  /\ (Generator.injects_calls w' + Generator.scenario_calls w
      <= Generator.scenario_calls w' + Generator.injects_calls w)%nat
  /\ match snd (generate_scenario ty org fws cl w) with
     | Ok _ => True
     | Raise e =>
         Generator._cache w' = Generator._cache w
         /\ Generator._performance_metrics w' = Generator._performance_metrics w
         /\ ((exists msg, e = ValueError msg)
             /\ (in_keys ty SCENARIO_TYPES = false
                 \/ ~ 1 <= effective_complexity cl <= 5)
             /\ Generator.scenario_calls w' = Generator.scenario_calls w
             /\ Generator.validator w' = Generator.validator w
             \/ e = exhausted config
                /\ Generator.scenario_calls w'
                   = (Generator.scenario_calls w
                      + Z.to_nat (Generator.max_attempts config))%nat)
     end.
Proof.
  unfold Generator.generate_scenario, Generator.bind. simpl.
  destruct (in_keys ty SCENARIO_TYPES) eqn:Hty; simpl.
  2:{ repeat split; try lia. left. repeat split; eauto. }
  fold (effective_complexity cl).
  destruct (Z.leb_spec 1 (effective_complexity cl)); simpl.
  2:{ repeat split; try lia. left. repeat split; eauto. right. lia. }
  destruct (Z.leb_spec (effective_complexity cl) 5); simpl.
  2:{ repeat split; try lia. left. repeat split; eauto. right. lia. }
  unfold Generator._get_cached_scenario. simpl.
  set (key := cache_key ty org fws (effective_complexity cl)).
  assert (Hloop :
    let out := attempts_loop (Z.to_nat (Generator.max_attempts config))
                 (Generator.now w) key ty org fws (effective_complexity cl) 0
                 (fst (Generator.logger VState (Generator.InfoGenerating ty cl) w)) in
    Generator.now (fst out) = Generator.now w
    /\ (Generator.scenario_calls w <= Generator.scenario_calls (fst out)
        <= Generator.scenario_calls w + Z.to_nat (Generator.max_attempts config))%nat
    /\ (Generator.injects_calls w <= Generator.injects_calls (fst out))%nat
    /\ (Generator.injects_calls (fst out) + Generator.scenario_calls w
        <= Generator.scenario_calls (fst out) + Generator.injects_calls w)%nat
    /\ match snd out with
       | Ok _ => True
       | Raise e =>
           Generator._cache (fst out) = Generator._cache w
           /\ Generator._performance_metrics (fst out)
              = Generator._performance_metrics w
           /\ ((exists msg, e = ValueError msg)
               /\ (true = false \/ ~ 1 <= effective_complexity cl <= 5)
               /\ Generator.scenario_calls (fst out) = Generator.scenario_calls w
               /\ Generator.validator (fst out) = Generator.validator w
               \/ e = exhausted config
                  /\ Generator.scenario_calls (fst out)
                     = (Generator.scenario_calls w
                        + Z.to_nat (Generator.max_attempts config))%nat)
       end).
  { intros out. subst out.
    pose proof (attempts_loop_trace (fun _ => True)
                  (Z.to_nat (Generator.max_attempts config)) (Generator.now w)
                  key ty org fws (effective_complexity cl) (fun _ _ _ _ => I) 0
                  (fst (Generator.logger VState (Generator.InfoGenerating ty cl) w))
                  I) as Htr.
    cbv zeta in Htr. simpl in Htr.
    destruct (attempts_loop _ _ key ty org fws _ 0 _) as [w1 r]. simpl in *.
    destruct Htr as (_ & J2 & J3 & J4 & J5 & J6).
    do 4 (split; [assumption|]).
    destruct r as [[s v]|e]; [exact I|].
    destruct J6 as (K1 & K2 & K3 & K4).
    split; [exact K2|]. split; [exact K3|]. right. split; assumption. }
  destruct (Generator._cache w !! key) as [entry|]; [|exact Hloop].
  destruct (_ <? _); [|exact Hloop].
  simpl. repeat split; lia.
Qed.

(** X18: on a cache miss, the pair that [generate_scenario] returns is a
    candidate built for the request that the validator declared valid and
    whose compliance score reaches the generator's own threshold; it is
    stored in the cache under the request's key and counted in the
    metrics.  [I] is any property of the validator's state that validating
    keeps. *)
Theorem generated_scenario_is_accepted (I : VState -> Prop) (ty : string)
    (org : OrgContext) (fws : list string) (cl : option Z) (w w' : World)
    (s : Scenario.t) (v : Validator.ValidationResult) :
  (forall t vs s, I vs -> I (snd (validate t vs s))) ->
  I (Generator.validator w) ->
  snd (Generator._get_cached_scenario VState config
         (cache_key ty org fws (effective_complexity cl)) w) = Ok None ->
  generate_scenario ty org fws cl w = (w', Ok (s, v)) ->
  (exists vs, I vs /\ fst (validate (Generator.now w) vs s) = (true, v))
  /\ Qle_bool (Generator.compliance_threshold config)
              (Validator.compliance_score v) = true
  /\ generated_for ty org (effective_complexity cl) s
  /\ Generator._cache w'
     = <[cache_key ty org fws (effective_complexity cl)
         := {| Generator.ce_scenario := s;
               Generator.ce_validation := v;
               Generator.ce_timestamp := Generator.now w |}]>
       (Generator._cache w)
  /\ counted_once (Generator._performance_metrics w)
                  (Generator._performance_metrics w')
  /\ I (Generator.validator w').
Proof.
  intros HI Hw Hmiss Hgen.
  destruct (generate_scenario_Ok_args VState validate llm_scenario llm_injects
              str_of_context str_of_frameworks config _ _ _ _ _ _ _ Hgen)
    as [Hty Hc].
  rewrite (generate_scenario_miss VState validate llm_scenario llm_injects
             str_of_context str_of_frameworks config _ _ _ _ _ Hty Hc Hmiss)
    in Hgen.
  pose proof (attempts_loop_trace I
                (Z.to_nat (Generator.max_attempts config)) (Generator.now w)
                (cache_key ty org fws (effective_complexity cl)) ty org fws
                (effective_complexity cl) HI 0
                (fst (Generator.logger VState (Generator.InfoGenerating ty cl) w))
                Hw) as Htr.
  cbv zeta in Htr. rewrite Hgen in Htr. simpl in Htr.
  destruct Htr as (J1 & _ & _ & _ & _ & K1 & K2 & K3 & K4 & K5).
  repeat (split; [assumption|]). exact J1.
Qed.

End GeneratorEffects.

(** ** The generator with the shipped validator *)

Lemma generated_scenario_is_accepted_witness :
  Qle_bool (Generator.compliance_threshold Generator.default_config)
    (Validator.compliance_score (snd (returned (first_call accept_all)))) = true
  /\ generated_for "security_incident" sample_org 3
       (fst (returned (first_call accept_all))).
Proof.
  assert (Hok : is_Ok (snd (first_call accept_all)) = true)
    by (vm_compute; reflexivity).
  assert (Hgen : first_call accept_all
                 = (fst (first_call accept_all),
                    Ok (fst (returned (first_call accept_all)),
                        snd (returned (first_call accept_all))))).
  { unfold returned. destruct (first_call accept_all) as [w1 [[s v]|e]];
      [reflexivity|discriminate]. }
  assert (Hmiss : snd (Generator._get_cached_scenario nat Generator.default_config
                         (Generator._generate_cache_key sample_str_of_context
                            sample_str_of_frameworks "security_incident" sample_org
                            ["soc2"] (effective_complexity (Some 3)))
                         (init_world 0 0%nat)) = Ok None)
    by (vm_compute; reflexivity).
  destruct (generated_scenario_is_accepted nat (scripted_validator accept_all)
              (fixed_scenario_source sample_data) (fixed_injects_source three_records)
              sample_str_of_context sample_str_of_frameworks Generator.default_config
              (fun _ => True) "security_incident" sample_org ["soc2"] (Some 3)
              (init_world 0 0%nat) (fst (first_call accept_all))
              (fst (returned (first_call accept_all)))
              (snd (returned (first_call accept_all)))
              (fun _ _ _ _ => I) I Hmiss Hgen)
    as (_ & Hq & Hfor & _).
  split; [exact Hq | exact Hfor].
Defined.

Lemma scored_inject_exists (l : list Inject.t) :
  flat_map (fun inject =>
              match Inject.metadata inject !! "ai_content_score" with
              | Some v => if truthy v then [v] else []
              | None => []
              end) l <> [] ->
  Exists (fun inject =>
            truthy_get (Inject.metadata inject) "ai_content_score" = true) l.
Proof.
  induction l as [|i l IH]; simpl; intros H; [congruence|].
  destruct (truthy_get (Inject.metadata i) "ai_content_score") eqn:Hi;
    [now left|].
  right. apply IH. unfold truthy_get in Hi.
  destruct (Inject.metadata i !! "ai_content_score") as [x|];
    [rewrite Hi in H|]; exact H.
Qed.

Section Pipeline.

Variable registry : gmap string Compliance.FrameworkDef.
Variable llm_scenario :
  nat -> string -> OrgContext -> list string -> Result Generator.ScenarioData.
Variable llm_injects :
  nat -> Generator.ScenarioData -> Z -> Result (list Inject.Data).
Variable str_of_context : OrgContext -> string.
Variable str_of_frameworks : list string -> string.
Variable config : Generator.Config.

(** Validating changes nothing of the validator but its cache. *)
Lemma validate_scenario_keeps_configuration (now : Z)
    (self : Validator.ScenarioValidator) (scenario : Scenario.t) :
  let self' := snd (Validator.validate_scenario registry now self scenario) in
  Validator._validation_rules self' = Validator._validation_rules self
  /\ Validator._organization_context self' = Validator._organization_context self.
Proof.
  unfold Validator.validate_scenario.
  destruct (Validator._validate_basic_structure scenario) as [[] iss]; simpl;
    [|split; reflexivity].
  destruct (Validator.validate_scenario_type _ _) as [? ?].
  destruct (Validator.validate_scenario_complexity _ _) as [? ?].
  destruct (Validator.validate_injects _ _) as [? ?].
  assert (Hc : let out := Validator.validate_compliance_requirements registry now
                            self scenario
                            (org_primary_framework
                               (Validator._organization_context self)) in
               Validator._validation_rules (snd out)
               = Validator._validation_rules self
               /\ Validator._organization_context (snd out)
                  = Validator._organization_context self).
  { unfold Validator.validate_compliance_requirements.
    destruct (Validator._compliance_cache self !! _); [split; reflexivity|].
    match goal with
    | |- context [match ?a with Ok _ => _ | Raise _ => _ end] =>
        destruct a as [[? ?]|?]
    end; split; reflexivity. }
  cbv zeta in Hc.
  destruct (Validator.validate_compliance_requirements registry now self scenario _)
    as [[? ?] self'].
  simpl in Hc.
  destruct (truthy_get _ _); [destruct (Validator._validate_ai_content _)|];
    simpl; exact Hc.
Qed.

(** X19: with the shipped validator, a scenario that [generate_scenario] returns
    on a cache miss has passed every gate: its injects are as many as the
    rules ask, each is well formed, their sequence numbers are distinct and
    ascending, their delays add up to at least the rules' minimum and at
    most the default duration of 60 minutes, the compliance score reaches
    both thresholds, and, since the generator marks the scenario as AI
    generated without scoring its description, some inject carries a
    content-quality score. *)
Theorem generated_scenario_passes_every_gate (ty : string) (org : OrgContext)
    (fws : list string) (cl : option Z)
    (w w' : Generator.World Validator.ScenarioValidator)
    (s : Scenario.t) (v : Validator.ValidationResult) :
  let rules := Validator._validation_rules (Generator.validator w) in
  snd (Generator._get_cached_scenario Validator.ScenarioValidator config
         (Generator._generate_cache_key str_of_context str_of_frameworks
            ty org fws (effective_complexity cl)) w) = Ok None ->
  Generator.generate_scenario Validator.ScenarioValidator
    (Validator.validate_scenario registry) llm_scenario llm_injects
    str_of_context str_of_frameworks config ty org fws cl w = (w', Ok (s, v)) ->
  (0 < Validator.ai_content_confidence rules)%Q ->
  (Validator.min_injects rules <= Z.of_nat (length (Scenario.injects s))
   <= Validator.max_injects rules)
  /\ Forall inject_acceptable (Scenario.injects s)
  /\ timeline_invariant s
  /\ (Validator.min_duration rules <= Scenario.total_delay (Scenario.injects s)
      <= DEFAULT_DURATION_MINUTES)
  /\ In ty (default [] (org_scenario_capabilities
                          (Validator._organization_context (Generator.validator w))))
  /\ 1 <= Scenario.complexity_level s <= 3
  /\ (Validator.compliance_threshold rules <= Validator.compliance_score v)%Q
  /\ (Generator.compliance_threshold config <= Validator.compliance_score v)%Q
  /\ Exists (fun inject =>
               truthy_get (Inject.metadata inject) "ai_content_score" = true)
            (Scenario.injects s)
  /\ Validator.is_valid v = true
  /\ Validator.issues v = [].
Proof.
  intros rules Hmiss Hgen Hthr.
  set (I := fun vs : Validator.ScenarioValidator =>
              Validator._validation_rules vs = rules
              /\ Validator._organization_context vs
                 = Validator._organization_context (Generator.validator w)).
  assert (HI : forall t vs0 s0, I vs0 ->
                 I (snd (Validator.validate_scenario registry t vs0 s0))).
  { intros t vs0 s0 [H1 H2].
    destruct (validate_scenario_keeps_configuration t vs0 s0) as [K1 K2].
    split; congruence. }
  assert (Hw : I (Generator.validator w)) by (split; reflexivity).
  destruct (generate_scenario_Ok_args Validator.ScenarioValidator
              (Validator.validate_scenario registry) llm_scenario llm_injects
              str_of_context str_of_frameworks config _ _ _ _ _ _ _ Hgen)
    as [Hin Hrange].
  rewrite (generate_scenario_miss Validator.ScenarioValidator
             (Validator.validate_scenario registry) llm_scenario llm_injects
             str_of_context str_of_frameworks config _ _ _ _ _ Hin Hrange Hmiss)
    in Hgen.
  pose proof (attempts_loop_trace Validator.ScenarioValidator
                (Validator.validate_scenario registry) llm_scenario llm_injects
                config I (Z.to_nat (Generator.max_attempts config))
                (Generator.now w)
                (Generator._generate_cache_key str_of_context str_of_frameworks
                   ty org fws (effective_complexity cl)) ty org fws
                (effective_complexity cl) HI 0
                (fst (Generator.logger Validator.ScenarioValidator
                        (Generator.InfoGenerating ty cl) w)) Hw) as Htr.
  cbv zeta in Htr. rewrite Hgen in Htr. simpl in Htr.
  destruct Htr as (_ & _ & _ & _ & _ & (vs & [Hrules Horg] & Hval) & Hq & Hfor & _).
  destruct Hfor as (Hty & _ & Hc & Hr & Hd & _ & Hai & Hdesc & Hinv).
  assert (Hvalid : fst (fst (Validator.validate_scenario registry
                               (Generator.now w) vs s)) = true)
    by now rewrite Hval.
  assert (Hv : snd (fst (Validator.validate_scenario registry
                           (Generator.now w) vs s)) = v)
    by now rewrite Hval.
  pose proof (valid_scenario_facts registry (Generator.now w) vs s Hvalid) as Hshape.
  cbv zeta in Hshape. rewrite Hv, Hrules, Horg, Hty in Hshape.
  destruct Hshape as (_ & _ & _ & Hcap & _ & Hn & Hall & _ & Hdur & Hcs & Hiss & Hconf).
  destruct (validate_scenario_spec registry (Generator.now w) vs s)
    as (Hiff & Hisv & _).
  cbv zeta in Hiff, Hisv. rewrite Hv in Hisv.
  destruct (proj1 Hiff Hvalid) as (_ & _ & _ & _ & _ & _ & Hgate).
  destruct (Hgate Hai) as (confidence & Hconfidence & Hqc).
  rewrite Hrules in Hqc.
  split; [exact Hn|]. split; [exact Hall|]. split; [exact Hinv|].
  split.
  { split; [apply Hdur|]. destruct Hinv as (_ & _ & Hfit). now rewrite Hd in Hfit. }
  split; [exact Hcap|]. split; [rewrite Hc; exact Hr|].
  split; [exact Hcs|]. split; [apply Qle_bool_iff; exact Hq|].
  split.
  { apply scored_inject_exists. intros Hnil.
    unfold Validator._validate_ai_content in Hconfidence.
    rewrite Hai in Hconfidence. simpl in Hconfidence.
    unfold Validator.confidence_scores in Hconfidence.
    rewrite Hdesc, Hnil in Hconfidence. simpl in Hconfidence.
    inversion Hconfidence; subst. apply Qle_bool_iff in Hqc. lra. }
  split; [rewrite Hisv; exact Hvalid | exact Hiss].
Qed.

End Pipeline.

Lemma generated_scenario_passes_every_gate_witness :
  Exists (fun inject =>
            truthy_get (Inject.metadata inject) "ai_content_score" = true)
         (Scenario.injects
            (fst (shipped_returned (shipped_first_call scored_records))))
  /\ Validator.issues (snd (shipped_returned (shipped_first_call scored_records)))
     = [].
Proof.
  assert (Hok : is_Ok (snd (shipped_first_call scored_records)) = true)
    by (vm_compute; reflexivity).
  assert (Hgen : shipped_first_call scored_records
                 = (fst (shipped_first_call scored_records),
                    Ok (fst (shipped_returned (shipped_first_call scored_records)),
                        snd (shipped_returned (shipped_first_call scored_records))))).
  { unfold shipped_returned.
    destruct (shipped_first_call scored_records) as [w1 [[s v]|e]];
      [reflexivity|discriminate]. }
  assert (Hmiss : snd (Generator._get_cached_scenario Validator.ScenarioValidator
                         Generator.default_config
                         (Generator._generate_cache_key sample_str_of_context
                            sample_str_of_frameworks "security_incident" sample_org
                            ["soc2"] (effective_complexity (Some 3)))
                         (init_world 0 sample_validator)) = Ok None)
    by (vm_compute; reflexivity).
  assert (Hthr : (0 < Validator.ai_content_confidence
                        (Validator._validation_rules sample_validator))%Q)
    by (vm_compute; reflexivity).
  destruct (generated_scenario_passes_every_gate Compliance.COMPLIANCE_FRAMEWORKS
              (fixed_scenario_source sample_data)
              (fixed_injects_source scored_records)
              sample_str_of_context sample_str_of_frameworks
              Generator.default_config "security_incident" sample_org ["soc2"]
              (Some 3) (init_world 0 sample_validator)
              (fst (shipped_first_call scored_records))
              (fst (shipped_returned (shipped_first_call scored_records)))
              (snd (shipped_returned (shipped_first_call scored_records)))
              Hmiss Hgen Hthr)
    as (_ & _ & _ & _ & _ & _ & _ & _ & Hex & _ & Hiss).
  split; [exact Hex | exact Hiss].
Defined.

(** ** Regenerating injects and customizing a scenario *)

Section Customize.

Variable VState : Type.
Variable validate :
  Z -> VState -> Scenario.t -> (bool * Validator.ValidationResult) * VState.
Variable validate_injects :
  VState -> list Inject.t -> (bool * Validator.InjectsValidation) * VState.
Variable llm_injects_focused :
  nat -> Generator.ScenarioSummary -> Z -> option (list string)
  -> Result (list Inject.Data).

Abbreviation World := (Generator.World VState).
Abbreviation build_injects := (Generator.build_injects VState).
Abbreviation regenerate_injects :=
  (Generator.regenerate_injects VState validate_injects llm_injects_focused).
Abbreviation customize_scenario :=
  (Generator.customize_scenario VState validate validate_injects
     llm_injects_focused).

(** Constructing the injects of a list of records touches neither the
    clock, the content source, the validator nor the cache; it succeeds
    exactly when every record is well formed, and each inject then carries
    its record's data. *)
Lemma build_injects_spec (records : list Inject.Data) :
  forall w : World,
    same_services w (fst (build_injects records w))
    /\ Generator._performance_metrics (fst (build_injects records w))
       = Generator._performance_metrics w
    /\ match snd (build_injects records w) with
       | Ok injects =>
           Forall2 built_from records injects
           /\ Forall (fun d => well_formed d = true) records
       | Raise _ => ~ Forall (fun d => well_formed d = true) records
       end.
Proof.
  induction records as [|d records IH]; intros w.
  - simpl. split; [repeat split|]. split; [reflexivity|].
    split; constructor.
  - simpl. unfold Generator.bind.
    assert (Hstep : forall (fresh : string) (w0 : World),
               same_services w w0 ->
               Generator._performance_metrics w0 = Generator._performance_metrics w ->
               let out :=
                 match Inject.init fresh (Generator.now w0) d with
                 | Ok inject =>
                     match build_injects records w0 with
                     | (w', Ok injects) => (w', Ok (inject :: injects))
                     | (w', Raise e) => (w', Raise e)
                     end
                 | Raise e => (w0, Raise e)
                 end in
               same_services w (fst out)
               /\ Generator._performance_metrics (fst out)
                  = Generator._performance_metrics w
               /\ match snd out with
                  | Ok injects =>
                      Forall2 built_from (d :: records) injects
                      /\ Forall (fun d => well_formed d = true) (d :: records)
                  | Raise _ =>
                      ~ Forall (fun d => well_formed d = true) (d :: records)
                  end).
    { intros fresh w0 Hs Hm. simpl.
      destruct (well_formed d) eqn:Hwf.
      - destruct (well_formed_init fresh (Generator.now w0) d Hwf)
          as (i & Hi & Hseq & Hdel).
        rewrite Hi.
        assert (Hb : built_from d i).
        { unfold Inject.init in Hi.
          destruct (Inject.validate_inject_type (Inject.d_type d)) as [ty|] eqn:Ht;
            [|discriminate].
          destruct (Inject.validate_content (Inject.d_content d)) as [ct|] eqn:Hc;
            [|discriminate].
          simpl in Hi. inversion Hi; subst; clear Hi.
          unfold Inject.validate_inject_type in Ht.
          destruct (existsb _ _); [|discriminate]. inversion Ht; subst.
          unfold Inject.validate_content in Hc.
          destruct (forallb _ _); [|discriminate]. inversion Hc; subst.
          repeat split. }
        destruct (IH w0) as (Hs' & Hm' & Hr).
        destruct (build_injects records w0) as [w' [injects|e]]; simpl in *.
        + split; [eapply same_services_trans; eassumption|].
          split; [congruence|]. destruct Hr as [Hf Hall].
          split; constructor; assumption.
        + split; [eapply same_services_trans; eassumption|].
          split; [congruence|]. intros Hall. apply Hr.
          now apply Forall_inv_tail in Hall.
      - destruct (malformed_init fresh (Generator.now w0) d Hwf) as [e He].
        rewrite He. simpl. split; [exact Hs|]. split; [exact Hm|].
        intros Hall. apply Forall_inv in Hall. congruence. }
    destruct (Inject.d_id d); simpl.
    + apply (Hstep "" w); [apply same_services_refl | reflexivity].
    + match goal with
      | |- context [build_injects records ?w0] =>
          apply (Hstep (Generator.uuid4 (Generator.uuid_draws w)) w0);
            [repeat split | reflexivity]
      end.
Qed.

(** [regenerate_injects], in full. *)
Lemma regenerate_injects_trace (scenario : Scenario.t)
    (complexity_level : option Z) (compliance_focus : option (list string))
    (w : World) :
  let out := regenerate_injects scenario complexity_level compliance_focus w in
  let answer :=
    llm_injects_focused (Generator.injects_calls w)
      {| Generator.ss_id := Scenario.id scenario;
         Generator.ss_title := Scenario.title scenario;
         Generator.ss_description := Scenario.description scenario;
         Generator.ss_type := Scenario.type scenario;
         Generator.ss_compliance_mappings := Scenario.compliance_mappings scenario |}
      (match complexity_level with
       | Some c => if c =? 0 then Scenario.complexity_level scenario else c
       | None => Scenario.complexity_level scenario
       end) compliance_focus in
  Generator.injects_calls (fst out) = S (Generator.injects_calls w)
  /\ Generator.scenario_calls (fst out) = Generator.scenario_calls w
  /\ Generator.now (fst out) = Generator.now w
  /\ Generator._cache (fst out) = Generator._cache w
  /\ Generator._performance_metrics (fst out) = Generator._performance_metrics w
  /\ match snd out with
     | Ok (success, injects, report) =>
         exists records candidates,
           answer = Ok records
           /\ Forall (fun d => well_formed d = true) records
           /\ Forall2 built_from records candidates
           /\ validate_injects (Generator.validator w) candidates
              = ((success, report), Generator.validator (fst out))
           /\ (if success then Forall2 built_from records injects
               else injects = [])
     | Raise e =>
         Generator.validator (fst out) = Generator.validator w
         /\ (answer = Raise e
             \/ exists records,
                  answer = Ok records
                  /\ ~ Forall (fun d => well_formed d = true) records)
     end.
Proof.
  intros out answer. subst out.
  unfold Generator.regenerate_injects, Generator.bind,
    Generator.call_generate_injects_focused.
  simpl. fold answer.
  destruct answer as [records|e] eqn:Hans; simpl.
  2:{ repeat split; auto. }
  match goal with |- context [build_injects records ?w0] =>
    destruct (build_injects_spec records w0)
      as ((Hn & Hsc & Hic & Hv & Hca) & Hm & Hr);
    destruct (build_injects records w0) as [w1 [candidates|e]] end;
    simpl in *.
  2:{ do 5 (split; [assumption|]). split; [assumption|]. right.
      exists records. split; [reflexivity | exact Hr]. }
  destruct Hr as [Hbuilt Hwf].
  unfold Generator.call_validate_injects. rewrite Hv.
  destruct (validate_injects (Generator.validator w) candidates)
    as [[is_valid report] vs'] eqn:Hval.
  simpl. destruct is_valid; simpl.
  - match goal with |- context [build_injects records ?w0] =>
      destruct (build_injects_spec records w0)
        as ((Hn2 & Hsc2 & Hic2 & Hv2 & Hca2) & Hm2 & Hr2);
      destruct (build_injects records w0) as [w2 [injects|e]] end;
      simpl in *.
    + split; [congruence|]. split; [congruence|]. split; [congruence|].
      split; [congruence|]. split; [congruence|].
      exists records, candidates. split; [reflexivity|].
      split; [exact Hwf|]. split; [exact Hbuilt|].
      split; [now rewrite Hv2 | apply Hr2].
    + exfalso. apply Hr2. exact Hwf.
  - do 5 (split; [assumption|]).
    exists records, candidates. repeat split; assumption.
Qed.

(** The loop that adds the regenerated injects is a series of [add_inject]
    calls at the current instant, whatever each of them returns. *)
Lemma add_each_spec (injects : list Inject.t) :
  forall (s : Scenario.t) (w : World),
    Generator.add_each VState injects s w
    = (w, Ok (add_all s (map (fun inject => (Generator.now w, inject)) injects))).
Proof.
  induction injects as [|i injects IH]; intros s w; simpl; [reflexivity|].
  unfold Generator.bind. simpl. rewrite IH. reflexivity.
Qed.

(** The scenario that [customize_scenario] constructs before it adds any
    inject. *)
Lemma customized_init (base : Scenario.t) (params : Generator.CustomizationParams)
    (fresh : string) (t : Z) (s : Scenario.t) :
  Scenario.init fresh t
    (default (Scenario.title base) (Generator.cp_title params))
    (default (Scenario.description base) (Generator.cp_description params))
    (Scenario.type base) (customized_complexity base params)
    (Scenario.organization_context base) None
    {| Scenario.kw_id := None;
       Scenario.kw_injects := None;
       Scenario.kw_compliance_mappings := Some (Scenario.compliance_mappings base);
       Scenario.kw_metadata := None;
       Scenario.kw_telemetry := None |} = Ok s ->
  bare_copy base params fresh s /\ Scenario.injects s = [].
Proof.
  intros H. apply Scenario_init_facts in H
    as (Hty & Hin & Hc & Hr & Hd & Ho & Hm & Hi & Hcm & Hti & Hde & Hid).
  simpl in *. unfold bare_copy.
  repeat split; try assumption; try lia.
Qed.

Lemma bare_copy_add_all (base : Scenario.t) (params : Generator.CustomizationParams)
    (fresh : string) (calls : list (Z * Inject.t)) :
  forall s : Scenario.t,
    bare_copy base params fresh s -> bare_copy base params fresh (add_all s calls).
Proof.
  induction calls as [|[t inject] calls IH]; intros s Hs; [exact Hs|].
  unfold add_all in *. simpl. apply IH. clear IH.
  unfold bare_copy in *.
  destruct Hs as (Hid & Hty & Hin & Hti & Hde & Hc & Hr & Ho & Hcm & Hd & Hm).
  destruct (add_inject_stored t s inject)
    as (_ & Kid & Kty & Kc & Kd & Km & Kcm & Ko & Kti & Kde).
  cbv zeta in *.
  repeat split; try congruence; try lia.
Qed.

(** [customize_scenario], in full. *)
Lemma customize_scenario_trace (base : Scenario.t)
    (params : Generator.CustomizationParams)
    (requirements : option (list string)) (w : World) :
  let out := customize_scenario base params requirements w in
  Generator.scenario_calls (fst out) = Generator.scenario_calls w
  /\ Generator.now (fst out) = Generator.now w
  /\ Generator._cache (fst out) = Generator._cache w
  /\ Generator._performance_metrics (fst out) = Generator._performance_metrics w
  /\ (Generator.cp_regenerate_injects params = false ->
      Generator.injects_calls (fst out) = Generator.injects_calls w)
  /\ match snd out with
     | Ok (is_valid, s, report) =>
         bare_copy base params (Generator.uuid4 (Generator.uuid_draws w)) s
         /\ timeline_invariant s
         /\ match report with
            | inl _ =>
                Generator.cp_regenerate_injects params = true
                /\ is_valid = false /\ Scenario.injects s = []
            | inr v =>
                (exists vs, fst (validate (Generator.now w) vs s) = (is_valid, v))
                /\ (Generator.cp_regenerate_injects params = false ->
                    Scenario.injects s = []
                    /\ validate (Generator.now w) (Generator.validator w) s
                       = ((is_valid, v), Generator.validator (fst out)))
            end
     | Raise e =>
         (exists msg, e = ValueError msg)
         /\ (in_keys (Scenario.type base) SCENARIO_TYPES = false
             \/ ~ 1 <= customized_complexity base params <= 3)
         /\ same_services w (fst out)
         \/ Generator.cp_regenerate_injects params = true
            /\ 1 <= customized_complexity base params <= 3
     end.
Proof.
  intros out. subst out.
  unfold Generator.customize_scenario, Generator.bind. simpl.
  fold (customized_complexity base params).
  destruct (Scenario.init _ _ _ _ (Scenario.type base)
              (customized_complexity base params) _ None _) as [s0|e] eqn:Hinit;
    simpl.
  2:{ do 4 (split; [reflexivity|]). split; [reflexivity|]. left.
      unfold Scenario.init, Scenario.validate_scenario_type in Hinit.
      destruct (in_keys (Scenario.type base) SCENARIO_TYPES) eqn:Hty.
      - cbn [rbind] in Hinit.
        destruct (Scenario.validate_complexity (customized_complexity base params))
          as [c'|e'] eqn:Hc; [discriminate|].
        cbn [rbind] in Hinit. inversion Hinit; subst.
        unfold Scenario.validate_complexity in Hc.
        destruct (existsb _ _) eqn:Hex; [discriminate|]. inversion Hc; subst.
        split; [eauto|]. split; [|repeat split].
        right. intros Hr. apply validate_complexity_Ok in Hr.
        unfold Scenario.validate_complexity in Hr. rewrite Hex in Hr. discriminate.
      - cbn [rbind] in Hinit. inversion Hinit; subst.
        split; [eauto|]. split; [now left | repeat split]. }
  pose proof Hinit as Hfacts.
  apply Scenario_init_facts in Hfacts as (_ & _ & _ & Hrange & _).
  apply customized_init in Hinit as [Hcopy Hnil].
  assert (Hinv0 : timeline_invariant s0).
  { unfold timeline_invariant. rewrite Hnil.
    destruct Hcopy as (_ & _ & _ & _ & _ & _ & _ & _ & _ & Hd & _).
    rewrite Hd. simpl. split; [constructor|]. split; [constructor|].
    unfold Scenario.total_delay, zsum. simpl. discriminate. }
  destruct (Generator.cp_regenerate_injects params) eqn:Hregen.
  - match goal with
    | |- context [Generator.regenerate_injects VState validate_injects
                    llm_injects_focused s0 ?cl requirements ?w0] =>
        pose proof (regenerate_injects_trace s0 cl requirements w0) as Htr;
        cbv zeta in Htr;
        destruct (Generator.regenerate_injects VState validate_injects
                    llm_injects_focused s0 cl requirements w0)
          as [w1 [[[success injects] report]|e]]
    end; simpl in Htr; destruct Htr as (_ & Hsc & Hn & Hca & Hm & Hres); simpl.
    + destruct success; simpl.
      * rewrite add_each_spec. simpl.
        unfold Generator.call_validate_scenario.
        destruct (validate (Generator.now w1) (Generator.validator w1) _)
          as [[is_valid v] vs'] eqn:Hval.
        simpl. do 4 (split; [assumption|]). split; [discriminate|].
        split; [apply bare_copy_add_all; exact Hcopy|].
        split; [apply add_all_invariant; exact Hinv0|].
        split; [|discriminate].
        exists (Generator.validator w1). rewrite <- Hn, Hval. reflexivity.
      * do 4 (split; [assumption|]). split; [discriminate|].
        split; [exact Hcopy|]. split; [exact Hinv0|]. repeat split. exact Hnil.
    + do 4 (split; [assumption|]). split; [discriminate|].
      right. split; [reflexivity | exact Hrange].
  - unfold Generator.call_validate_scenario. simpl.
    destruct (validate (Generator.now w) (Generator.validator w) s0)
      as [[is_valid v] vs'] eqn:Hval.
    simpl. do 5 (split; [reflexivity|]).
    split; [exact Hcopy|]. split; [exact Hinv0|]. split.
    + exists (Generator.validator w). now rewrite Hval.
    + intros _. split; [exact Hnil | exact Hval].
Qed.

(** X20: [regenerate_injects] asks the content source once and leaves the cache
    and the metrics alone.  It raises when the content source raises or one
    of its records is malformed, before the validator is consulted.
    Otherwise the validator judges injects built from the records; on a
    negative verdict no inject is returned, on a positive one injects built
    anew from the same records are. *)
Theorem regenerate_injects_outcome (scenario : Scenario.t)
    (complexity_level : option Z) (compliance_focus : option (list string))
    (w : World) :
  let out := regenerate_injects scenario complexity_level compliance_focus w in
  let answer :=
    llm_injects_focused (Generator.injects_calls w)
      {| Generator.ss_id := Scenario.id scenario;
         Generator.ss_title := Scenario.title scenario;
         Generator.ss_description := Scenario.description scenario;
         Generator.ss_type := Scenario.type scenario;
         Generator.ss_compliance_mappings := Scenario.compliance_mappings scenario |}
      (match complexity_level with
       | Some c => if c =? 0 then Scenario.complexity_level scenario else c
       | None => Scenario.complexity_level scenario
       end) compliance_focus in
  Generator.injects_calls (fst out) = S (Generator.injects_calls w)
  /\ Generator.scenario_calls (fst out) = Generator.scenario_calls w
  /\ Generator.now (fst out) = Generator.now w
  /\ Generator._cache (fst out) = Generator._cache w
  /\ Generator._performance_metrics (fst out) = Generator._performance_metrics w
  /\ match snd out with
     | Ok (success, injects, report) =>
         exists records candidates,
           answer = Ok records
           /\ Forall (fun d => well_formed d = true) records
           /\ Forall2 built_from records candidates
           /\ validate_injects (Generator.validator w) candidates
              = ((success, report), Generator.validator (fst out))
           /\ (if success then Forall2 built_from records injects
               else injects = [])
     | Raise e =>
         Generator.validator (fst out) = Generator.validator w
         /\ (answer = Raise e
             \/ exists records,
                  answer = Ok records
                  /\ ~ Forall (fun d => well_formed d = true) records)
     end.
Proof.
  exact (regenerate_injects_trace scenario complexity_level compliance_focus w).
Qed.

(** X21: [customize_scenario] cannot produce a scenario of a complexity level
    other than 1, 2 or 3: the constructor raises [ValueError] before the
    content source or the validator is called, and nothing is changed. *)
Theorem customize_scenario_rejects_complexity (base : Scenario.t)
    (params : Generator.CustomizationParams)
    (requirements : option (list string)) (w : World) :
  ~ 1 <= customized_complexity base params <= 3 ->
  (exists msg,
      snd (customize_scenario base params requirements w)
      = Raise (ValueError msg))
  /\ same_services w (fst (customize_scenario base params requirements w)).
Proof.
  intros Hc.
  pose proof (customize_scenario_trace base params requirements w) as Htr.
  cbv zeta in Htr.
  destruct (customize_scenario base params requirements w)
    as [w1 [[[is_valid s] report]|e]]; simpl in *;
    destruct Htr as (_ & _ & _ & _ & _ & Hres).
  - destruct Hres as ((_ & _ & _ & _ & _ & _ & Hr & _) & _). contradiction.
  - destruct Hres as [([msg ->] & _ & Hs)|[_ Hr]]; [|contradiction].
    split; [eauto | exact Hs].
Qed.


End Customize.

(** ** Regenerating and customizing with the shipped validator *)

Section ShippedCustomize.

Variable registry : gmap string Compliance.FrameworkDef.
Variable llm_injects_focused :
  nat -> Generator.ScenarioSummary -> Z -> option (list string)
  -> Result (list Inject.Data).

(** Two lists of injects built from the same records agree on everything
    that [validate_injects] looks at. *)
Lemma built_from_same_records (records : list Inject.Data) :
  forall l1 l2 : list Inject.t,
    Forall2 built_from records l1 ->
    Forall2 built_from records l2 ->
    length l1 = length l2
    /\ map Inject.sequence_number l1 = map Inject.sequence_number l2
    /\ Scenario.total_delay l1 = Scenario.total_delay l2
    /\ (Forall inject_acceptable l1 -> Forall inject_acceptable l2).
Proof.
  induction records as [|d records IH]; intros l1 l2 H1 H2.
  - inversion H1; inversion H2; subst. repeat split. auto.
  - inversion H1 as [|? i1 ? r1 Hb1 Hf1]; inversion H2 as [|? i2 ? r2 Hb2 Hf2];
      subst.
    destruct (IH r1 r2 Hf1 Hf2) as (Hl & Hs & Ht & Ha).
    destruct Hb1 as (T1 & D1 & _ & S1 & L1 & C1).
    destruct Hb2 as (T2 & D2 & _ & S2 & L2 & C2).
    unfold Scenario.total_delay in *. simpl. rewrite !zsum_cons.
    split; [congruence|]. split; [congruence|]. split; [congruence|].
    intros Hall. apply Forall_cons_iff in Hall as [Hi Hall].
    constructor; [|now apply Ha].
    unfold inject_acceptable in *. rewrite T2, D2, C2, <- T1, <- D1, <- C1.
    exact Hi.
Qed.

(** X23: with the shipped validator, the injects that [regenerate_injects]
    returns with a positive verdict satisfy the rules themselves, although
    the verdict was given on other objects built from the same records:
    their number and the sum of their delays are within the rules, each has
    a title, a description and the content fields, and no sequence number
    repeats. *)
Theorem regenerated_injects_satisfy_the_rules (scenario : Scenario.t)
    (complexity_level : option Z) (compliance_focus : option (list string))
    (w w' : Generator.World Validator.ScenarioValidator)
    (injects : list Inject.t) (report : Validator.InjectsValidation) :
  Generator.regenerate_injects Validator.ScenarioValidator
    shipped_validate_injects llm_injects_focused scenario complexity_level
    compliance_focus w = (w', Ok (true, injects, report)) ->
  let rules := Validator._validation_rules (Generator.validator w) in
  (Validator.min_injects rules <= Z.of_nat (length injects)
   <= Validator.max_injects rules)
  /\ Forall inject_acceptable injects
  /\ List.NoDup (map Inject.sequence_number injects)
  /\ (Validator.min_duration rules <= Scenario.total_delay injects
      <= Validator.max_duration rules)
  /\ fst (Validator.validate_injects (Generator.validator w) injects) = true
  /\ Generator.validator w' = Generator.validator w.
Proof.
  intros Hrun rules.
  pose proof (regenerate_injects_trace Validator.ScenarioValidator
                shipped_validate_injects llm_injects_focused scenario
                complexity_level compliance_focus w) as Htr.
  cbv zeta in Htr. rewrite Hrun in Htr. simpl in Htr.
  destruct Htr as (_ & _ & _ & _ & _ & records & candidates & _ & _ & Hc & Hv & Hi).
  unfold shipped_validate_injects in Hv. inversion Hv as [[Hval Hvs]].
  destruct (built_from_same_records records candidates injects Hc Hi)
    as (Hlen & Hseq & Htot & Hacc).
  assert (Hok : fst (Validator.validate_injects (Generator.validator w) candidates)
                = true) by now rewrite Hval.
  apply (validate_injects_spec (Generator.validator w) candidates) in Hok.
  fold rules in Hok. destruct Hok as (Hn & Hall & Hnd & Hdur).
  rewrite Hlen in Hn. rewrite Hseq in Hnd. rewrite Htot in Hdur.
  assert (Hfacts : (Validator.min_injects rules <= Z.of_nat (length injects)
                    <= Validator.max_injects rules)
                   /\ Forall inject_acceptable injects
                   /\ List.NoDup (map Inject.sequence_number injects)
                   /\ (Validator.min_duration rules <= Scenario.total_delay injects
                       <= Validator.max_duration rules)).
  { repeat split; try apply Hn; try apply Hdur; auto. }
  destruct Hfacts as (F1 & F2 & F3 & F4).
  split; [exact F1|]. split; [exact F2|]. split; [exact F3|]. split; [exact F4|].
  split; [|first [congruence | reflexivity | symmetry; assumption]].
  apply (validate_injects_spec (Generator.validator w) injects).
  fold rules. repeat split; try apply F1; try apply F4; assumption.
Qed.

(** X24: with the shipped validator and rules that ask for at least one inject,
    [customize_scenario] without [regenerate_injects] never returns a valid
    scenario: the scenario it validates holds no inject. *)
Theorem customize_without_regeneration_is_never_valid (base : Scenario.t)
    (params : Generator.CustomizationParams)
    (requirements : option (list string))
    (w w' : Generator.World Validator.ScenarioValidator)
    (is_valid : bool) (s : Scenario.t)
    (report : Validator.InjectsValidation + Validator.ValidationResult) :
  Generator.cp_regenerate_injects params = false ->
  1 <= Validator.min_injects (Validator._validation_rules (Generator.validator w)) ->
  Generator.customize_scenario Validator.ScenarioValidator
    (Validator.validate_scenario registry) shipped_validate_injects
    llm_injects_focused base params requirements w
  = (w', Ok (is_valid, s, report)) ->
  is_valid = false /\ Scenario.injects s = [].
Proof.
  intros Hregen Hmin Hrun.
  pose proof (customize_scenario_trace Validator.ScenarioValidator
                (Validator.validate_scenario registry) shipped_validate_injects
                llm_injects_focused base params requirements w) as Htr.
  cbv zeta in Htr. rewrite Hrun in Htr. simpl in Htr.
  destruct Htr as (_ & _ & _ & _ & _ & _ & _ & Hrep).
  destruct report as [r|v].
  - destruct Hrep as (Ht & _). congruence.
  - destruct Hrep as (_ & Hn). destruct (Hn Hregen) as [Hnil Hval].
    split; [|exact Hnil].
    destruct is_valid; [|reflexivity]. exfalso.
    assert (Hok : fst (fst (Validator.validate_scenario registry (Generator.now w)
                              (Generator.validator w) s)) = true)
      by now rewrite Hval.
    apply (proj1 (validate_scenario_spec registry (Generator.now w)
                    (Generator.validator w) s)) in Hok.
    destruct Hok as (_ & _ & _ & Hinj & _).
    apply (validate_injects_spec (Generator.validator w) (Scenario.injects s))
      in Hinj.
    rewrite Hnil in Hinj. simpl in Hinj. lia.
Qed.

End ShippedCustomize.

Lemma customize_scenario_rejects_complexity_witness :
  exists msg,
    snd (shipped_customize three_records valid_sample_scenario (only_complexity 4)
           (init_world 0 sample_validator))
    = Raise (ValueError msg).
Proof.
  assert (Hc : ~ 1 <= customized_complexity valid_sample_scenario (only_complexity 4)
                 <= 3)
    by (unfold customized_complexity; simpl; lia).
  exact (proj1 (customize_scenario_rejects_complexity Validator.ScenarioValidator
                  (Validator.validate_scenario Compliance.COMPLIANCE_FRAMEWORKS)
                  shipped_validate_injects (fixed_focused_source three_records)
                  valid_sample_scenario (only_complexity 4) None
                  (init_world 0 sample_validator) Hc)).
Defined.


Lemma regenerated_injects_satisfy_the_rules_witness :
  let run := shipped_regenerate three_records valid_sample_scenario
               (init_world 0 sample_validator) in
  Forall inject_acceptable (regenerated run)
  /\ List.NoDup (map Inject.sequence_number (regenerated run)).
Proof.
  intros run.
  assert (Hok : match snd run with
                | Ok (success, _, _) => success
                | Raise _ => false
                end = true) by (vm_compute; reflexivity).
  assert (Hrun : run = (fst run,
                        Ok (true, regenerated run, regenerated_report run))).
  { unfold regenerated, regenerated_report.
    destruct run as [w1 [[[[|] injects] report]|e]];
      [reflexivity|discriminate|discriminate]. }
  destruct (regenerated_injects_satisfy_the_rules
              (fixed_focused_source three_records) valid_sample_scenario None None
              (init_world 0 sample_validator) (fst run) (regenerated run)
              (regenerated_report run) Hrun)
    as (_ & Hall & Hnd & _).
  split; [exact Hall | exact Hnd].
Defined.

Lemma customize_without_regeneration_is_never_valid_witness :
  let run := shipped_customize three_records valid_sample_scenario
               (only_complexity 3) (init_world 0 sample_validator) in
  customized_verdict run = false.
Proof.
  intros run.
  assert (Hok : is_Ok (snd run) = true) by (vm_compute; reflexivity).
  assert (Hrun : run = (fst run,
                        Ok (customized_verdict run, customized run,
                            customized_report run))).
  { unfold customized_verdict, customized, customized_report.
    destruct run as [w1 [[[is_valid s] report]|e]]; [reflexivity|discriminate]. }
  assert (Hmin : 1 <= Validator.min_injects
                        (Validator._validation_rules
                           (Generator.validator (init_world 0 sample_validator))))
    by (vm_compute; discriminate).
  exact (proj1 (customize_without_regeneration_is_never_valid
                  Compliance.COMPLIANCE_FRAMEWORKS
                  (fixed_focused_source three_records)
                  valid_sample_scenario (only_complexity 3) None
                  (init_world 0 sample_validator) (fst run)
                  (customized_verdict run) (customized run) (customized_report run)
                  eq_refl Hmin Hrun)).
Defined.

(** ** The sampling temperature *)

Section Temperature.

Local Open Scope Q_scope.

Lemma type_factor_cases (scenario_type : string) :
  let f := default 1 (dict_get LLM.type_factors scenario_type) in
  f = 9 # 10 \/ f = 8 # 10 \/ f = 6 # 10 \/ f = 1.
Proof.
  unfold LLM.type_factors, dict_get.
  destruct (String.eqb "security_incident" scenario_type); [simpl; auto|].
  destruct (String.eqb "business_continuity" scenario_type); [simpl; auto|].
  destruct (String.eqb "compliance_validation" scenario_type); simpl; auto.
Qed.

(** X25: the temperature falls as the complexity level rises; it is positive
    exactly below level 10, and for the levels 1 to 5 it lies between 0.21
    and 0.63. *)
Theorem calculate_temperature_range (scenario_type : string) (c : Z) :
  (0 < LLM._calculate_temperature scenario_type c <-> (c < 10)%Z)
  /\ (forall c' : Z, (c <= c')%Z ->
        LLM._calculate_temperature scenario_type c'
        <= LLM._calculate_temperature scenario_type c)
  /\ ((1 <= c <= 5)%Z ->
      21 # 100 <= LLM._calculate_temperature scenario_type c <= 63 # 100).
Proof.
  unfold LLM._calculate_temperature, LLM.DEFAULT_TEMPERATURE.
  pose proof (type_factor_cases scenario_type) as Hf. cbv zeta in Hf.
  set (f := default 1 (dict_get LLM.type_factors scenario_type)) in *.
  assert (Hpos : 6 # 10 <= f <= 1).
  { destruct Hf as [-> | [-> | [-> | ->]]]; split; vm_compute; discriminate. }
  clearbody f. clear Hf.
  split; [|split].
  - rewrite (Zlt_Qlt c 10). change (inject_Z 10) with 10.
    split; intros H.
    + destruct (Qlt_le_dec (inject_Z c) 10) as [Hlt|Hge]; [exact Hlt|].
      exfalso.
      assert (Hle : (7 # 10) * (1 - inject_Z c * (1 # 10)) * f <= 0 * f)
        by (apply Qmult_le_compat_r; lra).
      lra.
    + apply Qmult_lt_0_compat; [|lra].
      apply Qmult_lt_0_compat; lra.
  - intros c' Hle. rewrite Zle_Qle in Hle.
    apply Qmult_le_compat_r; [|lra]. lra.
  - intros [Hlo Hhi]. rewrite Zle_Qle in Hlo. rewrite Zle_Qle in Hhi.
    change (inject_Z 1) with 1 in Hlo. change (inject_Z 5) with 5 in Hhi.
    split.
    + apply Qle_trans with ((7 # 10) * (1 - inject_Z c * (1 # 10)) * (6 # 10));
        [lra|].
      rewrite !(Qmult_comm ((7 # 10) * (1 - inject_Z c * (1 # 10)))).
      apply Qmult_le_compat_r; lra.
    + apply Qle_trans with ((7 # 10) * (1 - inject_Z c * (1 # 10)) * 1); [|lra].
      rewrite !(Qmult_comm ((7 # 10) * (1 - inject_Z c * (1 # 10)))).
      apply Qmult_le_compat_r; lra.
Qed.

End Temperature.
